(** * Agent service: response normalisation and chat-session management

    A shallow embedding of [agents.py] (class [AgentService]) and of
    [blob_storage_service.py] (class [ChatStorageService]).

    Text is modelled as [string] (one character per byte); case folding and
    white space are the ASCII ones.  The blob container, the clock and the
    model pipeline are explicit inputs of the operations that use them. *)

From Stdlib Require Import ZArith NArith Ascii String List Bool Lia.
From Stdlib Require Import DecimalString.
From stdpp Require Import gmap strings.

Set Warnings "-register-all".

Local Open Scope string_scope.

(** ** Python text primitives

    A text is a sequence of 8-bit characters.  Of the characters above
    127 the functions below take none for white space and none for a
    letter: the texts they are faithful on are the ASCII texts. *)

Module Text.

Definition ord (c : ascii) : N := N_of_ascii c.

(** [str.lower] on one character. *)
Definition to_lower (c : ascii) : ascii :=
  let n := ord c in
  if ((65 <=? n) && (n <=? 90))%N then ascii_of_N (n + 32) else c.

Fixpoint lower (s : string) : string :=
  match s with
  | EmptyString => EmptyString
  | String c s' => String (to_lower c) (lower s')
  end.

(** [str.isspace] on one character: tab to carriage return, the four
    separators 0x1c-0x1f and the blank. *)
Definition isspace (c : ascii) : bool :=
  let n := ord c in
  (((9 <=? n) && (n <=? 13)) || ((28 <=? n) && (n <=? 32)))%N.

Fixpoint lstrip (s : string) : string :=
  match s with
  | EmptyString => EmptyString
  | String c s' => if isspace c then lstrip s' else s
  end.

Fixpoint rstrip (s : string) : string :=
  match s with
  | EmptyString => EmptyString
  | String c s' =>
      match rstrip s' with
      | EmptyString => if isspace c then EmptyString else String c EmptyString
      | t => String c t
      end
  end.

Definition strip (s : string) : string := rstrip (lstrip s).

Definition startswith (s p : string) : bool := String.prefix p s.

Fixpoint drop (n : nat) (s : string) : string :=
  match n, s with
  | O, _ => s
  | S n', String _ s' => drop n' s'
  | S _, EmptyString => EmptyString
  end.

Definition endswith (s p : string) : bool :=
  (String.length p <=? String.length s)%nat
  && String.eqb (drop (String.length s - String.length p) s) p.

(** [p in s] for two strings. *)
Fixpoint contains (p s : string) : bool :=
  String.prefix p s
  || match s with
     | EmptyString => false
     | String _ s' => contains p s'
     end.

(** [s.replace(old, new)] for a non-empty [old]; [skip] counts the
    characters of a replaced occurrence that are still to be passed. *)
Fixpoint replace_go (old new s : string) (skip : nat) : string :=
  match s with
  | EmptyString => EmptyString
  | String c s' =>
      match skip with
      | S k => replace_go old new s' k
      | O =>
          if String.prefix old s
          then new +:+ replace_go old new s' (String.length old - 1)
          else String c (replace_go old new s' 0)
      end
  end.

Definition replace (old new s : string) : string := replace_go old new s 0.

(** [s.split(sep)] for a one-character separator. *)
Fixpoint split (sep : ascii) (s : string) : list string :=
  match s with
  | EmptyString => [EmptyString]
  | String c s' =>
      if Ascii.eqb c sep then EmptyString :: split sep s'
      else match split sep s' with
           | w :: ws => String c w :: ws
           | [] => [String c EmptyString]
           end
  end.

(** [sep.join(parts)]. *)
Definition join (sep : string) (parts : list string) : string :=
  String.concat sep parts.

(** [s * n]. *)
Fixpoint repeat (s : string) (n : nat) : string :=
  match n with
  | O => EmptyString
  | S n' => s +:+ repeat s n'
  end.

Definition newline : ascii := ascii_of_N 10.
Definition dquote : ascii := ascii_of_N 34.

End Text.

(** ** The regular expressions of the normaliser

    A backtracking matcher with Python's priorities: alternatives left to
    right, greedy repetition longest first, lazy repetition shortest first.
    Every repetition of the source patterns is over a single character
    class, so [Star] repeats a class. *)

Module Re.

Inductive cset : Type :=
| CDot                         (* .  *)
| CLit (c : ascii)             (* a literal character *)
| CSpace                       (* \s *)
| CNoneOf (l : list ascii).    (* [^...] *)

Inductive regex : Type :=
| Eps
| One (c : cset)
| Star (greedy : bool) (c : cset)
| Seq (r1 r2 : regex)
| Alt (r1 r2 : regex)
| Group (r : regex)            (* the capturing group 1 *)
| Bol                          (* ^ *)
| Eol.                         (* $ *)

Record flags : Type := { dotall : bool; ignorecase : bool }.

Definition cmatch (fl : flags) (c : cset) (x : ascii) : bool :=
  match c with
  | CDot => dotall fl || negb (Ascii.eqb x Text.newline)
  | CLit a =>
      if ignorecase fl then Ascii.eqb (Text.to_lower a) (Text.to_lower x)
      else Ascii.eqb a x
  | CSpace => Text.isspace x
  | CNoneOf l => negb (existsb (Ascii.eqb x) l)
  end.

Record mstate : Type :=
  { pos : nat; rest : string; grp : option (nat * nat) }.

Fixpoint star {R : Type} (fl : flags) (c : cset) (greedy : bool)
    (s : string) (p : nat) (k : nat -> string -> option R) : option R :=
  match s with
  | EmptyString => k p s
  | String x s' =>
      if cmatch fl c x then
        if greedy then
          match star fl c greedy s' (S p) k with
          | Some r => Some r
          | None => k p s
          end
        else
          match k p s with
          | Some r => Some r
          | None => star fl c greedy s' (S p) k
          end
      else k p s
  end.

Fixpoint run {R : Type} (fl : flags) (r : regex) (st : mstate)
    (k : mstate -> option R) : option R :=
  match r with
  | Eps => k st
  | One c =>
      match rest st with
      | String x s' =>
          if cmatch fl c x
          then k {| pos := S (pos st); rest := s'; grp := grp st |}
          else None
      | EmptyString => None
      end
  | Star g c =>
      star fl c g (rest st) (pos st)
        (fun p s => k {| pos := p; rest := s; grp := grp st |})
  | Seq a b => run fl a st (fun st' => run fl b st' k)
  | Alt a b =>
      match run fl a st k with
      | Some x => Some x
      | None => run fl b st k
      end
  | Group a =>
      run fl a st
        (fun st' => k {| pos := pos st'; rest := rest st';
                         grp := Some (pos st, pos st') |})
  | Bol => if (pos st =? 0)%nat then k st else None
  | Eol =>
      match rest st with
      | EmptyString => k st
      | String x EmptyString =>
          if Ascii.eqb x Text.newline then k st else None
      | _ => None
      end
  end.

Definition match_at (fl : flags) (r : regex) (p : nat) (s : string)
  : option mstate :=
  run fl r {| pos := p; rest := s; grp := None |} Some.

(** [re.search]: the match at the leftmost position that has one. *)
Fixpoint search_from (fl : flags) (r : regex) (s : string) (p : nat)
  : option mstate :=
  match match_at fl r p s with
  | Some st => Some st
  | None =>
      match s with
      | EmptyString => None
      | String _ s' => search_from fl r s' (S p)
      end
  end.

Definition search (fl : flags) (r : regex) (s : string) : option mstate :=
  search_from fl r s 0.

(** [bool(re.search(...))]. *)
Definition found (fl : flags) (r : regex) (s : string) : bool :=
  match search fl r s with Some _ => true | None => false end.

(** [re.search(...).group(1)]. *)
Definition group1 (fl : flags) (r : regex) (s : string) : option string :=
  match search fl r s with
  | Some st =>
      match grp st with
      | Some (a, b) => Some (String.substring a (b - a) s)
      | None => None
      end
  | None => None
  end.

(** [re.sub(r, '', s)]: every non-overlapping match, leftmost first, is
    deleted. *)
Fixpoint delete_from (fl : flags) (r : regex) (s : string) (p skip : nat)
  : string :=
  match s with
  | EmptyString => EmptyString
  | String x s' =>
      match skip with
      | S k => delete_from fl r s' (S p) k
      | O =>
          match match_at fl r p s with
          | Some st =>
              match (pos st - p)%nat with
              | O => String x (delete_from fl r s' (S p) 0)
              | S k => delete_from fl r s' (S p) k
              end
          | None => String x (delete_from fl r s' (S p) 0)
          end
      end
  end.

Definition delete_all (fl : flags) (r : regex) (s : string) : string :=
  delete_from fl r s 0 0.

(** Pattern combinators. *)
Fixpoint lit (s : string) : regex :=
  match s with
  | EmptyString => Eps
  | String c EmptyString => One (CLit c)
  | String c s' => Seq (One (CLit c)) (lit s')
  end.

Fixpoint seq (l : list regex) : regex :=
  match l with
  | [] => Eps
  | [r] => r
  | r :: l' => Seq r (seq l')
  end.

Fixpoint alt (l : list regex) : regex :=
  match l with
  | [] => Eps
  | [r] => r
  | r :: l' => Alt r (alt l')
  end.

Definition dot_star : regex := Star true CDot.          (* .*  *)
Definition dot_star_lazy : regex := Star false CDot.    (* .*? *)
Definition dot_plus_lazy : regex :=                     (* .+? *)
  Seq (One CDot) (Star false CDot).
Definition ws : regex := Star true CSpace.              (* \s* *)

Definition no_flags : flags := {| dotall := false; ignorecase := false |}.
Definition IGNORECASE : flags := {| dotall := false; ignorecase := true |}.
Definition DOTALL_IGNORECASE : flags :=
  {| dotall := true; ignorecase := true |}.

End Re.

(** ** Python values and [json.loads]

    The decoder is a lexer followed by a one-pass parser over a stack of
    open containers; both recurse on their input, so they end on every
    text.  The parser reads the tokens in the order of the text and stops
    at the first that it cannot take.  A text that is not JSON raises
    [JSONDecodeError]; an integer literal of more digits than [int]
    converts raises [ValueError]; a container opened deeper than the
    interpreter lets the decoder recurse raises [RecursionError], and so
    does a [JSONDecodeError] that is built with fewer than three levels
    of recursion left (CPython 3.11).  The two limits are those of the
    interpreter at the call. *)

Module Json.

(** The values a model reply or a decoded JSON text can be.  [VFloat]
    keeps the literal as written; [VObj] is any other object, named by
    its tag. *)
Inductive PyVal : Type :=
| VNone
| VBool (b : bool)
| VInt (z : Z)
| VFloat (literal : string)
| VStr (s : string)
| VList (l : list PyVal)
| VDict (d : list (string * PyVal))
| VObj (tag : string).

(** A [dict] with text keys, in insertion order. *)
Definition dict : Type := list (string * PyVal).

Fixpoint dict_get (k : string) (d : dict) : option PyVal :=
  match d with
  | [] => None
  | (k', v) :: d' => if String.eqb k k' then Some v else dict_get k d'
  end.

Definition dict_has (k : string) (d : dict) : bool :=
  match dict_get k d with Some _ => true | None => false end.

(** [d[k] = v]: a present key keeps its place. *)
Fixpoint dict_set (k : string) (v : PyVal) (d : dict) : dict :=
  match d with
  | [] => [(k, v)]
  | (k', v') :: d' =>
      if String.eqb k k' then (k, v) :: d' else (k', v') :: dict_set k v d'
  end.

(** [d.setdefault(k, v)]. *)
Definition dict_setdefault (k : string) (v : PyVal) (d : dict) : dict :=
  if dict_has k d then d else dict_set k v d.

Definition dict_keys (d : dict) : list string := map fst d.

(** *** Lexical analysis *)

(** [TInt] is an integer literal with the number of its digits;
    [TBadString] stands for a string literal that does not scan, and
    [TBad] where the text has no token. *)
Inductive token : Type :=
| TLBrace | TRBrace | TLBrack | TRBrack | TColon | TComma
| TString (s : string)
| TAtom (v : PyVal)
| TInt (digits : nat) (z : Z)
| TBadString
| TBad.

Definition is_digit (c : ascii) : bool :=
  let n := Text.ord c in ((48 <=? n) && (n <=? 57))%N.

Fixpoint count_digits (s : string) : nat :=
  match s with
  | String c s' => if is_digit c then S (count_digits s') else O
  | EmptyString => O
  end.

Fixpoint digits_value (s : string) (acc : Z) : Z :=
  match s with
  | String c s' =>
      if is_digit c
      then digits_value s' (10 * acc + Z.of_N (Text.ord c - 48))
      else acc
  | EmptyString => acc
  end.

(** A number, as the decoder takes it: an optional sign, then a zero or a
    digit run that starts with a non-zero digit, then an optional
    fraction (a point and digits) and an optional exponent; the token
    and the number of characters read. *)
Definition scan_number (s : string) : option (token * nat) :=
  let '(neg, body) :=
    match s with
    | String c s' => if Ascii.eqb c "-" then (true, s') else (false, s)
    | EmptyString => (false, s)
    end in
  let sign := if neg then 1%nat else 0%nat in
  let int_len :=
    match body with
    | String c _ => if Ascii.eqb c "0" then 1%nat else count_digits body
    | EmptyString => O
    end in
  match int_len with
  | O => None
  | _ =>
      let after_int := Text.drop int_len body in
      let frac_len :=
        match after_int with
        | String c t =>
            if Ascii.eqb c "." then
              match count_digits t with O => O | n => S n end
            else O
        | EmptyString => O
        end in
      let after_frac := Text.drop frac_len after_int in
      let exp_len :=
        match after_frac with
        | String e t =>
            if Ascii.eqb e "e" || Ascii.eqb e "E" then
              match t with
              | String sg t' =>
                  if Ascii.eqb sg "+" || Ascii.eqb sg "-" then
                    match count_digits t' with O => O | n => S (S n) end
                  else
                    match count_digits t with O => O | n => S n end
              | EmptyString => O
              end
            else O
        | EmptyString => O
        end in
      let total := (sign + int_len + frac_len + exp_len)%nat in
      match frac_len, exp_len with
      | O, O =>
          let z := digits_value body 0 in
          Some (TInt int_len (if neg then Z.opp z else z), total)
      | _, _ => Some (TAtom (VFloat (String.substring 0 total s)), total)
      end
  end.

Definition hex_digit (c : ascii) : option N :=
  let n := Text.ord c in
  if ((48 <=? n) && (n <=? 57))%N then Some (n - 48)%N
  else if ((97 <=? n) && (n <=? 102))%N then Some (n - 87)%N
  else if ((65 <=? n) && (n <=? 70))%N then Some (n - 55)%N
  else None.

Definition hex4 (a b c d : ascii) : option N :=
  match hex_digit a, hex_digit b, hex_digit c, hex_digit d with
  | Some x, Some y, Some z, Some w => Some (((x * 16 + y) * 16 + z) * 16 + w)%N
  | _, _, _, _ => None
  end.

(** What a string literal is made of: a character of the text, or a
    16-bit unit written as a [\u] escape. *)
Inductive unit16 : Type :=
| UChar (c : ascii)
| UEsc (n : N).

Definition simple_escape (e : ascii) : option ascii :=
  (if Ascii.eqb e Text.dquote then Some Text.dquote
   else if Ascii.eqb e "\" then Some "\"
   else if Ascii.eqb e "/" then Some "/"
   else if Ascii.eqb e "b" then Some (ascii_of_N 8)
   else if Ascii.eqb e "f" then Some (ascii_of_N 12)
   else if Ascii.eqb e "n" then Some (ascii_of_N 10)
   else if Ascii.eqb e "r" then Some (ascii_of_N 13)
   else if Ascii.eqb e "t" then Some (ascii_of_N 9)
   else None)%char.

(** The body of a string literal, after its opening quote: the units and
    the number of characters read, closing quote included.  A control
    character or an unknown escape is an error. *)
Fixpoint scan_string (s : string) (n : nat) : option (list unit16 * nat) :=
  match s with
  | EmptyString => None
  | String c s1 =>
      if Ascii.eqb c Text.dquote then Some ([], S n)
      else if Ascii.eqb c "\"%char then
        match s1 with
        | String e s2 =>
            if Ascii.eqb e "u"%char then
              match s2 with
              | String h1 (String h2 (String h3 (String h4 s3))) =>
                  match hex4 h1 h2 h3 h4 with
                  | Some u =>
                      match scan_string s3 (n + 6) with
                      | Some (us, m) => Some (UEsc u :: us, m)
                      | None => None
                      end
                  | None => None
                  end
              | _ => None
              end
            else
              match simple_escape e with
              | Some x =>
                  match scan_string s2 (n + 2) with
                  | Some (us, m) => Some (UChar x :: us, m)
                  | None => None
                  end
              | None => None
              end
        | EmptyString => None
        end
      else if (Text.ord c <? 32)%N then None
      else
        match scan_string s1 (S n) with
        | Some (us, m) => Some (UChar c :: us, m)
        | None => None
        end
  end.

(** UTF-8 bytes of a code point. *)
Definition utf8 (cp : N) : string :=
  let b (n : N) := ascii_of_N n in
  (if cp <? 128 then String (b cp) EmptyString
   else if cp <? 2048 then
     String (b (192 + cp / 64)) (String (b (128 + cp mod 64)) EmptyString)
   else if cp <? 65536 then
     String (b (224 + cp / 4096))
       (String (b (128 + (cp / 64) mod 64))
          (String (b (128 + cp mod 64)) EmptyString))
   else
     String (b (240 + cp / 262144))
       (String (b (128 + (cp / 4096) mod 64))
          (String (b (128 + (cp / 64) mod 64))
             (String (b (128 + cp mod 64)) EmptyString))))%N.

(** The text of a literal: an escaped high surrogate directly followed by
    an escaped low surrogate is one code point. *)
Fixpoint units_text (us : list unit16) : string :=
  match us with
  | [] => EmptyString
  | UChar c :: us' => String c (units_text us')
  | UEsc hi :: us' =>
      match us' with
      | UEsc lo :: us'' =>
          if ((55296 <=? hi) && (hi <=? 56319)
              && (56320 <=? lo) && (lo <=? 57343))%N
          then utf8 (65536 + (hi - 55296) * 1024 + (lo - 56320))%N
                 +:+ units_text us''
          else utf8 hi +:+ units_text us'
      | _ => utf8 hi +:+ units_text us'
      end
  end.

Definition keywords : list (string * PyVal) :=
  [ ("true", VBool true); ("false", VBool false); ("null", VNone);
    ("NaN", VFloat "NaN"); ("Infinity", VFloat "Infinity");
    ("-Infinity", VFloat "-Infinity") ].

Fixpoint scan_keyword (kws : list (string * PyVal)) (s : string)
  : option (token * nat) :=
  match kws with
  | [] => None
  | (w, v) :: kws' =>
      if String.prefix w s then Some (TAtom v, String.length w)
      else scan_keyword kws' s
  end.

Definition is_json_space (c : ascii) : bool :=
  let n := Text.ord c in
  ((n =? 32) || (n =? 9) || (n =? 10) || (n =? 13))%N.

Definition punct (c : ascii) : option token :=
  (if Ascii.eqb c "{" then Some TLBrace
   else if Ascii.eqb c "}" then Some TRBrace
   else if Ascii.eqb c "[" then Some TLBrack
   else if Ascii.eqb c "]" then Some TRBrack
   else if Ascii.eqb c ":" then Some TColon
   else if Ascii.eqb c "," then Some TComma
   else None)%char.

(** The tokens of a text, up to the first place that has none; [skip]
    counts the characters of the last token that are still to be
    passed. *)
Fixpoint lex (s : string) (skip : nat) : list token :=
  match s with
  | EmptyString => []
  | String c s' =>
      match skip with
      | S k => lex s' k
      | O =>
          if is_json_space c then lex s' 0
          else
            let emit (r : option (token * nat)) :=
              match r with
              | Some (t, S k) => t :: lex s' k
              | _ => [TBad]
              end in
            match punct c with
            | Some t => emit (Some (t, 1%nat))
            | None =>
                if Ascii.eqb c Text.dquote then
                  match scan_string s' 1 with
                  | Some (us, m) => emit (Some (TString (units_text us), m))
                  | None => [TBadString]
                  end
                else
                  match scan_keyword keywords s with
                  | Some r => emit (Some r)
                  | None => emit (scan_number s)
                  end
            end
      end
  end.

(** *** Syntax analysis: one step per token, over a stack of the
    containers that are still open. *)

Inductive frame : Type :=
| FArr (items : list PyVal)                 (* newest first *)
| FObj (d : dict)
| FObjKey (d : dict) (k : string).

Inductive pstate : Type :=
| SValue          (* a value *)
| SArrStart       (* a value or ] *)
| SObjStart       (* a key or } *)
| SKey            (* a key *)
| SColon          (* : *)
| SArrNext        (* , or ] *)
| SObjNext        (* , or } *)
| SDone (v : PyVal).

(** Why the decoder stops: no value starts where one is read
    ([StopIteration] in the scanner, turned into the error by its
    caller), the text is malformed at this place (the error is raised
    where it is found), or text follows the value. *)
Inductive refusal : Type := NoValue | Malformed | ExtraData.

Inductive step : Type :=
| Next (st : pstate) (stk : list frame)
| Stop (why : refusal).

Definition complete (v : PyVal) (stk : list frame) : step :=
  match stk with
  | [] => Next (SDone v) []
  | FArr items :: stk' => Next SArrNext (FArr (v :: items) :: stk')
  | FObjKey d k :: stk' => Next SObjNext (FObj (dict_set k v d) :: stk')
  | FObj _ :: _ => Stop Malformed
  end.

Definition open_value (t : token) (stk : list frame) : step :=
  match t with
  | TAtom v => complete v stk
  | TInt _ z => complete (VInt z) stk
  | TString s => complete (VStr s) stk
  | TLBrack => Next SArrStart (FArr [] :: stk)
  | TLBrace => Next SObjStart (FObj [] :: stk)
  | TBadString => Stop Malformed
  | _ => Stop NoValue
  end.

Definition pstep (t : token) (st : pstate) (stk : list frame) : step :=
  match st, t, stk with
  | SValue, _, _ => open_value t stk
  | SArrStart, TRBrack, FArr items :: stk' => complete (VList (rev items)) stk'
  | SArrStart, _, _ => open_value t stk
  | SObjStart, TRBrace, FObj d :: stk' => complete (VDict d) stk'
  | SObjStart, TString k, FObj d :: stk' => Next SColon (FObjKey d k :: stk')
  | SKey, TString k, FObj d :: stk' => Next SColon (FObjKey d k :: stk')
  | SColon, TColon, _ => Next SValue stk
  | SArrNext, TComma, _ => Next SValue stk
  | SArrNext, TRBrack, FArr items :: stk' => complete (VList (rev items)) stk'
  | SObjNext, TComma, _ => Next SKey stk
  | SObjNext, TRBrace, FObj d :: stk' => complete (VDict d) stk'
  | SDone _, _, _ => Stop ExtraData
  | _, _, _ => Stop Malformed
  end.

(** The interpreter's limits at the call: [sys.get_int_max_str_digits()]
    (0 for no limit) and the number of containers the decoder may have
    open at once before its recursion check fails. *)
Record Limits : Type :=
  { int_max_str_digits : nat; nesting_limit : nat }.

(** What [json.loads] does with a text: it returns the value, or raises;
    the two errors that are no [JSONDecodeError] carry their text. *)
Inductive decoded : Type :=
| Value (v : PyVal)
| JSONDecodeError
| ValueError (e : string)
| RecursionError (e : string).

Definition decimal (n : nat) : string :=
  NilZero.string_of_uint (Nat.to_uint n).

(** [int] refuses a digit run only beyond 640 digits, and then when a
    limit is set and the run is longer. *)
Definition too_long (lim : Limits) (digits : nat) : bool :=
  (640 <? digits)%nat
  && (0 <? int_max_str_digits lim)%nat
  && (int_max_str_digits lim <? digits)%nat.

Definition digits_error (lim : Limits) (digits : nat) : string :=
  "Exceeds the limit (" +:+ decimal (int_max_str_digits lim)
    +:+ " digits) for integer string conversion: value has "
    +:+ decimal digits
    +:+ " digits; use sys.set_int_max_str_digits() to increase the limit".

Definition depth_error (what : string) : string :=
  "maximum recursion depth exceeded while decoding a JSON " +:+ what
    +:+ " from a unicode string".

Definition call_error : string :=
  "maximum recursion depth exceeded while calling a Python object".

(** Building the [JSONDecodeError] with [room] levels of recursion
    left. *)
Definition decode_error (room : nat) : decoded :=
  match room with
  | 0 => RecursionError call_error
  | 1 => RecursionError "maximum recursion depth exceeded"
  | 2 => RecursionError call_error
  | _ => JSONDecodeError
  end.

(** The error of a refusal met with [depth] containers open: it is built
    in the scanner, in the scanner's caller or in the caller of that. *)
Definition refuse (lim : Limits) (why : refusal) (depth : nat) : decoded :=
  match why with
  | Malformed => decode_error (nesting_limit lim - depth)
  | NoValue => decode_error (nesting_limit lim + 1)
  | ExtraData => decode_error (nesting_limit lim + 2)
  end.

Definition expects_value (st : pstate) : bool :=
  match st with
  | SValue | SArrStart => true
  | _ => false
  end.

(** The two errors of a token where a value is read: the conversion of
    an integer literal, and the recursion check at an opening bracket. *)
Definition refused (lim : Limits) (t : token) (st : pstate)
    (stk : list frame) : option decoded :=
  if expects_value st then
    match t with
    | TInt digits _ =>
        if too_long lim digits
        then Some (ValueError (digits_error lim digits)) else None
    | TLBrace =>
        if (nesting_limit lim <=? length stk)%nat
        then Some (RecursionError (depth_error "object")) else None
    | TLBrack =>
        if (nesting_limit lim <=? length stk)%nat
        then Some (RecursionError (depth_error "array")) else None
    | _ => None
    end
  else None.

(** The end of the text. *)
Definition at_end (lim : Limits) (st : pstate) (stk : list frame)
  : decoded :=
  match st with
  | SDone v => Value v
  | SValue | SArrStart => refuse lim NoValue (length stk)
  | _ => refuse lim Malformed (length stk)
  end.

Fixpoint parse (lim : Limits) (ts : list token) (st : pstate)
    (stk : list frame) : decoded :=
  match ts with
  | [] => at_end lim st stk
  | t :: ts' =>
      match refused lim t st stk with
      | Some error => error
      | None =>
          match pstep t st stk with
          | Next st' stk' => parse lim ts' st' stk'
          | Stop why => refuse lim why (length stk)
          end
      end
  end.

(** [json.loads]. *)
Definition loads (lim : Limits) (s : string) : decoded :=
  parse lim (lex s 0) SValue [].

End Json.

(** ** Exceptions *)

(** The result of a call that can raise; [Raise] carries [str(e)]. *)
Inductive Res (A : Type) : Type :=
| Ok (a : A)
| Raise (e : string).
Arguments Ok {A} a.
Arguments Raise {A} e.

#[global] Instance res_ret : MRet Res := fun A a => Ok a.

#[global] Instance res_bind : MBind Res := fun A B f m =>
  match m with
  | Ok a => f a
  | Raise e => Raise e
  end.

(** [try: body / except Exception as e: handler(str(e))]. *)
Definition try_except {A : Type} (body : Res A) (handler : string -> A) : A :=
  match body with
  | Ok a => a
  | Raise e => handler e
  end.

Fixpoint res_map {A B : Type} (f : A -> Res B) (l : list A) : Res (list B) :=
  match l with
  | [] => Ok []
  | a :: l' => b ← f a; bs ← res_map f l'; Ok (b :: bs)
  end.

(** ** The response normaliser ([AgentService._parse_response]) *)

Module Normalizer.
Import Json.

Definition dq : string := String Text.dquote EmptyString.
Definition lf : string := String Text.newline EmptyString.

(** The five metadata flags. *)
Definition flag_keys : list string :=
  [ "userstory"; "testcase"; "devtask"; "needs_clarification";
    "needs_save_confirmation" ].

(** [_try_parse_json]'s [json_patterns], in order. *)
Definition json_patterns : list Re.regex :=
  [ Re.seq [ Re.lit "```json"; Re.ws;
             Re.Group (Re.seq [Re.lit "{"; Re.dot_star_lazy; Re.lit "}"]);
             Re.ws; Re.lit "```" ];
    Re.seq [ Re.lit "```"; Re.ws;
             Re.Group (Re.seq [Re.lit "{"; Re.dot_star_lazy; Re.lit "}"]);
             Re.ws; Re.lit "```" ];
    Re.Group
      (Re.seq [ Re.lit "{"; Re.Star true (Re.CNoneOf ["{"; "}"]%char);
                Re.lit (dq +:+ "content" +:+ dq);
                Re.Star true (Re.CNoneOf ["{"; "}"]%char); Re.lit "}" ]);
    Re.Group
      (Re.seq [ Re.lit "{"; Re.dot_star_lazy;
                Re.lit (dq +:+ "metadata" +:+ dq);
                Re.dot_star_lazy; Re.lit "}" ]) ].

(** The two substitutions of strategy 3. *)
Definition fence_anywhere : Re.regex :=
  Re.Alt (Re.seq [Re.lit "```json"; Re.ws]) (Re.seq [Re.ws; Re.lit "```"]).

Definition fence_at_ends : Re.regex :=
  Re.Alt (Re.seq [Re.Bol; Re.ws; Re.lit "```"; Re.ws])
         (Re.seq [Re.ws; Re.lit "```"; Re.ws; Re.Eol]).

(** The five patterns of [_fallback_content_analysis]. *)
Definition userstory_re : Re.regex :=
  Re.alt [ Re.lit "user story";
           Re.seq [ Re.lit "as a "; Re.dot_plus_lazy; Re.lit "i want";
                    Re.dot_plus_lazy; Re.lit "so that" ];
           Re.seq [ Re.lit "story"; Re.dot_star; Re.lit ":" ] ].

Definition testcase_re : Re.regex :=
  Re.alt [ Re.lit "test case"; Re.lit "test scenario";
           Re.seq [ Re.lit "given"; Re.dot_plus_lazy; Re.lit "when";
                    Re.dot_plus_lazy; Re.lit "then" ];
           Re.seq [ Re.lit "test"; Re.dot_star; Re.lit ":" ] ].

Definition devtask_re : Re.regex :=
  Re.alt [ Re.lit "development task"; Re.lit "dev task";
           Re.seq [ Re.lit "task"; Re.dot_star; Re.lit ":" ];
           Re.lit "implementation";
           Re.seq [ Re.lit "work item"; Re.dot_star; Re.lit "created" ];
           Re.seq [ Re.lit "task"; Re.dot_star; Re.lit "title" ] ].

Definition needs_clarification_re : Re.regex :=
  Re.alt [ Re.seq [ Re.lit "need"; Re.dot_star; Re.lit "more"; Re.dot_star;
                    Re.lit "info" ];
           Re.lit "clarification";
           Re.seq [ Re.lit "missing"; Re.dot_star; Re.lit "detail" ];
           Re.seq [ Re.lit "please"; Re.dot_star; Re.lit "provide" ] ].

Definition needs_save_confirmation_re : Re.regex :=
  Re.alt [ Re.seq [ Re.lit "save"; Re.dot_star; Re.lit "azure" ];
           Re.seq [ Re.lit "create"; Re.dot_star; Re.lit "work"; Re.dot_star;
                    Re.lit "item" ];
           Re.seq [ Re.lit "add"; Re.dot_star; Re.lit "to"; Re.dot_star;
                    Re.lit "board" ] ].

Definition is_flag (k : string) : bool := existsb (String.eqb k) flag_keys.

(** A metadata mapping with exactly the five flags, each a boolean. *)
Definition exactly_flags (md : dict) : bool :=
  (length md =? 5)%nat
  && forallb is_flag (dict_keys md)
  && forallb
       (fun k => match dict_get k md with
                 | Some (VBool _) => true
                 | _ => false
                 end) flag_keys.

(** An envelope with text content and a metadata mapping that has the
    five flags. *)
Definition well_formed (env : dict) : Prop :=
  (exists s, dict_get "content" env = Some (VStr s))
  /\ exists md, dict_get "metadata" env = Some (VDict md)
                /\ Forall (fun k => dict_has k md = true) flag_keys.

(** A response envelope: [{"content": ..., "metadata": {...}}]. *)
Definition envelope (content : string) (metadata : dict) : dict :=
  [ ("content", VStr content); ("metadata", VDict metadata) ].

Definition all_false : dict := map (fun k => (k, VBool false)) flag_keys.

Definition is_text (v : PyVal) : bool :=
  match v with VStr _ => true | _ => false end.

(** The metadata a decoded reply supplies itself. *)
Definition supplied (parsed_json : dict) : dict :=
  match dict_get "metadata" parsed_json with
  | Some (VDict m) => m
  | _ => []
  end.

Section WithBuiltins.

(** Python's [str(x)] on a value that is not text, and
    [json.dumps(x, indent=2)]; either can raise. *)
Variable py_str : PyVal -> Res string.
Variable json_dumps : PyVal -> Res string.

(** The interpreter's limits when [json.loads] is called. *)
Variable limits : Limits.

Definition str_ (v : PyVal) : Res string :=
  match v with
  | VStr s => Ok s
  | _ => py_str v
  end.

(** One item of a list reply (the loop body of
    [_ensure_string_content]). *)
Definition item_text (item : PyVal) : Res string :=
  match item with
  | VDict d =>
      match dict_get "content" d with
      | Some c => str_ c
      | None => json_dumps item
      end
  | VStr s => Ok s
  | _ => str_ item
  end.

Definition conversion_error (e : string) : string :=
  "Error processing content: " +:+ e.

(** [_ensure_string_content].  The recursive call on [content['content']]
    is written as a search through the mapping's entries. *)
Fixpoint _ensure_string_content (content : PyVal) : string :=
  match content with
  | VNone => "No response received"
  | VStr s => s
  | VList items =>
      try_except
        (string_items ← res_map item_text items;
         Ok (Text.join lf string_items))
        conversion_error
  | VDict d =>
      (fix find (l : list (string * PyVal)) : string :=
         match l with
         | [] => try_except (json_dumps content) conversion_error
         | (k, c) :: l' =>
             if String.eqb "content" k then _ensure_string_content c
             else find l'
         end) d
  | _ => try_except (str_ content) conversion_error
  end.

(** [parsed = json.loads(json_str)] and [isinstance(parsed, dict)] under
    [except json.JSONDecodeError]: an error of another class is not
    caught. *)
Definition loads_dict (json_str : string) : Res (option dict) :=
  match loads limits json_str with
  | Value (VDict d) => Ok (Some d)
  | Value _ => Ok None
  | JSONDecodeError => Ok None
  | ValueError e => Raise e
  | RecursionError e => Raise e
  end.

(** One round of the pattern loop: [Some d] when the pattern matches and
    its group decodes to a mapping. *)
Definition try_pattern (content : string) (pattern : Re.regex)
  : Res (option dict) :=
  match Re.group1 Re.DOTALL_IGNORECASE pattern content with
  | Some json_str => loads_dict json_str
  | None => Ok None
  end.

Fixpoint first_pattern (content : string) (patterns : list Re.regex)
  : Res (option dict) :=
  match patterns with
  | [] => Ok None
  | p :: ps =>
      found ← try_pattern content p;
      match found with
      | Some d => Ok (Some d)
      | None => first_pattern content ps
      end
  end.

Definition braced (s : string) : bool :=
  Text.startswith (Text.strip s) "{" && Text.endswith (Text.strip s) "}".

Definition whole_as_json (s : string) : Res (option dict) :=
  if braced s then loads_dict s else Ok None.

Definition _try_parse_json (content : string) : Res (option dict) :=
  found ← first_pattern content json_patterns;
  match found with
  | Some d => Ok (Some d)
  | None =>
      found ← whole_as_json content;
      match found with
      | Some d => Ok (Some d)
      | None =>
          let fixed_content :=
            Re.delete_all Re.no_flags fence_anywhere content in
          let fixed_content :=
            Re.delete_all Re.no_flags fence_at_ends fixed_content in
          whole_as_json fixed_content
      end
  end.

Definition classify (content : string) : dict :=
  [ ("userstory", VBool (Re.found Re.IGNORECASE userstory_re content));
    ("testcase", VBool (Re.found Re.IGNORECASE testcase_re content));
    ("devtask", VBool (Re.found Re.IGNORECASE devtask_re content));
    ("needs_clarification",
      VBool (Re.found Re.IGNORECASE needs_clarification_re content));
    ("needs_save_confirmation",
      VBool (Re.found Re.IGNORECASE needs_save_confirmation_re content)) ].

(** [_fallback_content_analysis].  On a value that is not text
    [content.lower()] raises, and the handler builds the all-false
    envelope; [str(content)] inside the handler is not guarded. *)
Definition _fallback_content_analysis (content : PyVal) : Res dict :=
  match content with
  | VStr s => Ok (envelope s (classify s))
  | _ => text ← py_str content; Ok (envelope text all_false)
  end.

Definition set_defaults (metadata : dict) : dict :=
  fold_left (fun m k => dict_setdefault k (VBool false) m) flag_keys
    metadata.

(** The body of [_validate_and_normalize_json]'s [try]. *)
Definition normalize_body (parsed_json : dict) (fallback_content : string)
  : Res dict :=
  let parsed_json :=
    match dict_get "content" parsed_json with
    | None => dict_set "content" (VStr fallback_content) parsed_json
    | Some c =>
        dict_set "content" (VStr (_ensure_string_content c)) parsed_json
    end in
  let parsed_json :=
    if dict_has "metadata" parsed_json then parsed_json
    else dict_set "metadata" (VDict []) parsed_json in
  let metadata :=
    match dict_get "metadata" parsed_json with
    | Some (VDict m) => m
    | _ => []
    end in
  Ok (dict_set "metadata" (VDict (set_defaults metadata)) parsed_json).

Definition _validate_and_normalize_json (parsed_json : dict)
    (fallback_content : string) : Res dict :=
  match normalize_body parsed_json fallback_content with
  | Ok d => Ok d
  | Raise _ => _fallback_content_analysis (VStr fallback_content)
  end.

(** [_parse_response]; an empty mapping is false in [if parsed_json:],
    and what [_try_parse_json] raises is not caught. *)
Definition _parse_response (content : PyVal) : Res dict :=
  let processed_content := _ensure_string_content content in
  parsed_json ← _try_parse_json processed_content;
  match parsed_json with
  | Some (entry :: entries) =>
      _validate_and_normalize_json (entry :: entries) processed_content
  | _ => _fallback_content_analysis (VStr processed_content)
  end.

End WithBuiltins.

(** [str] on the values whose text needs no number or container
    formatting; the examples apply it to no other value. *)
Definition scalar_str (v : PyVal) : Res string :=
  match v with
  | VNone => Ok "None"
  | VBool true => Ok "True"
  | VBool false => Ok "False"
  | VObj tag => Ok tag
  | _ => Raise "not a scalar"
  end.

(** [json.dumps] that refuses every value, as it does an object that is
    not serialisable. *)
Definition no_dumps (v : PyVal) : Res string :=
  Raise "Object is not JSON serializable".

(** Text with [dq] for every apostrophe, to write JSON examples. *)
Definition quoted (s : string) : string := Text.replace "'" dq s.

End Normalizer.

(** ** The chat-history library's data *)

Module Chat.

(** Modelled from the spec: the role type of the chat-history library
    (not in this repository); the spec names the roles [system], [user]
    and [assistant], and the code compares [role.value] with them. *)
Inductive AuthorRole : Type := SYSTEM | USER | ASSISTANT.

Definition value (r : AuthorRole) : string :=
  match r with
  | SYSTEM => "system"
  | USER => "user"
  | ASSISTANT => "assistant"
  end.

(** [str(role)]: the role type is an [Enum] with [str] mixed in, and
    [str] of a member of such a class is the member's qualified name,
    not its value. *)
Definition str_of_role (r : AuthorRole) : string :=
  match r with
  | SYSTEM => "AuthorRole.SYSTEM"
  | USER => "AuthorRole.USER"
  | ASSISTANT => "AuthorRole.ASSISTANT"
  end.

Record ChatMessageContent : Type :=
  { role : AuthorRole; content : string; timestamp : option string }.

(** [ChatHistory.messages]. *)
Definition ChatHistory : Type := list ChatMessageContent.

Definition add_message (r : AuthorRole) (text : string) (h : ChatHistory)
  : ChatHistory :=
  (h ++ [ {| role := r; content := text; timestamp := None |} ])%list.

Definition add_system_message := add_message SYSTEM.
Definition add_user_message := add_message USER.
Definition add_assistant_message := add_message ASSISTANT.

Definition without_timestamp (m : ChatMessageContent) : ChatMessageContent :=
  {| role := role m; content := content m; timestamp := None |}.

(** The ordered (role, content) pairs of a transcript. *)
Definition pairs (h : ChatHistory) : list (AuthorRole * string) :=
  map (fun m => (role m, content m)) h.

Definition is_system (m : ChatMessageContent) : bool :=
  match role m with SYSTEM => true | _ => false end.

(** The transcript begins with a system message and holds no other. *)
Definition begins_with_one_system (h : ChatHistory) : bool :=
  match h with
  | [] => false
  | m :: h' => is_system m && forallb (fun x => negb (is_system x)) h'
  end.

End Chat.

(** ** The session store ([ChatStorageService])

    The container is a finite map from blob names to blobs.  A blob holds
    the chat document itself: its JSON text is not modelled, and reading a
    blob back gives the document that was written.  The calls on the
    container succeed; what can fail is a read of a blob that is missing
    or does not decode. *)

Module Storage.

(** One entry of [chat_data]: [{"role", "content", "timestamp"}]. *)
Record StoredMessage : Type :=
  { sm_role : string; sm_content : string; sm_timestamp : option string }.

(** [chat_document], as [save_chat_history] builds it. *)
Record ChatDocument : Type :=
  { session_id : string;
    saved_at : string;                 (* "timestamp" *)
    message_count : nat;
    chat_history : list StoredMessage }.

(** A blob: a chat document, or bytes that do not decode ([body = None]);
    the service stamps every blob with its last modification. *)
Record Blob : Type :=
  { body : option ChatDocument; last_modified : string }.

(** One reading of the clocks: [datetime.now()] in its three formats and
    the instant the service records for an upload. *)
Record Tick : Type :=
  { iso : string;           (* isoformat() *)
    compact : string;       (* %Y%m%d_%H%M%S *)
    short : string;         (* %m/%d %H:%M *)
    server : string }.

(** An entry of [list_chat_sessions] (the size in bytes is left out). *)
Record SessionInfo : Type :=
  { blob_name : string; info_session_id : string; info_modified : string }.

(** The name a save writes to. *)
Definition effective_id (sid : string) (now : Tick) : string :=
  if String.eqb sid "" then "chat_session_" +:+ compact now else sid.

Definition blob_key (sid : string) (now : Tick) : string :=
  effective_id sid now +:+ ".json".

Definition document (chat_data : list StoredMessage) (sid : string)
    (now : Tick) : ChatDocument :=
  {| session_id := effective_id sid now;
     saved_at := iso now;
     message_count := length chat_data;
     chat_history := chat_data |}.

(** [save_chat_history]: [upload_blob(..., overwrite=True)]. *)
Definition save_chat_history (chat_data : list StoredMessage)
    (sid : string) (now : Tick) (c : gmap string Blob)
  : string * gmap string Blob :=
  (blob_key sid now,
   <[ blob_key sid now :=
        {| body := Some (document chat_data sid now);
           last_modified := server now |} ]> c).

(** [load_chat_history]: [None] for a missing blob, an exception for one
    that does not decode. *)
Definition load_chat_history (name : string) (c : gmap string Blob)
  : Res (option ChatDocument) :=
  match c !! name with
  | None => Ok None
  | Some b =>
      match body b with
      | Some doc => Ok (Some doc)
      | None => Raise "Expecting value"
      end
  end.

(** [delete_chat_session]. *)
Definition delete_chat_session (name : string) (c : gmap string Blob)
  : bool * gmap string Blob :=
  match c !! name with
  | Some _ => (true, delete name c)
  | None => (false, c)
  end.

Fixpoint insert_by_name (x : string * Blob) (l : list (string * Blob))
  : list (string * Blob) :=
  match l with
  | [] => [x]
  | y :: l' =>
      if String.leb (fst x) (fst y) then x :: l
      else y :: insert_by_name x l'
  end.

(** [container_client.list_blobs()]: the blobs, by name. *)
Definition list_blobs (c : gmap string Blob) : list (string * Blob) :=
  foldr insert_by_name [] (map_to_list c).

Definition info_of (x : string * Blob) : SessionInfo :=
  {| blob_name := fst x;
     info_session_id := Text.replace ".json" "" (fst x);
     info_modified := last_modified (snd x) |}.

(** The listing loop: [.json] blobs only, at most [limit] of them. *)
Fixpoint collect (limit : nat) (blobs : list (string * Blob))
    (sessions : list SessionInfo) : list SessionInfo :=
  match blobs with
  | [] => sessions
  | x :: blobs' =>
      if (limit <=? length sessions)%nat then sessions
      else if Text.endswith (fst x) ".json"
           then collect limit blobs' (sessions ++ [info_of x])%list
           else collect limit blobs' sessions
  end.

(** [sessions.sort(key=last_modified, reverse=True)]: newest first,
    entries of equal date in their listing order. *)
Fixpoint insert_newest (x : SessionInfo) (l : list SessionInfo)
  : list SessionInfo :=
  match l with
  | [] => [x]
  | y :: l' =>
      if String.ltb (info_modified x) (info_modified y)
      then y :: insert_newest x l'
      else x :: l
  end.

Definition sort_newest (l : list SessionInfo) : list SessionInfo :=
  foldr insert_newest [] l.

Definition list_chat_sessions (c : gmap string Blob) : list SessionInfo :=
  sort_newest (collect 50 (list_blobs c) []).

End Storage.

(** ** The session manager ([AgentService]) *)

Module Agent.
Import Chat Storage.

(** The service's fields, the blob container behind its storage client,
    and the number of clock readings made so far. *)
Record State : Type :=
  { kernel : bool;                      (* [self.kernel] is set *)
    conversation : option ChatHistory;
    chat_storage : bool;                (* [self.chat_storage] is set *)
    current_session_id : string;
    container : gmap string Blob;
    time : nat }.

(** [AgentService()] in front of a container. *)
Definition new_service (c : gmap string Blob) (t : nat) : State :=
  {| kernel := false; conversation := None; chat_storage := false;
     current_session_id := "main_session"; container := c; time := t |}.

Definition with_kernel (b : bool) (w : State) : State :=
  {| kernel := b; conversation := conversation w;
     chat_storage := chat_storage w;
     current_session_id := current_session_id w;
     container := container w; time := time w |}.

Definition with_conversation (h : option ChatHistory) (w : State) : State :=
  {| kernel := kernel w; conversation := h;
     chat_storage := chat_storage w;
     current_session_id := current_session_id w;
     container := container w; time := time w |}.

Definition with_chat_storage (b : bool) (w : State) : State :=
  {| kernel := kernel w; conversation := conversation w;
     chat_storage := b;
     current_session_id := current_session_id w;
     container := container w; time := time w |}.

Definition with_session_id (sid : string) (w : State) : State :=
  {| kernel := kernel w; conversation := conversation w;
     chat_storage := chat_storage w;
     current_session_id := sid;
     container := container w; time := time w |}.

Definition with_container (c : gmap string Blob) (w : State) : State :=
  {| kernel := kernel w; conversation := conversation w;
     chat_storage := chat_storage w;
     current_session_id := current_session_id w;
     container := c; time := time w |}.

Definition with_time (t : nat) (w : State) : State :=
  {| kernel := kernel w; conversation := conversation w;
     chat_storage := chat_storage w;
     current_session_id := current_session_id w;
     container := container w; time := t |}.

(** A method: it runs from a state, returns or raises, and leaves a
    state either way. *)
Definition M (A : Type) : Type := State -> Res A * State.

#[global] Instance M_ret : MRet M := fun A a w => (Ok a, w).

#[global] Instance M_bind : MBind M := fun A B f m w =>
  match m w with
  | (Ok a, w') => f a w'
  | (Raise e, w') => (Raise e, w')
  end.

Definition raise {A : Type} (e : string) : M A := fun w => (Raise e, w).

(** [try: m / except Exception as e: h(str(e))]. *)
Definition try_catch {A : Type} (m : M A) (h : string -> M A) : M A :=
  fun w =>
    match m w with
    | (Ok a, w') => (Ok a, w')
    | (Raise e, w') => h e w'
    end.

Definition get : M State := fun w => (Ok w, w).

Definition modify (f : State -> State) : M unit := fun w => (Ok tt, f w).

Definition lift {A : Type} (r : Res A) : M A := fun w => (r, w).

(** The state a method leaves. *)
Definition exec {A : Type} (m : M A) (w : State) : State := snd (m w).

Definition not_initialized : string := "Chat storage not initialized".
Definition no_conversation : string :=
  "'NoneType' object has no attribute 'messages'".

(** [has_user_messages]. *)
Definition has_user_messages (w : State) : bool :=
  match conversation w with
  | None => false
  | Some messages =>
      existsb
        (fun msg => negb (String.eqb (Text.lower (value (role msg))) "system"))
        messages
  end.

(** Replaying stored messages through the append of their role, as
    [switch_session] and [_load_most_recent_session] do; a message of
    another role is passed over. *)
Fixpoint replay (messages : list StoredMessage) (h : ChatHistory)
  : ChatHistory :=
  match messages with
  | [] => h
  | message :: rest =>
      let role := Text.lower (sm_role message) in
      let content := sm_content message in
      if String.eqb role "system"
      then replay rest (add_system_message content h)
      else if String.eqb role "user"
      then replay rest (add_user_message content h)
      else if String.eqb role "assistant"
      then replay rest (add_assistant_message content h)
      else replay rest h
  end.

(** [max(sessions, key=last_modified)]: the first of the newest. *)
Fixpoint newest_of (best : SessionInfo) (l : list SessionInfo)
  : SessionInfo :=
  match l with
  | [] => best
  | x :: l' =>
      if String.ltb (info_modified best) (info_modified x)
      then newest_of x l'
      else newest_of best l'
  end.

(** The session id [_load_most_recent_session] reads off a blob name. *)
Definition derived_session_id (name : string) : string :=
  let session_parts :=
    Text.split "_"
      (Text.replace ".json" "" (Text.replace "chat_session_" "" name)) in
  if (2 <? length session_parts)%nat
  then Text.join "_" (firstn (length session_parts - 2) session_parts)
  else nth 0 session_parts "".

(** [session_name.replace(" ", "_").replace("/", "_")]. *)
Definition session_id_of_name (session_name : string) : string :=
  Text.replace "/" "_" (Text.replace " " "_" session_name).

(** The transcript begins with one system message and holds no other. *)
Definition transcript_ok (w : State) : Prop :=
  exists h, conversation w = Some h /\ begins_with_one_system h = true.

(** The transcript is the replay of a snapshot that the container holds. *)
Definition replayed (w : State) : Prop :=
  exists name b doc,
    container w !! name = Some b /\ body b = Some doc
    /\ conversation w = Some (replay (chat_history doc) []).

Section WithEnvironment.

(** [str(message.role)] (the library's is [str_of_role]), the three
    policy prompts written out in [initialize], [create_new_session] and
    [switch_session], the clocks, and the built-ins and the interpreter's
    limits of the normaliser. *)
Variable role_str : AuthorRole -> string.
Variable policy_initialize policy_create policy_switch : string.
Variable clock : nat -> Tick.
Variable py_str : Json.PyVal -> Res string.
Variable json_dumps : Json.PyVal -> Res string.
Variable limits : Json.Limits.

Definition now : M Tick :=
  fun w => (Ok (clock (time w)), with_time (S (time w)) w).

(** The serialisable form of a transcript. *)
Definition serialise (h : ChatHistory) : list StoredMessage :=
  map (fun message =>
         {| sm_role := role_str (role message);
            sm_content := content message;
            sm_timestamp := timestamp message |}) h.

Definition fresh (policy : string) : ChatHistory :=
  add_system_message policy [].

(** The snapshot a checkpoint of transcript [h] writes from state [w], and
    the state it leaves. *)
Definition snapshot_of (w : State) (h : ChatHistory) : Blob :=
  {| body := Some (document (serialise h) (current_session_id w)
                     (clock (time w)));
     last_modified := server (clock (time w)) |}.

Definition checkpoint_key (w : State) : string :=
  blob_key (current_session_id w) (clock (time w)).

Definition after_save (w : State) (h : ChatHistory) : State :=
  with_container (<[ checkpoint_key w := snapshot_of w h ]> (container w))
    (with_time (S (time w)) w).

(** [AgentService.save_chat_history]. *)
Definition save_chat_history : M string :=
  w ← get;
  if negb (chat_storage w) then raise not_initialized
  else
    match conversation w with
    | None => raise no_conversation
    | Some messages =>
        t ← now;
        let '(name, c) :=
          Storage.save_chat_history (serialise messages)
            (current_session_id w) t (container w) in
        _ ← modify (with_container c);
        mret name
    end.

(** [get_chat_sessions]. *)
Definition get_chat_sessions : M (list SessionInfo) :=
  w ← get;
  if negb (chat_storage w) then raise not_initialized
  else mret (Storage.list_chat_sessions (container w)).

(** [AgentService.load_chat_history]. *)
Definition load_chat_history (name : string) : M (option ChatDocument) :=
  w ← get;
  if negb (chat_storage w) then raise not_initialized
  else lift (Storage.load_chat_history name (container w)).

(** [AgentService.delete_chat_session]. *)
Definition delete_chat_session (name : string) : M bool :=
  w ← get;
  if negb (chat_storage w) then raise not_initialized
  else
    let '(found, c) := Storage.delete_chat_session name (container w) in
    _ ← modify (with_container c);
    mret found.

(** The checkpoint that is logged and not propagated. *)
Definition save_quietly : M unit :=
  try_catch (_ ← save_chat_history; mret tt) (fun _ => mret tt).

Definition save_if_used : M unit :=
  w ← get;
  if has_user_messages w then _ ← save_chat_history; mret tt
  else mret tt.

(** The part of [create_new_session] under [# Start new session]. *)
Definition start_session (session_name : string) : M string :=
  _ ← modify (with_session_id (session_id_of_name session_name));
  _ ← modify (with_conversation (Some (fresh policy_create)));
  _ ← save_quietly;
  w ← get;
  mret (current_session_id w).

(** [create_new_session]; [None] is the default argument. *)
Definition create_new_session (session_name : option string) : M string :=
  session_name ←
    match session_name with
    | Some (String c s) => mret (String c s)
    | _ => t ← now; mret ("Chat " +:+ short t)
    end;
  _ ← save_if_used;
  start_session session_name.

(** [switch_session] from [# Find the latest blob for this session] on. *)
Definition find_and_load (sid : string) : M bool :=
  sessions ← get_chat_sessions;
  match find (fun s => Text.contains sid (blob_name s)) sessions with
  | None =>
      _ ← modify (with_session_id sid);
      _ ← modify (with_conversation (Some (fresh policy_switch)));
      mret true
  | Some session =>
      chat_data ← load_chat_history (blob_name session);
      match chat_data with
      | Some doc =>
          _ ← modify
                (with_conversation (Some (replay (chat_history doc) [])));
          _ ← modify (with_session_id sid);
          mret true
      | None => mret false
      end
  end.

(** [switch_session]. *)
Definition switch_session (sid : string) : M bool :=
  try_catch (_ ← save_if_used; find_and_load sid) (fun _ => mret false).

(** [_load_most_recent_session]. *)
Definition _load_most_recent_session : M unit :=
  try_catch
    (w ← get;
     if negb (chat_storage w) then mret tt
     else
       sessions ← get_chat_sessions;
       match sessions with
       | [] => mret tt
       | s :: rest =>
           let most_recent := newest_of s rest in
           let name := blob_name most_recent in
           _ ← modify (with_session_id (derived_session_id name));
           chat_data ← load_chat_history name;
           match chat_data with
           | Some doc =>
               match chat_history doc with
               | [] => mret tt
               | _ :: _ =>
                   match replay (chat_history doc) [] with
                   | [] => mret tt
                   | loaded => modify (with_conversation (Some loaded))
                   end
               end
           | None => mret tt
           end
       end)
    (fun _ => mret tt).

(** [initialize]; [storage_up] tells whether the storage service can
    be set up now.  The kernel, the model connection and the plugins are
    taken to be set up (a plugin that fails is logged and left out). *)
Definition initialize (storage_up : bool) : M unit :=
  w ← get;
  if kernel w then mret tt
  else
    _ ← modify (with_kernel true);
    _ ← modify (with_conversation (Some (fresh policy_initialize)));
    try_catch
      (w ← get;
       if chat_storage w then mret tt
       else
         if storage_up then
           _ ← modify (with_chat_storage true);
           _load_most_recent_session
         else raise "AZURE_STORAGE_CONNECTION_STRING is required")
      (fun _ => modify (with_chat_storage false)).

Definition append (r : AuthorRole) (text : string) : M unit :=
  w ← get;
  match conversation w with
  | None => raise "'NoneType' object has no attribute 'add_message'"
  | Some h => modify (with_conversation (Some (add_message r text h)))
  end.

(** [process_query]; [reply] is what the model pipeline answers with
    ([response.content]), or the exception it raises. *)
Definition process_query (query : string) (storage_up : bool)
    (reply : Res Json.PyVal) : M Json.dict :=
  _ ← initialize storage_up;
  _ ← append USER query;
  _ ← save_quietly;
  response ← lift reply;
  let response_content :=
    Normalizer._ensure_string_content py_str json_dumps response in
  _ ← append ASSISTANT response_content;
  _ ← save_quietly;
  lift (Normalizer._parse_response py_str json_dumps limits
          (Json.VStr response_content)).

(** The calls a transport layer can make. *)
Inductive call : Type :=
| Initialize (storage_up : bool)
| ProcessQuery (query : string) (storage_up : bool)
    (reply : Res Json.PyVal)
| CreateNewSession (session_name : option string)
| SwitchSession (sid : string)
| SaveChatHistory
| DeleteChatSession (name : string).

Definition step (c : call) (w : State) : State :=
  match c with
  | Initialize up => exec (initialize up) w
  | ProcessQuery q up reply => exec (process_query q up reply) w
  | CreateNewSession n => exec (create_new_session n) w
  | SwitchSession sid => exec (switch_session sid) w
  | SaveChatHistory => exec save_chat_history w
  | DeleteChatSession name => exec (delete_chat_session name) w
  end.

Definition steps (cs : list call) (w : State) : State :=
  fold_left (fun w c => step c w) cs w.

End WithEnvironment.

End Agent.

(** ** Concrete inputs for the examples *)

Module Sample.
Import Json Normalizer Chat Storage Agent.

(** A fenced JSON reply. *)
Definition fenced_reply : string :=
  "```json" +:+ lf
    +:+ quoted "{'content':'hi','metadata':{'userstory':true}}"
    +:+ lf +:+ "```".

Definition story_reply : string :=
  "As a user, I want to log in so that I can access my account.".

(** A reply whose own metadata has a flag that is not a boolean and a
    key that is not a flag. *)
Definition odd_metadata_reply : string :=
  quoted "{'content':'hi','metadata':{'userstory':'yes','priority':1}}".

(** The limits of an interpreter left at its defaults: [int] converts
    4300 digits, and under the recursion limit of 1000 a call some
    frames deep leaves the decoder room for some 990 containers. *)
Definition limits : Limits :=
  {| int_max_str_digits := 4300; nesting_limit := 990 |}.

(** A reply whose content is an integer of 5000 digits. *)
Definition long_integer_reply : string :=
  quoted "{'content': " +:+ Text.repeat "9" 5000 +:+ "}".

(** Two readings of the clocks, five minutes apart. *)
Definition ten : Tick :=
  {| iso := "2025-01-01T10:00:00"; compact := "20250101_100000";
     short := "01/01 10:00"; server := "2025-01-01T10:00:00+00:00" |}.

Definition five_past_ten : Tick :=
  {| iso := "2025-01-01T10:05:00"; compact := "20250101_100500";
     short := "01/01 10:05"; server := "2025-01-01T10:05:00+00:00" |}.

Definition sample_clock (n : nat) : Tick :=
  match n with
  | O => ten
  | _ => five_past_ten
  end.

Definition user_says (text : string) : ChatMessageContent :=
  {| role := USER; content := text; timestamp := None |}.

Definition system_says (text : string) : ChatMessageContent :=
  {| role := SYSTEM; content := text; timestamp := None |}.

Definition assistant_says (text : string) : ChatMessageContent :=
  {| role := ASSISTANT; content := text; timestamp := None |}.

(** A transcript with one exchange. *)
Definition one_exchange : ChatHistory :=
  [ system_says "policy"; user_says "hello"; assistant_says "hi" ].

(** The service with sample prompts and clocks. *)
Definition run_call : call -> State -> State :=
  step str_of_role "policy at start" "policy of a new session"
    "policy of a switched session" sample_clock scalar_str no_dumps limits.

(** A service whose storage could not be set up, after one query. *)
Definition without_storage : State :=
  run_call (ProcessQuery "hello" false (Ok (VStr "hi"))) (new_service ∅ 0).

(** A service with storage, after one query whose snapshot was then
    deleted. *)
Definition snapshot_deleted : State :=
  run_call (DeleteChatSession "main_session.json")
    (run_call (ProcessQuery "hello" true (Ok (VStr "hi")))
       (new_service ∅ 0)).

(** A service with storage over an empty container, after [initialize]
    and after one query. *)
Definition started : State := run_call (Initialize true) (new_service ∅ 0).

Definition with_storage : State :=
  run_call (ProcessQuery "hello" true (Ok (VStr "hi"))) (new_service ∅ 0).

(** A few calls in a row. *)
Definition some_calls : list call :=
  [ ProcessQuery "hello" true (Ok (VStr "hi"));
    CreateNewSession (Some "My Chat");
    ProcessQuery "again" true (Raise "timeout");
    SwitchSession "main_session";
    DeleteChatSession "My_Chat.json";
    SwitchSession "elsewhere" ].

(** A container with one snapshot that holds a user message only. *)
Definition headless_store : gmap string Blob :=
  {[ "notes.json" :=
       {| body :=
            Some {| session_id := "notes"; saved_at := iso ten;
                    message_count := 1;
                    chat_history :=
                      [ {| sm_role := "user"; sm_content := "hello";
                           sm_timestamp := None |} ] |};
          last_modified := server ten |} ]}.

(** A container with one blob that does not decode. *)
Definition broken_store : gmap string Blob :=
  {[ "My_Chat.json" := {| body := None; last_modified := server ten |} ]}.

(** An initialised service in front of [broken_store], as it is when
    [initialize] calls [_load_most_recent_session]. *)
Definition before_restore : State :=
  with_chat_storage true
    (with_conversation (Some [system_says "policy at start"])
       (with_kernel true (new_service broken_store 0))).

Definition broken_entry : SessionInfo :=
  {| blob_name := "My_Chat.json"; info_session_id := "My_Chat";
     info_modified := server ten |}.

End Sample.

From Stdlib Require Import Sorting.Sorted.

(** ** Characters of a text *)

Module Chars.

(** [c in s] for a character. *)
Fixpoint has_char (c : ascii) (s : string) : bool :=
  match s with
  | EmptyString => false
  | String x s' => Ascii.eqb c x || has_char c s'
  end.

Definition starts_with_char (c : ascii) (s : string) : bool :=
  match s with
  | String x _ => Ascii.eqb c x
  | EmptyString => false
  end.

Fixpoint map_chars (f : ascii -> ascii) (s : string) : string :=
  match s with
  | EmptyString => EmptyString
  | String x s' => String (f x) (map_chars f s')
  end.

(** [old in s]. *)
Fixpoint occurs (old s : string) : bool :=
  String.prefix old s
  || match s with
     | EmptyString => false
     | String _ s' => occurs old s'
     end.

(** [" " -> "_"] and ["/" -> "_"], character by character. *)
Definition underscored (c : ascii) : ascii :=
  if Ascii.eqb c " " then "_"%char
  else if Ascii.eqb c "/" then "_"%char else c.

(** A part of a session id: no underscore and no dot in it. *)
Definition plain_part (p : string) : bool :=
  negb (has_char "_" p) && negb (has_char "." p).

End Chars.

(** ** What a pattern asks of a text *)

Module Pattern.

(** Every match of [r] reads the character [c]. *)
Fixpoint needs (c : ascii) (r : Re.regex) : bool :=
  match r with
  | Re.One (Re.CLit a) => Ascii.eqb a c
  | Re.Seq a b => needs c a || needs c b
  | Re.Alt a b => needs c a && needs c b
  | Re.Group a => needs c a
  | _ => false
  end.

Definition plain_set (c : Re.cset) : bool :=
  match c with
  | Re.CNoneOf _ => false
  | _ => true
  end.

(** No negated class in [r]. *)
Fixpoint plain (r : Re.regex) : bool :=
  match r with
  | Re.One c => plain_set c
  | Re.Star _ c => plain_set c
  | Re.Seq a b => plain a && plain b
  | Re.Alt a b => plain a && plain b
  | Re.Group a => plain a
  | _ => true
  end.

(** A state of the matcher over the lower-case text. *)
Definition lowered (st : Re.mstate) : Re.mstate :=
  {| Re.pos := Re.pos st; Re.rest := Text.lower (Re.rest st);
     Re.grp := Re.grp st |}.

Definition is_some {A : Type} (o : option A) : bool :=
  match o with Some _ => true | None => false end.

End Pattern.

(** ** The document agents ([AIFoundryPlugin]) *)

Module Plugins.

(** A message of an agent thread: its role and the values of its text
    parts. *)
Record ThreadMessage : Type :=
  { msg_role : string; text_messages : list string }.

Definition no_response : string := "No response from AI Foundry agent".

Definition answers (msg : ThreadMessage) : bool :=
  match text_messages msg with
  | [] => false
  | _ :: _ => String.eqb (Text.lower (msg_role msg)) "assistant"
  end.

(** The loop over [message_list]: the last text of the first assistant
    message that has text. *)
Fixpoint first_answer (message_list : list ThreadMessage) : string :=
  match message_list with
  | [] => no_response
  | msg :: rest =>
      if answers msg then List.last (text_messages msg) ""
      else first_answer rest
  end.

(** [run_ai_foundry_agent_func] and its two siblings: [run] is what the
    agent run leaves in the thread, or the exception of a client call. *)
Definition run_ai_foundry_agent (run : Res (list ThreadMessage)) : string :=
  match run with
  | Ok message_list => first_answer message_list
  | Raise e => "Error: " +:+ e
  end.

(** [convert_markdown_to_html_func]; [markdown] is [markdown2.markdown]. *)
Definition convert_markdown_to_html (markdown : string -> Res string)
    (markdown_content : string) : string :=
  match markdown_content with
  | EmptyString => EmptyString
  | _ => try_except (markdown markdown_content) (fun _ => markdown_content)
  end.

End Plugins.

(** ** The utility functions of the storage module *)

Module StorageUtil.
Import Storage.

(** [save_chat_on_app_close]: a save with no session id. *)
Definition save_chat_on_app_close (chat_data : list StoredMessage)
    (now : Tick) (c : gmap string Blob) : string * gmap string Blob :=
  Storage.save_chat_history chat_data "" now c.

(** Newer than, or as new as. *)
Definition not_older (a b : SessionInfo) : Prop :=
  String.ltb (info_modified a) (info_modified b) = false.

Definition is_json (name : string) : bool := Text.endswith name ".json".

End StorageUtil.

(** ** The REST endpoints ([app.py]) *)

Module App.
Import Json Chat Storage Agent.

(** A response model or a returned mapping. *)
Inductive Body : Type :=
| ChatResponse (content : string) (metadata : dict)
| SessionResponse (success : bool) (session_id : option string)
    (message : string)
| SaveChatResponse (success : bool) (blob_name : option string)
    (message : string)
| ChatSessionResponse (sessions : list SessionInfo)
| ChatDocumentBody (doc : ChatDocument)
| Deleted
| CurrentSession (session_id : string) (message_count : nat)
    (has_user_messages : bool).

(** What an endpoint answers: a body, or [HTTPException]. *)
Inductive Reply : Type :=
| Respond (body : Body)
| HTTPException (status_code : nat) (detail : string).

(** What the [try] block of an endpoint can raise. *)
Inductive Exn : Type :=
| Http (status_code : nat) (detail : string)
| Other (message : string).

Definition not_ready : Exn := Http 503 "Agent service not initialized".

Section Endpoints.

Variable role_str : AuthorRole -> string.
Variable policy_initialize policy_create policy_switch : string.
Variable clock : nat -> Tick.
Variable py_str : PyVal -> Res string.
Variable json_dumps : PyVal -> Res string.
Variable limits : Limits.

(** [str(e)] of an [HTTPException], and the text of the error that the
    construction of a response model raises on a value of another type. *)
Variable http_str : nat -> string -> string.
Variable validation_error : string.

Definition exn_str (e : Exn) : string :=
  match e with
  | Http status detail => http_str status detail
  | Other message => message
  end.

(** [except Exception as e: raise HTTPException(500, str(e))]. *)
Definition as_500 (e : Exn) : Reply := HTTPException 500 (exn_str e).

(** [except HTTPException: raise], then the same. *)
Definition reraise_http (e : Exn) : Reply :=
  match e with
  | Http status detail => HTTPException status detail
  | Other message => HTTPException 500 message
  end.

(** The global [agent], set by [lifespan] at start-up. *)
Definition startup (storage_up : bool) (c : gmap string Blob) (t : nat)
  : option State :=
  Some (exec (initialize policy_initialize storage_up) (new_service c t)).

(** [POST /api/chat]. *)
Definition chat (query : string) (storage_up : bool) (reply : Res PyVal)
    (agent : option State) : Reply * option State :=
  match agent with
  | None => (as_500 not_ready, agent)
  | Some w =>
      match process_query role_str policy_initialize clock py_str json_dumps
              limits query storage_up reply w with
      | (Ok result, w') =>
          match dict_get "content" result with
          | None => (as_500 (Other "'content'"), Some w')
          | Some content =>
              match dict_get "metadata" result with
              | None => (as_500 (Other "'metadata'"), Some w')
              | Some metadata =>
                  match content, metadata with
                  | VStr text, VDict flags =>
                      (Respond (ChatResponse text flags), Some w')
                  | _, _ => (as_500 (Other validation_error), Some w')
                  end
              end
          end
      | (Raise e, w') => (as_500 (Other e), Some w')
      end
  end.

(** [POST /api/sessions/new]. *)
Definition create_new_session (session_name : option string)
    (agent : option State) : Reply * option State :=
  let failed (e : Exn) :=
    Respond (SessionResponse false None
               ("Failed to create session: " +:+ exn_str e)) in
  match agent with
  | None => (failed not_ready, agent)
  | Some w =>
      match Agent.create_new_session role_str policy_create clock
              session_name w with
      | (Ok sid, w') =>
          (Respond (SessionResponse true (Some sid)
                      "New session created successfully"), Some w')
      | (Raise e, w') => (failed (Other e), Some w')
      end
  end.

(** [POST /api/sessions/switch]. *)
Definition switch_session (sid : string) (agent : option State)
  : Reply * option State :=
  match agent with
  | None => (reraise_http not_ready, agent)
  | Some w =>
      match Agent.switch_session role_str policy_switch clock sid w with
      | (Ok true, w') =>
          (Respond (SessionResponse true (Some sid)
                      "Session switched successfully"), Some w')
      | (Ok false, w') =>
          (reraise_http (Http 404 "Session not found"), Some w')
      | (Raise e, w') =>
          (Respond (SessionResponse false None
                      ("Failed to switch session: " +:+ e)), Some w')
      end
  end.

(** [GET /api/sessions/current]. *)
Definition get_current_session (agent : option State)
  : Reply * option State :=
  match agent with
  | None => (as_500 not_ready, agent)
  | Some w =>
      (Respond
         (CurrentSession (current_session_id w)
            (match conversation w with
             | Some messages => length messages
             | None => O
             end)
            (has_user_messages w)), agent)
  end.

(** [POST /api/save-chat]. *)
Definition save_chat_endpoint (agent : option State)
  : Reply * option State :=
  let failed (e : Exn) :=
    Respond (SaveChatResponse false None
               ("Failed to save chat: " +:+ exn_str e)) in
  match agent with
  | None => (failed not_ready, agent)
  | Some w =>
      if negb (has_user_messages w) then
        (Respond (SaveChatResponse true None
                    "No chat history to save (empty conversation)"), agent)
      else
        match Agent.save_chat_history role_str clock w with
        | (Ok name, w') =>
            (Respond (SaveChatResponse true (Some name)
                        ("Session '" +:+ current_session_id w'
                           +:+ "' saved successfully")), Some w')
        | (Raise e, w') => (failed (Other e), Some w')
        end
  end.

(** [GET /api/chat-sessions]. *)
Definition get_chat_sessions (agent : option State)
  : Reply * option State :=
  match agent with
  | None => (as_500 not_ready, agent)
  | Some w =>
      match Agent.get_chat_sessions w with
      | (Ok sessions, w') => (Respond (ChatSessionResponse sessions), Some w')
      | (Raise e, w') => (as_500 (Other e), Some w')
      end
  end.

(** [GET /api/chat-sessions/{blob_name}]. *)
Definition get_chat_session (name : string) (agent : option State)
  : Reply * option State :=
  match agent with
  | None => (reraise_http not_ready, agent)
  | Some w =>
      match Agent.load_chat_history name w with
      | (Ok (Some doc), w') => (Respond (ChatDocumentBody doc), Some w')
      | (Ok None, w') =>
          (reraise_http (Http 404 "Chat session not found"), Some w')
      | (Raise e, w') => (reraise_http (Other e), Some w')
      end
  end.

(** [DELETE /api/chat-sessions/{blob_name}]. *)
Definition delete_chat_session (name : string) (agent : option State)
  : Reply * option State :=
  match agent with
  | None => (reraise_http not_ready, agent)
  | Some w =>
      match Agent.delete_chat_session name w with
      | (Ok true, w') => (Respond Deleted, Some w')
      | (Ok false, w') =>
          (reraise_http (Http 404 "Chat session not found"), Some w')
      | (Raise e, w') => (reraise_http (Other e), Some w')
      end
  end.

End Endpoints.

Definition status_of (r : Reply) : nat :=
  match r with
  | Respond _ => 200
  | HTTPException status _ => status
  end.

End App.

(** ** More inputs for the examples *)

Module Cases.
Import Json Normalizer Chat Storage Agent.

Definition plain_str (status : nat) (detail : string) : string := detail.



Definition thread : list Plugins.ThreadMessage :=
  [ {| Plugins.msg_role := "user"; Plugins.text_messages := ["story?"] |};
    {| Plugins.msg_role := "assistant"; Plugins.text_messages := [] |};
    {| Plugins.msg_role := "ASSISTANT";
       Plugins.text_messages := ["draft"; "final"] |};
    {| Plugins.msg_role := "assistant"; Plugins.text_messages := ["older"] |} ].

End Cases.

(** ** Properties of the normaliser *)

Module NormalizerFacts.
Import Json Normalizer.

#[local] Arguments String.eqb : simpl never.

Lemma dict_get_set_eq k v d : dict_get k (dict_set k v d) = Some v.
Proof.
  induction d as [|[k' v'] d IH]; simpl.
  - by rewrite String.eqb_refl.
  - destruct (String.eqb k k') eqn:E; simpl.
    + by rewrite String.eqb_refl.
    + by rewrite E.
Qed.

Lemma dict_get_set_ne k k' v d :
  k <> k' -> dict_get k (dict_set k' v d) = dict_get k d.
Proof.
  intros Hne. apply String.eqb_neq in Hne.
  induction d as [|[k2 v2] d IH]; simpl.
  - by rewrite Hne.
  - destruct (String.eqb k' k2) eqn:E; simpl.
    + apply String.eqb_eq in E. subst k2. by rewrite Hne.
    + by rewrite IH.
Qed.

Lemma dict_get_setdefault k k' v d :
  dict_get k (dict_setdefault k' v d)
  = match dict_get k d with
    | Some x => Some x
    | None => if String.eqb k k' then Some v else None
    end.
Proof.
  unfold dict_setdefault, dict_has.
  destruct (dict_get k' d) as [x|] eqn:E.
  - destruct (dict_get k d) eqn:E2; [done|].
    destruct (String.eqb k k') eqn:E3; [|done].
    apply String.eqb_eq in E3. congruence.
  - destruct (String.eqb k k') eqn:E3.
    + apply String.eqb_eq in E3. subst k'.
      by rewrite dict_get_set_eq, E.
    + apply String.eqb_neq in E3. rewrite dict_get_set_ne by done.
      by destruct (dict_get k d).
Qed.

(** What [set_defaults] binds a key to. *)
Lemma dict_get_set_defaults k m :
  dict_get k (set_defaults m)
  = match dict_get k m with
    | Some x => Some x
    | None => if is_flag k then Some (VBool false) else None
    end.
Proof.
  unfold set_defaults, is_flag, flag_keys. simpl.
  rewrite !dict_get_setdefault.
  destruct (dict_get k m); [done|].
  repeat match goal with |- context [String.eqb k ?x] =>
    destruct (String.eqb k x) end; done.
Qed.

Lemma set_defaults_has_flags m :
  Forall (fun k => dict_has k (set_defaults m) = true) flag_keys.
Proof.
  unfold flag_keys.
  repeat constructor; unfold dict_has; rewrite dict_get_set_defaults;
    by destruct (dict_get _ m).
Qed.

Lemma classify_exact s : exactly_flags (classify s) = true.
Proof. reflexivity. Qed.

Lemma classify_has_flags s :
  Forall (fun k => dict_has k (classify s) = true) flag_keys.
Proof. unfold flag_keys. by repeat constructor. Qed.

Section WithBuiltins.
Variable py_str : PyVal -> Res string.
Variable json_dumps : PyVal -> Res string.
Variable limits : Limits.

(** The recursive case of [_ensure_string_content], as the source
    writes it. *)
Lemma ensure_dict d :
  _ensure_string_content py_str json_dumps (VDict d)
  = match dict_get "content" d with
    | Some c => _ensure_string_content py_str json_dumps c
    | None => try_except (json_dumps (VDict d)) conversion_error
    end.
Proof.
  simpl. generalize (VDict d). intros whole.
  induction d as [|[k c] d IH]; simpl; [done|].
  by destruct (String.eqb "content" k).
Qed.

Lemma validate_result parsed_json fallback_content :
  exists env,
    _validate_and_normalize_json py_str json_dumps parsed_json
      fallback_content = Ok env
    /\ (exists s, dict_get "content" env = Some (VStr s))
    /\ dict_get "metadata" env
       = Some (VDict (set_defaults (supplied parsed_json))).
Proof.
  unfold _validate_and_normalize_json, normalize_body.
  set (d1 := match dict_get "content" parsed_json with
             | Some c => _
             | None => _
             end).
  assert (Hc : exists s, dict_get "content" d1 = Some (VStr s)).
  { subst d1. destruct (dict_get "content" parsed_json);
      eexists; apply dict_get_set_eq. }
  assert (Hm : dict_get "metadata" d1 = dict_get "metadata" parsed_json).
  { subst d1. destruct (dict_get "content" parsed_json);
      by rewrite dict_get_set_ne. }
  set (d2 := if dict_has "metadata" d1 then d1 else _).
  assert (Hc2 : exists s, dict_get "content" d2 = Some (VStr s)).
  { subst d2. destruct (dict_has "metadata" d1); [done|].
    by rewrite dict_get_set_ne. }
  assert (Hm2 : match dict_get "metadata" d2 with
                | Some (VDict m) => m
                | _ => []
                end = supplied parsed_json).
  { subst d2. unfold supplied, dict_has. rewrite <- Hm.
    destruct (dict_get "metadata" d1) eqn:E; [by rewrite E|].
    by rewrite dict_get_set_eq. }
  eexists. split; [reflexivity|]. split.
  - by rewrite dict_get_set_ne.
  - by rewrite dict_get_set_eq, Hm2.
Qed.

(** [_parse_response] raises what [_try_parse_json] raises, an error of
    [json.loads] that is no [JSONDecodeError], and nothing else; when
    [_try_parse_json] returns, it returns an envelope with text content
    and a metadata mapping that has the five flags. *)
Lemma parse_outcome content :
  match _try_parse_json limits
          (_ensure_string_content py_str json_dumps content) with
  | Raise e => _parse_response py_str json_dumps limits content = Raise e
  | Ok _ =>
      exists env,
        _parse_response py_str json_dumps limits content = Ok env
        /\ well_formed env
  end.
Proof.
  unfold _parse_response.
  destruct (_try_parse_json _ _) as [[[|entry entries]|]|e] eqn:E;
    [| |  |done].
  - eexists. split; [reflexivity|]. split; [by eexists|].
    eexists. split; [reflexivity|]. apply classify_has_flags.
  - destruct (validate_result (entry :: entries)
                (_ensure_string_content py_str json_dumps content))
      as (env & Hv & Hc & Hm).
    exists env. split; [done|]. split; [done|].
    eexists. split; [exact Hm|]. apply set_defaults_has_flags.
  - eexists. split; [reflexivity|]. split; [by eexists|].
    eexists. split; [reflexivity|]. apply classify_has_flags.
Qed.

(** C1, as the code has it: [_parse_response] returns unless
    [_try_parse_json] raises (an error of [json.loads] that is no
    [JSONDecodeError], which it passes on), and the metadata of the
    envelope it returns is a mapping that has each of the five flags.
    When no JSON object is taken from the reply it has exactly the five
    flags, each a boolean; when one is, every key of the reply's own
    metadata keeps its decoded value and the flags it lacks are
    false. *)
Theorem parse_response_metadata_flags content :
  match _try_parse_json limits
          (_ensure_string_content py_str json_dumps content) with
  | Raise e => _parse_response py_str json_dumps limits content = Raise e
  | Ok found =>
      exists env md,
        _parse_response py_str json_dumps limits content = Ok env
        /\ dict_get "metadata" env = Some (VDict md)
        /\ Forall (fun k => dict_has k md = true) flag_keys
        /\ match found with
           | Some (entry :: entries) =>
               forall k,
                 dict_get k md
                 = match dict_get k (supplied (entry :: entries)) with
                   | Some x => Some x
                   | None => if is_flag k then Some (VBool false) else None
                   end
           | _ => exactly_flags md = true
           end
  end.
Proof.
  unfold _parse_response.
  destruct (_try_parse_json _ _) as [[[|entry entries]|]|e] eqn:E;
    [| |  |done].
  - do 2 eexists. split; [reflexivity|]. split; [reflexivity|].
    split; [apply classify_has_flags | apply classify_exact].
  - destruct (validate_result (entry :: entries)
                (_ensure_string_content py_str json_dumps content))
      as (env & Hv & _ & Hm).
    exists env, (set_defaults (supplied (entry :: entries))).
    split; [done|]. split; [done|].
    split; [apply set_defaults_has_flags|].
    intros k. apply dict_get_set_defaults.
  - do 2 eexists. split; [reflexivity|]. split; [reflexivity|].
    split; [apply classify_has_flags | apply classify_exact].
Qed.

(** C2 fails on the code: a reply whose JSON object holds an integer of
    5000 digits is taken by the third pattern, [json.loads] raises the
    [ValueError] of [int], which [except json.JSONDecodeError] does not
    catch, and [_parse_response] passes it on to its caller; so it does
    with the interpreter's default limit of 4300 digits, whatever the
    room for recursion. *)
Theorem parse_response_propagates_value_error room :
  _parse_response py_str json_dumps
    {| int_max_str_digits := 4300; nesting_limit := S room |}
    (VStr Sample.long_integer_reply)
  = Raise
      ("Exceeds the limit (4300 digits) for integer string conversion: "
         +:+ "value has 5000 digits; "
         +:+ "use sys.set_int_max_str_digits() to increase the limit").
Proof. vm_compute. reflexivity. Qed.

(** C6: the fenced JSON reply gives content [hi] and the metadata with
    [userstory] true and the four other flags false, in every
    interpreter that lets the decoder open the two containers of the
    reply; one that does not stops [json.loads], and the call, with a
    [RecursionError]. *)
Theorem fenced_reply_envelope :
  _parse_response py_str json_dumps limits (VStr Sample.fenced_reply)
  = if (2 <=? nesting_limit limits)%nat
    then Ok (envelope "hi"
               [ ("userstory", VBool true); ("testcase", VBool false);
                 ("devtask", VBool false);
                 ("needs_clarification", VBool false);
                 ("needs_save_confirmation", VBool false) ])
    else Raise (depth_error "object").
Proof.
  destruct limits as [digits [|[|room]]]; vm_compute; reflexivity.
Qed.

(** C7: the user-story sentence holds no JSON, and the fallback
    classification returns the whole text with [userstory] true and the
    four other flags false. *)
Theorem story_reply_envelope :
  _try_parse_json limits Sample.story_reply = Ok None
  /\ _parse_response py_str json_dumps limits (VStr Sample.story_reply)
     = Ok (envelope Sample.story_reply
             [ ("userstory", VBool true); ("testcase", VBool false);
               ("devtask", VBool false);
               ("needs_clarification", VBool false);
               ("needs_save_confirmation", VBool false) ]).
Proof. split; vm_compute; reflexivity. Qed.

End WithBuiltins.

(** C1 as the spec words it fails: a reply whose own metadata carries a
    text flag and a sixth key keeps both. *)
Lemma odd_metadata_reply_not_exact :
  exists env md,
    _parse_response scalar_str no_dumps Sample.limits
      (VStr Sample.odd_metadata_reply)
    = Ok env
    /\ dict_get "metadata" env = Some (VDict md)
    /\ dict_get "userstory" md = Some (VStr "yes")
    /\ dict_get "priority" md = Some (VInt 1)
    /\ exactly_flags md = false.
Proof. do 2 eexists. vm_compute. repeat split; reflexivity. Qed.

End NormalizerFacts.

(** ** Properties of the session store *)

Module StorageFacts.
Import Chat Storage Agent.

#[local] Arguments String.eqb : simpl never.

Lemma replay_app messages h : replay messages h = (h ++ replay messages [])%list.
Proof.
  revert h. induction messages as [|m rest IH]; intros h; simpl.
  - by rewrite app_nil_r.
  - repeat match goal with |- context [if ?b then _ else _] =>
      destruct b end;
      try (rewrite IH; symmetry; rewrite IH; unfold add_system_message,
             add_user_message, add_assistant_message, add_message;
           simpl; by rewrite <- app_assoc).
    apply IH.
Qed.

Lemma lower_value r : Text.lower (value r) = value r.
Proof. by destruct r. Qed.

(** *** What the round trip needs

    Were a role stored as text that is its value up to case, as
    [has_user_messages] reads it, the replay would give the transcript
    back. *)

Section RoleText.
Variable role_str : AuthorRole -> string.
Hypothesis role_str_value : forall r, Text.lower (role_str r) = value r.

Lemma replay_serialise h :
  replay (serialise role_str h) [] = map without_timestamp h.
Proof.
  induction h as [|m h IH]; simpl; [done|].
  rewrite role_str_value.
  destruct m as [[] text ts]; simpl;
    rewrite replay_app, IH; reflexivity.
Qed.

Lemma pairs_without_timestamp h : pairs (map without_timestamp h) = pairs h.
Proof. unfold pairs. rewrite map_map. by apply map_ext. Qed.

Lemma begins_without_timestamp h :
  begins_with_one_system (map without_timestamp h) = begins_with_one_system h.
Proof.
  destruct h as [|m h]; simpl; [done|].
  f_equal. induction h as [|x h IH]; simpl; [done|]. by rewrite IH.
Qed.

Lemma round_trip_of_role_values h sid now c :
  exists doc,
    Storage.load_chat_history
      (fst (Storage.save_chat_history (serialise role_str h) sid now c))
      (snd (Storage.save_chat_history (serialise role_str h) sid now c))
    = Ok (Some doc)
    /\ message_count doc = length h
    /\ pairs (replay (chat_history doc) []) = pairs h.
Proof.
  eexists. unfold Storage.save_chat_history, Storage.load_chat_history.
  simpl. rewrite lookup_insert_eq. simpl. split; [reflexivity|].
  split.
  - unfold serialise, document. simpl. by rewrite length_map.
  - unfold document. simpl.
    by rewrite replay_serialise, pairs_without_timestamp.
Qed.

End RoleText.

(** *** What the round trip gives *)

(** [str] gives a role its qualified member name, and of messages stored
    under that text none is replayed. *)
Lemma member_text_replays_nothing h :
  replay (serialise str_of_role h) [] = [].
Proof.
  induction h as [|[[] text ts] h IH]; simpl; done.
Qed.

(** C5 fails on the code: [save_chat_history] stores [str(message.role)],
    which is [AuthorRole.SYSTEM] and the like, and the replay takes a
    message only when its role text is [system], [user] or [assistant]
    up to case.  The snapshot a save writes holds every message of the
    transcript, and its replay holds none: for the transcript of one
    exchange, three messages are stored and no (role, content) pair
    comes back. *)
Theorem save_load_loses_every_message h sid now c :
  (exists doc,
     Storage.load_chat_history
       (fst (Storage.save_chat_history (serialise str_of_role h) sid now c))
       (snd (Storage.save_chat_history (serialise str_of_role h) sid now c))
     = Ok (Some doc)
     /\ message_count doc = length h
     /\ chat_history doc = serialise str_of_role h
     /\ replay (chat_history doc) [] = [])
  /\ pairs (replay (serialise str_of_role Sample.one_exchange) [])
     <> pairs Sample.one_exchange.
Proof.
  split.
  - eexists. unfold Storage.save_chat_history, Storage.load_chat_history.
    simpl. rewrite lookup_insert_eq. simpl. split; [reflexivity|].
    split; [unfold serialise, document; simpl; by rewrite length_map|].
    split; [reflexivity|]. apply member_text_replays_nothing.
  - rewrite member_text_replays_nothing. discriminate.
Qed.

(** A save writes the blob of one key and leaves every other blob. *)
Lemma storage_save_frame chat_data sid now (c : gmap string Blob) :
  fst (Storage.save_chat_history chat_data sid now c) = blob_key sid now
  /\ snd (Storage.save_chat_history chat_data sid now c) !! blob_key sid now
     = Some {| body := Some (document chat_data sid now);
               last_modified := server now |}
  /\ forall other,
       other <> blob_key sid now ->
       snd (Storage.save_chat_history chat_data sid now c) !! other
       = c !! other.
Proof.
  unfold Storage.save_chat_history. simpl. split; [done|]. split.
  - apply lookup_insert_eq.
  - intros other Hne. by apply lookup_insert_ne.
Qed.

(** C3 as the spec words it fails: two saves of one session id leave one
    snapshot, the second; the first is gone. *)
Lemma second_save_replaces_first :
  let first_data := serialise str_of_role [Sample.system_says "policy"] in
  let second_data := serialise str_of_role Sample.one_exchange in
  let c1 := snd (Storage.save_chat_history first_data "main_session"
                   Sample.ten ∅) in
  let c2 := snd (Storage.save_chat_history second_data "main_session"
                   Sample.five_past_ten c1) in
  fst (Storage.save_chat_history first_data "main_session" Sample.ten ∅)
  = fst (Storage.save_chat_history second_data "main_session"
           Sample.five_past_ten c1)
  /\ size c1 = 1
  /\ size c2 = 1
  /\ c2 !! "main_session.json" <> c1 !! "main_session.json".
Proof.
  simpl. split; [reflexivity|].
  unfold Storage.save_chat_history. simpl. unfold blob_key. simpl.
  rewrite insert_insert_eq, !insert_empty, !map_size_singleton.
  split; [done|]. split; [done|].
  rewrite !lookup_singleton_eq. discriminate.
Qed.

End StorageFacts.

(** ** Properties of the session manager *)

Module AgentFacts.
Import Chat Storage Agent.

#[local] Arguments String.eqb : simpl never.
#[local] Arguments replay : simpl never.

(** *** The listing holds blobs of the container only *)

Lemma in_insert_by_name x y l :
  In x (insert_by_name y l) -> x = y \/ In x l.
Proof.
  induction l as [|z l IH]; simpl.
  - intros [->|[]]. by left.
  - destruct (String.leb (fst y) (fst z)); simpl.
    + intros [->|H]; auto.
    + intros [->|H]; auto. destruct (IH H); auto.
Qed.

Lemma in_list_blobs (c : gmap string Blob) x :
  In x (list_blobs c) -> c !! fst x = Some (snd x).
Proof.
  unfold list_blobs. intros H.
  assert (Hin : In x (map_to_list c)).
  { induction (map_to_list c) as [|y l IH]; simpl in *; [done|].
    destruct (in_insert_by_name _ _ _ H) as [->|H']; auto. }
  apply list_elem_of_In in Hin. destruct x as [k b].
  by apply elem_of_map_to_list in Hin.
Qed.

Lemma in_collect limit blobs acc s :
  In s (collect limit blobs acc) ->
  In s acc \/ exists x, In x blobs /\ s = info_of x.
Proof.
  revert acc. induction blobs as [|x blobs IH]; intros acc; simpl; [auto|].
  destruct (limit <=? length acc)%nat; [auto|].
  destruct (Text.endswith (fst x) ".json").
  - intros H. destruct (IH _ H) as [Hacc|(y & Hy & ->)].
    + apply in_app_or in Hacc as [Hacc|[<-|[]]]; [auto|].
      right. exists x. auto.
    + right. exists y. auto.
  - intros H. destruct (IH _ H) as [Hacc|(y & Hy & ->)]; [auto|].
    right. exists y. auto.
Qed.

Lemma in_insert_newest x y l : In x (insert_newest y l) -> x = y \/ In x l.
Proof.
  induction l as [|z l IH]; simpl.
  - intros [->|[]]. by left.
  - destruct (String.ltb (info_modified y) (info_modified z)); simpl.
    + intros [->|H]; auto. destruct (IH H); auto.
    + intros [->|H]; auto.
Qed.

Lemma in_sort_newest x l : In x (sort_newest l) -> In x l.
Proof.
  unfold sort_newest. induction l as [|y l IH]; simpl; [done|].
  intros H. destruct (in_insert_newest _ _ _ H) as [->|H']; auto.
Qed.

Lemma listed_in_container (c : gmap string Blob) s :
  In s (list_chat_sessions c) -> exists b, c !! blob_name s = Some b.
Proof.
  unfold list_chat_sessions. intros H. apply in_sort_newest in H.
  apply in_collect in H as [[]|(x & Hx & ->)].
  apply in_list_blobs in Hx. simpl. eauto.
Qed.

Lemma find_none_in_listing (c : gmap string Blob) sid :
  (forall name b, c !! name = Some b -> Text.contains sid name = false) ->
  find (fun s => Text.contains sid (blob_name s)) (list_chat_sessions c)
  = None.
Proof.
  intros H.
  destruct (find _ _) as [s|] eqn:E; [|done].
  apply find_some in E as [Hin Hc].
  destruct (listed_in_container _ _ Hin) as [b Hb].
  rewrite (H _ _ Hb) in Hc. discriminate.
Qed.

Lemma has_user_messages_conversation w :
  has_user_messages w = true -> exists h, conversation w = Some h.
Proof.
  unfold has_user_messages. destruct (conversation w); [eauto|discriminate].
Qed.

Lemma blob_key_of_id sid now : sid <> "" -> blob_key sid now = sid +:+ ".json".
Proof.
  intros H. unfold blob_key, effective_id.
  apply String.eqb_neq in H. by rewrite H.
Qed.

Section WithEnvironment.
Variable role_str : AuthorRole -> string.
Variable policy_initialize policy_create policy_switch : string.
Variable clock : nat -> Tick.
Variable py_str : Json.PyVal -> Res string.
Variable json_dumps : Json.PyVal -> Res string.

Abbreviation save := (save_chat_history role_str clock).
Abbreviation saved := (after_save role_str clock).
Abbreviation key_of := (checkpoint_key clock).
Abbreviation create := (create_new_session role_str policy_create clock).
Abbreviation switch := (switch_session role_str policy_switch clock).
Abbreviation restore := _load_most_recent_session.

(** *** What the methods compute *)

Lemma save_chat_history_eq w :
  save w
  = if chat_storage w then
      match conversation w with
      | Some h => (Ok (key_of w), saved w h)
      | None => (Raise no_conversation, w)
      end
    else (Raise not_initialized, w).
Proof.
  unfold save_chat_history, mbind, M_bind, get. simpl.
  destruct (chat_storage w); simpl; [|done].
  by destruct (conversation w).
Qed.

Lemma save_if_used_eq w :
  save_if_used role_str clock w
  = if has_user_messages w then
      match save w with
      | (Ok _, w') => (Ok tt, w')
      | (Raise e, w') => (Raise e, w')
      end
    else (Ok tt, w).
Proof.
  unfold save_if_used, mbind, M_bind, get. simpl.
  destruct (has_user_messages w); [|done].
  by destruct (save w) as [[a|e] w'].
Qed.

Lemma save_quietly_eq w :
  save_quietly role_str clock w = (Ok tt, exec save w).
Proof.
  unfold save_quietly, try_catch, mbind, M_bind, exec.
  by destruct (save w) as [[a|e] w'].
Qed.

(** A checkpoint changes the container and the clock count only. *)
Lemma exec_save_fields w :
  conversation (exec save w) = conversation w
  /\ current_session_id (exec save w) = current_session_id w
  /\ chat_storage (exec save w) = chat_storage w
  /\ kernel (exec save w) = kernel w.
Proof.
  unfold exec. rewrite save_chat_history_eq.
  destruct (chat_storage w) eqn:E; [|done].
  destruct (conversation w) eqn:E2; simpl; rewrite ?E, ?E2; done.
Qed.

Lemma start_session_eq name w :
  exists w',
    start_session role_str policy_create clock name w
    = (Ok (session_id_of_name name), w')
    /\ current_session_id w' = session_id_of_name name
    /\ conversation w' = Some (fresh policy_create).
Proof.
  unfold start_session, mbind, M_bind, modify, get. simpl.
  rewrite save_quietly_eq. simpl.
  set (w1 := with_conversation _ _).
  destruct (exec_save_fields w1) as (Hc & Hi & _).
  eexists. split; [by rewrite Hi|]. by rewrite Hc, Hi.
Qed.

(** C8, as the code has it: when the checkpoint of a used transcript
    cannot fail (the storage service is set up, or the transcript holds
    system messages only), [create_new_session] with a name returns and
    sets the session id to the name with blanks and slashes replaced,
    [My_Chat] for [My Chat], over a fresh transcript; a transcript with a
    message that is not a system message is stored under the key of the
    old session id, still active, before the new session starts; and when
    that checkpoint fails the call raises and changes nothing. *)
Theorem create_new_session_named c0 name w :
  session_id_of_name "My Chat" = "My_Chat"
  /\ (chat_storage w = true \/ has_user_messages w = false ->
      exists w',
        create (Some (String c0 name)) w
        = (Ok (session_id_of_name (String c0 name)), w')
        /\ current_session_id w' = session_id_of_name (String c0 name)
        /\ conversation w' = Some (fresh policy_create))
  /\ (has_user_messages w = true -> chat_storage w = true ->
      exists h,
        conversation w = Some h
        /\ save w = (Ok (key_of w), saved w h)
        /\ container (saved w h) !! key_of w
           = Some (snapshot_of role_str clock w h)
        /\ conversation (saved w h) = Some h
        /\ create (Some (String c0 name)) w
           = start_session role_str policy_create clock (String c0 name)
               (saved w h))
  /\ (has_user_messages w = true -> chat_storage w = false ->
      create (Some (String c0 name)) w = (Raise not_initialized, w)).
Proof.
  split; [reflexivity|].
  assert (Hrun : create (Some (String c0 name)) w
                 = (save_if_used role_str clock
                      ≫= fun _ => start_session role_str policy_create clock
                                    (String c0 name)) w) by reflexivity.
  split; [|split].
  - intros Hpre. rewrite Hrun. unfold mbind, M_bind. rewrite save_if_used_eq.
    destruct (has_user_messages w) eqn:Hu.
    + destruct Hpre as [Hs|]; [|discriminate].
      destruct (has_user_messages_conversation w Hu) as [h Hh].
      rewrite save_chat_history_eq, Hs, Hh. apply start_session_eq.
    + apply start_session_eq.
  - intros Hu Hs.
    destruct (has_user_messages_conversation w Hu) as [h Hh].
    exists h. split; [done|].
    assert (Hsave : save w = (Ok (key_of w), saved w h))
      by (by rewrite save_chat_history_eq, Hs, Hh).
    split; [done|]. split; [apply lookup_insert_eq|]. split; [done|].
    rewrite Hrun. unfold mbind, M_bind.
    by rewrite save_if_used_eq, Hu, Hsave.
  - intros Hu Hs. rewrite Hrun. unfold mbind, M_bind.
    by rewrite save_if_used_eq, Hu, save_chat_history_eq, Hs.
Qed.

(** *** Switching *)

Lemma find_and_load_not_found sid w :
  chat_storage w = true ->
  (forall name b,
     container w !! name = Some b -> Text.contains sid name = false) ->
  find_and_load policy_switch sid w
  = (Ok true,
     with_conversation (Some (fresh policy_switch)) (with_session_id sid w)).
Proof.
  intros Hs Hnone.
  unfold find_and_load, get_chat_sessions, mbind, M_bind, get. simpl.
  rewrite Hs. simpl. by rewrite find_none_in_listing.
Qed.

Lemma find_and_load_container sid w :
  container (exec (find_and_load policy_switch sid) w) = container w.
Proof.
  unfold exec, find_and_load, get_chat_sessions, load_chat_history, mbind,
    M_bind, get, lift. simpl.
  destruct (chat_storage w) eqn:Hs; simpl; [|done].
  destruct (find _ _); simpl; [|done].
  rewrite Hs. simpl.
  by destruct (Storage.load_chat_history _ _) as [[doc|]|].
Qed.

Lemma find_and_load_found sid w session :
  chat_storage w = true ->
  find (fun s => Text.contains sid (blob_name s))
    (list_chat_sessions (container w)) = Some session ->
  find_and_load policy_switch sid w
  = match Storage.load_chat_history (blob_name session) (container w) with
    | Ok (Some doc) =>
        (Ok true,
         with_session_id sid
           (with_conversation (Some (replay (chat_history doc) [])) w))
    | Ok None => (Ok false, w)
    | Raise e => (Raise e, w)
    end.
Proof.
  intros Hs Hfind.
  unfold find_and_load, get_chat_sessions, load_chat_history, mbind, M_bind,
    get, lift.
  simpl. rewrite Hs. simpl. rewrite Hfind. simpl. rewrite Hs. simpl.
  by destruct (Storage.load_chat_history _ _) as [[doc|]|].
Qed.

Lemma switch_without_storage sid w :
  chat_storage w = false -> switch sid w = (Ok false, w).
Proof.
  intros Hs. unfold switch_session, try_catch, mbind, M_bind.
  rewrite save_if_used_eq.
  destruct (has_user_messages w).
  - by rewrite save_chat_history_eq, Hs.
  - unfold find_and_load, get_chat_sessions, mbind, M_bind, get. simpl.
    by rewrite Hs.
Qed.

(** C9, as the code has it: with the storage service set up, when no blob
    of the container has a name that contains the id, and neither has the
    key under which a used transcript is checkpointed first,
    [switch_session] starts a fresh transcript under the id and returns
    true; without a storage service it returns false and changes
    nothing. *)
Theorem switch_session_implicit_create sid w :
  (chat_storage w = true ->
   (forall name b,
      container w !! name = Some b -> Text.contains sid name = false) ->
   (has_user_messages w = true -> Text.contains sid (key_of w) = false) ->
   exists w',
     switch sid w = (Ok true, w')
     /\ conversation w' = Some (fresh policy_switch)
     /\ current_session_id w' = sid)
  /\ (chat_storage w = false -> switch sid w = (Ok false, w)).
Proof.
  split; [|apply switch_without_storage].
  intros Hs Hnone Hkey.
  unfold switch_session, try_catch, mbind, M_bind.
  rewrite save_if_used_eq.
  destruct (has_user_messages w) eqn:Hu.
  - destruct (has_user_messages_conversation w Hu) as [h Hh].
    rewrite save_chat_history_eq, Hs, Hh.
    rewrite find_and_load_not_found; [by eexists|done|].
    intros name b. unfold after_save. simpl.
    destruct (decide (name = key_of w)) as [->|Hne].
    + intros _. by apply Hkey.
    + rewrite lookup_insert_ne by done. apply Hnone.
  - rewrite find_and_load_not_found by done. by eexists.
Qed.

(** C3, as the code has it: a save writes one snapshot under the key of
    its session id, in place of whatever that key held, and leaves the
    blob of every other key as it was; [switch_session] changes no blob
    but the one under the key of the session it leaves, and removes
    none. *)
Theorem snapshots_replaced_under_own_key_only :
  (forall chat_data sid now (c : gmap string Blob),
     fst (Storage.save_chat_history chat_data sid now c) = blob_key sid now
     /\ snd (Storage.save_chat_history chat_data sid now c)
          !! blob_key sid now
        = Some {| body := Some (document chat_data sid now);
                  last_modified := server now |}
     /\ forall other,
          other <> blob_key sid now ->
          snd (Storage.save_chat_history chat_data sid now c) !! other
          = c !! other)
  /\ (forall sid w other,
        other <> key_of w ->
        container (exec (switch sid) w) !! other = container w !! other)
  /\ (forall sid w name,
        is_Some (container w !! name) ->
        is_Some (container (exec (switch sid) w) !! name))
  /\ (forall sid now, sid <> "" -> blob_key sid now = sid +:+ ".json").
Proof.
  split; [apply StorageFacts.storage_save_frame|].
  cut ((forall sid w other,
          other <> key_of w ->
          container (exec (switch sid) w) !! other = container w !! other)
       /\ (forall sid w name,
             is_Some (container w !! name) ->
             is_Some (container (exec (switch sid) w) !! name))).
  { intros [H1 H2]. split; [done|]. split; [done|]. apply blob_key_of_id. }
  assert (Hrun : forall sid w,
            container (exec (switch sid) w) = container w
            \/ exists h, container (exec (switch sid) w)
                         = <[ key_of w := snapshot_of role_str clock w h ]>
                             (container w)).
  { intros sid w. unfold exec, switch_session, try_catch, mbind, M_bind.
    rewrite save_if_used_eq.
    destruct (has_user_messages w); [rewrite save_chat_history_eq|].
    - destruct (chat_storage w); [|by left].
      destruct (conversation w) as [h|]; [|by left].
      right. exists h.
      pose proof (find_and_load_container sid (saved w h)) as Hc.
      unfold exec in Hc.
      destruct (find_and_load policy_switch sid (saved w h)) as [[a|e] w'];
        exact Hc.
    - left.
      pose proof (find_and_load_container sid w) as Hc. unfold exec in Hc.
      destruct (find_and_load policy_switch sid w) as [[a|e] w']; exact Hc. }
  split.
  - intros sid w other Hne.
    destruct (Hrun sid w) as [->|[h ->]]; [done|].
    by rewrite lookup_insert_ne.
  - intros sid w name Hsome.
    destruct (Hrun sid w) as [->|[h ->]]; [done|].
    destruct (decide (key_of w = name)) as [->|Hne].
    + rewrite lookup_insert_eq. by eexists.
    + by rewrite lookup_insert_ne.
Qed.

(** *** Restoring the most recent session *)

(** C10: when the listing is not empty, [_load_most_recent_session] sets
    the session id to the one derived from the newest blob's name before
    it loads the blob: whether the blob loads, fails to load or replays to
    no message, the id is the derived one, and in the last two cases the
    transcript is the one it was; a later checkpoint then writes that
    transcript under the key of the derived id. *)
Theorem restore_assigns_session_id_first w s rest :
  chat_storage w = true ->
  list_chat_sessions (container w) = s :: rest ->
  let name := blob_name (newest_of s rest) in
  let w' := exec restore w in
  current_session_id w' = derived_session_id name
  /\ match Storage.load_chat_history name (container w) with
     | Ok (Some doc) =>
         conversation w'
         = match replay (chat_history doc) [] with
           | [] => conversation w
           | loaded => Some loaded
           end
     | _ => conversation w' = conversation w
     end
  /\ (forall h,
        conversation w' = Some h ->
        fst (save w') = Ok (blob_key (derived_session_id name)
                              (clock (time w)))
        /\ (derived_session_id name <> "" ->
            fst (save w') = Ok (derived_session_id name +:+ ".json"))).
Proof.
  intros Hs Hl name w'.
  assert (Hrun :
    w' = match Storage.load_chat_history name (container w) with
         | Ok (Some doc) =>
             match replay (chat_history doc) [] with
             | [] => with_session_id (derived_session_id name) w
             | loaded =>
                 with_conversation (Some loaded)
                   (with_session_id (derived_session_id name) w)
             end
         | _ => with_session_id (derived_session_id name) w
         end).
  { subst w'. unfold exec, _load_most_recent_session, try_catch,
      get_chat_sessions, load_chat_history, mbind, M_bind, get, lift, modify.
    simpl. repeat (first [rewrite Hs | rewrite Hl]; simpl). fold name.
    destruct (Storage.load_chat_history name (container w)) as [[doc|]|];
      simpl; try done.
    destruct (chat_history doc) as [|m ms] eqn:Hh; simpl; [done|].
    by destruct (replay (m :: ms) []). }
  assert (Hid : current_session_id w' = derived_session_id name).
  { rewrite Hrun.
    destruct (Storage.load_chat_history name (container w)) as [[doc|]|];
      try done.
    by destruct (replay (chat_history doc) []). }
  assert (Htime : time w' = time w /\ chat_storage w' = true).
  { rewrite Hrun.
    destruct (Storage.load_chat_history name (container w)) as [[doc|]|];
      try done.
    by destruct (replay (chat_history doc) []). }
  split; [done|]. split.
  - rewrite Hrun.
    destruct (Storage.load_chat_history name (container w)) as [[doc|]|];
      try done.
    by destruct (replay (chat_history doc) []).
  - intros h Hh. destruct Htime as [Ht Hst].
    assert (Hsave : fst (save w')
                    = Ok (blob_key (derived_session_id name) (clock (time w)))).
    { rewrite save_chat_history_eq, Hst, Hh. simpl.
      unfold checkpoint_key. by rewrite Hid, Ht. }
    split; [done|]. intros Hne. by rewrite Hsave, blob_key_of_id.
Qed.

(** *** Transcripts that begin with the policy message *)

Lemma begins_fresh policy : begins_with_one_system (fresh policy) = true.
Proof. reflexivity. Qed.

Lemma begins_add_message r text h :
  r <> SYSTEM ->
  begins_with_one_system h = true ->
  begins_with_one_system (add_message r text h) = true.
Proof.
  intros Hr. destruct h as [|m h]; simpl; [done|].
  intros [Hm Hh]%andb_true_iff. rewrite Hm. simpl.
  rewrite forallb_app, Hh. simpl. unfold is_system. simpl.
  by destruct r.
Qed.

End WithEnvironment.

(** *** The theorems at sample inputs *)

(** C4 as the spec words it fails: [initialize] over a container whose
    newest snapshot holds a user message only leaves a transcript with no
    system message. *)
Lemma restore_of_headless_snapshot :
  conversation
    (Sample.run_call (Initialize true) (new_service Sample.headless_store 0))
  = Some [Sample.user_says "hello"]
  /\ begins_with_one_system [Sample.user_says "hello"] = false.
Proof. split; vm_compute; reflexivity. Qed.

(** The snapshot [process_query] writes holds the roles as [str] writes
    them, and no message of such a role is replayed: going back to the
    session of the query leaves a transcript without a message. *)
Lemma switch_to_own_session_empties_transcript :
  conversation Sample.with_storage
  = Some [ Sample.system_says "policy at start";
           Sample.user_says "hello"; Sample.assistant_says "hi" ]
  /\ Sample.run_call (SwitchSession "main_session") Sample.with_storage
     = with_time 3 (with_conversation (Some []) Sample.with_storage)
  /\ begins_with_one_system [] = false.
Proof. repeat split; vm_compute; reflexivity. Qed.

(** C8 as the spec words it fails: without a storage service, and with a
    user message in the transcript, [create_new_session] raises and the
    session id stays. *)
Lemma create_without_storage_raises :
  has_user_messages Sample.without_storage = true
  /\ current_session_id Sample.without_storage = "main_session"
  /\ create_new_session str_of_role "policy of a new session"
       Sample.sample_clock (Some "My Chat") Sample.without_storage
     = (Raise not_initialized, Sample.without_storage).
Proof. repeat split; vm_compute; reflexivity. Qed.

Lemma create_new_session_named_witness :
  (chat_storage Sample.with_storage = true
   \/ has_user_messages Sample.with_storage = false)
  /\ exists w',
       create_new_session str_of_role "policy of a new session"
         Sample.sample_clock (Some "My Chat") Sample.with_storage
       = (Ok "My_Chat", w')
       /\ current_session_id w' = "My_Chat".
Proof.
  split; [left; reflexivity|].
  destruct (create_new_session_named str_of_role
              "policy of a new session" Sample.sample_clock "M" "y Chat"
              Sample.with_storage)
    as (_ & Hnamed & _).
  destruct (Hnamed (or_introl eq_refl)) as (w' & Hrun & Hid & _).
  exists w'. split; [exact Hrun|exact Hid].
Defined.

(** C9 as the spec words it fails: no blob name contains the id, the
    storage service is set up, and yet the transcript is not a fresh one
    after the call: the checkpoint of the active transcript wrote a blob
    whose name contains the id, and that blob was loaded in place of a
    new session.  Its replay holds no message, the roles being stored as
    [str] writes them. *)
Lemma switch_reloads_own_checkpoint :
  container Sample.snapshot_deleted = ∅
  /\ chat_storage Sample.snapshot_deleted = true
  /\ conversation Sample.snapshot_deleted
     = Some [ Sample.system_says "policy at start";
              Sample.user_says "hello"; Sample.assistant_says "hi" ]
  /\ exists w' b doc,
       switch_session str_of_role "policy of a switched session"
         Sample.sample_clock "main" Sample.snapshot_deleted
       = (Ok true, w')
       /\ container w' !! "main_session.json" = Some b
       /\ body b = Some doc
       /\ conversation w' = Some (replay (chat_history doc) [])
       /\ conversation w' = Some []
       /\ conversation w' <> Some (fresh "policy of a switched session").
Proof.
  split; [vm_compute; reflexivity|]. split; [reflexivity|].
  split; [vm_compute; reflexivity|].
  do 3 eexists. split; [vm_compute; reflexivity|].
  split; [vm_compute; reflexivity|]. split; [reflexivity|].
  split; [vm_compute; reflexivity|]. split; [reflexivity|].
  discriminate.
Qed.

Lemma switch_session_implicit_create_witness :
  chat_storage Sample.started = true
  /\ has_user_messages Sample.started = false
  /\ exists w',
       switch_session str_of_role "policy of a switched session"
         Sample.sample_clock "nonexistent" Sample.started
       = (Ok true, w')
       /\ conversation w' = Some (fresh "policy of a switched session")
       /\ current_session_id w' = "nonexistent".
Proof.
  split; [reflexivity|]. split; [reflexivity|].
  apply (proj1 (switch_session_implicit_create str_of_role
                  "policy of a switched session" Sample.sample_clock
                  "nonexistent" Sample.started)).
  - reflexivity.
  - intros name b H. vm_compute in H. discriminate.
  - intros H. vm_compute in H. discriminate.
Defined.

Lemma restore_assigns_session_id_first_witness :
  chat_storage Sample.before_restore = true
  /\ list_chat_sessions (container Sample.before_restore)
     = [Sample.broken_entry]
  /\ current_session_id (exec _load_most_recent_session Sample.before_restore)
     = "My"
  /\ conversation (exec _load_most_recent_session Sample.before_restore)
     = conversation Sample.before_restore.
Proof.
  split; [reflexivity|]. split; [vm_compute; reflexivity|].
  destruct (restore_assigns_session_id_first str_of_role
              Sample.sample_clock Sample.before_restore Sample.broken_entry []
              eq_refl eq_refl)
    as (Hid & Hconv & _).
  split; [exact Hid|exact Hconv].
Defined.

End AgentFacts.

(** ** More properties of the normaliser *)

Module NormalizerLaws.
Import Json Normalizer Chars Pattern.

#[local] Arguments String.eqb : simpl never.
#[local] Arguments Ascii.eqb : simpl never.

(** *** A text without an opening brace *)

Lemma cmatch_brace fl x :
  Re.cmatch fl (Re.CLit "{"%char) x = Ascii.eqb "{"%char x.
Proof.
  unfold Re.cmatch. destruct (Re.ignorecase fl); [|done].
  destruct x as [[] [] [] [] [] [] [] []]; reflexivity.
Qed.

Lemma run_stuck {R} c fl r : forall st (k : Re.mstate -> option R),
  has_char c (Re.rest st) = false ->
  (forall st', has_char c (Re.rest st') = false -> k st' = None) ->
  Re.run fl r st k = None.
Proof.
  induction r as [ | cs | g cs | a IHa b IHb | a IHa b IHb | a IHa | | ];
    intros st k Hst Hk; simpl.
  - by apply Hk.
  - destruct (Re.rest st) as [|x s'] eqn:E; [done|].
    destruct (Re.cmatch fl cs x); [|done].
    apply Hk. simpl. simpl in Hst. by apply orb_false_iff in Hst as [_ ?].
  - revert Hst. generalize (Re.pos st) as p. generalize (Re.rest st) as s.
    induction s as [|x s' IH]; intros p Hs; simpl.
    + by apply Hk.
    + simpl in Hs. apply orb_false_iff in Hs as [Hx Hs'].
      assert (Hhere : k {| Re.pos := p; Re.rest := String x s';
                           Re.grp := Re.grp st |} = None).
      { apply Hk. simpl. by rewrite Hx, Hs'. }
      destruct (Re.cmatch fl cs x); [|done].
      destruct g; by rewrite (IH (S p) Hs'), ?Hhere.
  - apply IHa; [done|]. intros st' Hst'. by apply IHb.
  - by rewrite IHa, IHb.
  - apply IHa; [done|]. intros st' Hst'. by apply Hk.
  - destruct (Re.pos st =? 0)%nat; [by apply Hk|done].
  - destruct (Re.rest st) as [|x [|y s']] eqn:E.
    + apply Hk. by rewrite E.
    + destruct (Ascii.eqb x Text.newline); [|done]. apply Hk. by rewrite E.
    + done.
Qed.

Lemma run_needs {R} fl r : forall st (k : Re.mstate -> option R),
  needs "{"%char r = true ->
  has_char "{"%char (Re.rest st) = false ->
  Re.run fl r st k = None.
Proof.
  induction r as [ | cs | g cs | a IHa b IHb | a IHa b IHb | a IHa | | ];
    intros st k Hn Hst; simpl in *; try discriminate.
  - destruct cs as [ | a | | ]; try discriminate.
    apply Ascii.eqb_eq in Hn as ->.
    destruct (Re.rest st) as [|x s']; [done|].
    simpl in Hst. apply orb_false_iff in Hst as [Hx _].
    by rewrite cmatch_brace, Hx.
  - apply orb_true_iff in Hn as [Hn|Hn]; [by apply IHa|].
    apply (run_stuck "{"%char); [done|]. intros st' Hst'. by apply IHb.
  - apply andb_true_iff in Hn as [Ha Hb]. by rewrite IHa, IHb.
  - by apply IHa.
Qed.

Lemma search_needs fl r s p :
  needs "{"%char r = true -> has_char "{"%char s = false ->
  Re.search_from fl r s p = None.
Proof.
  intros Hn. revert p. induction s as [|x s' IH]; intros p Hs; simpl.
  - unfold Re.match_at. by rewrite run_needs.
  - unfold Re.match_at. rewrite run_needs by done.
    simpl in Hs. apply orb_false_iff in Hs as [_ Hs']. by apply IH.
Qed.

Lemma has_char_lstrip c s :
  has_char c s = false -> has_char c (Text.lstrip s) = false.
Proof.
  induction s as [|x s' IH]; simpl; [done|].
  intros [Hx Hs]%orb_false_iff.
  destruct (Text.isspace x); [by apply IH|]. simpl. by rewrite Hx, Hs.
Qed.

Lemma has_char_rstrip c s :
  has_char c s = false -> has_char c (Text.rstrip s) = false.
Proof.
  induction s as [|x s' IH]; simpl; [done|].
  intros [Hx Hs]%orb_false_iff. specialize (IH Hs).
  destruct (Text.rstrip s') as [|y t].
  - destruct (Text.isspace x); [done|]. simpl. by rewrite Hx.
  - simpl. simpl in IH. by rewrite Hx, IH.
Qed.

Lemma braced_has_brace s : braced s = true -> has_char "{"%char s = true.
Proof.
  unfold braced, Text.strip, Text.startswith.
  intros [Hp _]%andb_true_iff.
  destruct (has_char "{"%char s) eqn:E; [done|].
  pose proof (has_char_rstrip _ _ (has_char_lstrip _ _ E)) as H.
  destruct (Text.rstrip (Text.lstrip s)) as [|x t]; [discriminate|].
  simpl in H. apply orb_false_iff in H as [Hx _].
  change (String.prefix "{" (String x t))
    with (if ascii_dec "{"%char x then String.prefix "" t else false) in Hp.
  destruct (ascii_dec "{"%char x) as [<-|Hne]; [|discriminate].
  by rewrite Ascii.eqb_refl in Hx.
Qed.

Lemma has_char_delete c fl r s : forall p skip,
  has_char c s = false -> has_char c (Re.delete_from fl r s p skip) = false.
Proof.
  induction s as [|x s' IH]; intros p skip; simpl; [done|].
  intros [Hx Hs]%orb_false_iff.
  destruct skip as [|k]; [|by apply IH].
  destruct (Re.match_at fl r p (String x s')) as [st|].
  - destruct (Re.pos st - p)%nat; simpl; [rewrite Hx|]; by apply IH.
  - simpl. rewrite Hx. by apply IH.
Qed.

Lemma try_parse_json_without_brace limits s :
  has_char "{"%char s = false -> _try_parse_json limits s = Ok None.
Proof.
  intros Hs. unfold _try_parse_json.
  assert (Hpat : first_pattern limits s json_patterns = Ok None).
  { unfold json_patterns, first_pattern, try_pattern, Re.group1, Re.search.
    by rewrite !search_needs. }
  rewrite Hpat.
  assert (Hwhole : forall t, has_char "{"%char t = false ->
                             whole_as_json limits t = Ok None).
  { intros t Ht. unfold whole_as_json.
    destruct (braced t) eqn:E; [|done].
    apply braced_has_brace in E. congruence. }
  simpl. rewrite (Hwhole s Hs). simpl. apply Hwhole.
  unfold Re.delete_all. by do 2 apply has_char_delete.
Qed.

(** *** Letter case *)

Lemma to_lower_idem x : Text.to_lower (Text.to_lower x) = Text.to_lower x.
Proof. destruct x as [[] [] [] [] [] [] [] []]; reflexivity. Qed.

Lemma isspace_lower x : Text.isspace (Text.to_lower x) = Text.isspace x.
Proof. destruct x as [[] [] [] [] [] [] [] []]; reflexivity. Qed.

Lemma newline_lower x :
  Ascii.eqb (Text.to_lower x) Text.newline = Ascii.eqb x Text.newline.
Proof. destruct x as [[] [] [] [] [] [] [] []]; reflexivity. Qed.

Lemma cmatch_lower cs x :
  plain_set cs = true ->
  Re.cmatch Re.IGNORECASE cs (Text.to_lower x) = Re.cmatch Re.IGNORECASE cs x.
Proof.
  destruct cs as [ | a | | l ]; intros H; simpl; try discriminate.
  - by rewrite newline_lower.
  - by rewrite to_lower_idem.
  - apply isspace_lower.
Qed.

Lemma is_some_or {A} (a b : option A) :
  is_some (match a with Some x => Some x | None => b end)
  = is_some a || is_some b.
Proof. by destruct a. Qed.

Lemma star_lower {R} cs g : forall s p (k k' : nat -> string -> option R),
  plain_set cs = true ->
  (forall p s, is_some (k' p (Text.lower s)) = is_some (k p s)) ->
  is_some (Re.star Re.IGNORECASE cs g (Text.lower s) p k')
  = is_some (Re.star Re.IGNORECASE cs g s p k).
Proof.
  induction s as [|x s' IH]; intros p k k' Hcs Hk; simpl.
  - apply (Hk p EmptyString).
  - rewrite cmatch_lower by done.
    pose proof (Hk p (String x s')) as Hhere. simpl in Hhere.
    destruct (Re.cmatch Re.IGNORECASE cs x); [|done].
    destruct g; rewrite !is_some_or, Hhere, (IH (S p) k k'); done.
Qed.

Lemma run_lower {R} r : forall st (k k' : Re.mstate -> option R),
  plain r = true ->
  (forall st', is_some (k' (lowered st')) = is_some (k st')) ->
  is_some (Re.run Re.IGNORECASE r (lowered st) k')
  = is_some (Re.run Re.IGNORECASE r st k).
Proof.
  induction r as [ | cs | g cs | a IHa b IHb | a IHa b IHb | a IHa | | ];
    intros st k k' Hr Hk; simpl in *.
  - apply Hk.
  - destruct (Re.rest st) as [|x s'] eqn:E; simpl; [done|].
    rewrite cmatch_lower by done.
    destruct (Re.cmatch Re.IGNORECASE cs x); [|done].
    apply (Hk {| Re.pos := S (Re.pos st); Re.rest := s';
                 Re.grp := Re.grp st |}).
  - apply star_lower; [done|]. intros p s.
    apply (Hk {| Re.pos := p; Re.rest := s; Re.grp := Re.grp st |}).
  - apply andb_true_iff in Hr as [Ha Hb].
    apply IHa; [done|]. intros st'. by apply IHb.
  - apply andb_true_iff in Hr as [Ha Hb].
    by rewrite !is_some_or, (IHa st k k'), (IHb st k k').
  - apply IHa; [done|]. intros st'.
    apply (Hk {| Re.pos := Re.pos st'; Re.rest := Re.rest st';
                 Re.grp := Some (Re.pos st, Re.pos st') |}).
  - destruct (Re.pos st =? 0)%nat; [apply Hk|done].
  - pose proof (Hk st) as Hhere. unfold lowered in Hhere.
    destruct (Re.rest st) as [|x [|y s']] eqn:E; simpl in *; try done.
    rewrite newline_lower. by destruct (Ascii.eqb x Text.newline).
Qed.

Lemma found_lower r s :
  plain r = true ->
  Re.found Re.IGNORECASE r (Text.lower s) = Re.found Re.IGNORECASE r s.
Proof.
  intros Hr. unfold Re.found, Re.search.
  change (is_some (Re.search_from Re.IGNORECASE r (Text.lower s) 0)
          = is_some (Re.search_from Re.IGNORECASE r s 0)).
  generalize 0%nat as p. induction s as [|x s' IH]; intros p; simpl.
  - done.
  - unfold Re.match_at.
    pose proof (run_lower r {| Re.pos := p; Re.rest := String x s';
                               Re.grp := None |} Some Some Hr
                  (fun _ => eq_refl)) as H.
    unfold lowered in H. simpl in H.
    by rewrite !is_some_or, H, (IH (S p)).
Qed.

(** *** Mappings *)

Lemma dict_set_same k v d : dict_get k d = Some v -> dict_set k v d = d.
Proof.
  induction d as [|[k' v'] d IH]; simpl; [done|].
  destruct (String.eqb k k') eqn:E.
  - apply String.eqb_eq in E as ->. by intros [= ->].
  - intros H. by rewrite IH.
Qed.

Lemma set_defaults_fixed m :
  Forall (fun k => dict_has k m = true) flag_keys -> set_defaults m = m.
Proof.
  unfold flag_keys, set_defaults. intros H.
  repeat match goal with
         | H : Forall _ (_ :: _) |- _ => apply Forall_cons_iff in H as [? H]
         end.
  simpl. unfold dict_setdefault.
  repeat match goal with H : dict_has _ m = true |- _ => rewrite H; clear H end.
  done.
Qed.

Section WithBuiltins.
Variable py_str : PyVal -> Res string.
Variable json_dumps : PyVal -> Res string.
Variable limits : Limits.

Abbreviation parse := (_parse_response py_str json_dumps limits).
Abbreviation ensure := (_ensure_string_content py_str json_dumps).
Abbreviation validate := (_validate_and_normalize_json py_str json_dumps).

(** A reply text with no opening brace in it is never read as JSON: the
    envelope holds the whole text and the flags of the fallback
    classification. *)
Theorem braceless_text_is_classified s :
  has_char "{"%char s = false ->
  _try_parse_json limits s = Ok None
  /\ parse (VStr s) = Ok (envelope s (classify s)).
Proof.
  intros Hs. split; [by apply try_parse_json_without_brace|].
  unfold _parse_response. simpl.
  by rewrite try_parse_json_without_brace.
Qed.

(** The flags of the fallback classification do not depend on the case
    of the letters of the text. *)
Theorem classification_ignores_case s :
  classify (Text.lower s) = classify s.
Proof. unfold classify. by rewrite !found_lower. Qed.

(** [_validate_and_normalize_json] returns the decoded object itself:
    its content is the text of the object's own content, or the whole
    reply text when the object has none, and every key other than
    [content] and [metadata] is passed on as decoded. *)
Theorem validate_passes_object_on parsed_json fallback_content :
  exists env,
    validate parsed_json fallback_content = Ok env
    /\ dict_get "content" env
       = Some (VStr match dict_get "content" parsed_json with
                    | Some c => ensure c
                    | None => fallback_content
                    end)
    /\ forall k,
         k <> "content" -> k <> "metadata" ->
         dict_get k env = dict_get k parsed_json.
Proof.
  unfold _validate_and_normalize_json, normalize_body.
  eexists. split; [reflexivity|]. split.
  - rewrite NormalizerFacts.dict_get_set_ne by done.
    destruct (dict_get "content" parsed_json) eqn:E;
      (destruct (dict_has "metadata" _);
       [|rewrite NormalizerFacts.dict_get_set_ne by done]);
      apply NormalizerFacts.dict_get_set_eq.
  - intros k Hc Hm.
    rewrite NormalizerFacts.dict_get_set_ne by done.
    destruct (dict_get "content" parsed_json) eqn:E;
      (destruct (dict_has "metadata" _);
       [|rewrite NormalizerFacts.dict_get_set_ne by done]);
      by rewrite NormalizerFacts.dict_get_set_ne.
Qed.

(** Normalising an envelope that [_validate_and_normalize_json] returned
    gives the same envelope, whatever the fallback text. *)
Theorem validate_idempotent parsed_json fallback_content env again :
  _validate_and_normalize_json py_str json_dumps parsed_json fallback_content
  = Ok env ->
  _validate_and_normalize_json py_str json_dumps env again = Ok env.
Proof.
  intros Hv.
  destruct (NormalizerFacts.validate_result py_str json_dumps parsed_json
              fallback_content) as (env' & Hv' & [s Hc] & Hm).
  assert (env' = env) as -> by congruence.
  unfold _validate_and_normalize_json, normalize_body.
  rewrite Hc. simpl. rewrite (dict_set_same _ _ _ Hc).
  unfold dict_has. rewrite Hm. cbv iota beta. rewrite Hm.
  rewrite set_defaults_fixed by apply NormalizerFacts.set_defaults_has_flags.
  by rewrite (dict_set_same _ _ _ Hm).
Qed.

Lemma res_map_texts l :
  res_map (item_text py_str json_dumps) (map VStr l) = Ok l.
Proof.
  induction l as [|x l IH]; simpl; [done|].
  unfold mbind, res_bind. by rewrite IH.
Qed.

Lemma res_map_raises before x after e :
  Forall (fun y => exists t, item_text py_str json_dumps y = Ok t) before ->
  item_text py_str json_dumps x = Raise e ->
  res_map (item_text py_str json_dumps) (before ++ x :: after) = Raise e.
Proof.
  intros Hb Hx. induction Hb as [|y before [t Hy] _ IH]; simpl.
  - by rewrite Hx.
  - rewrite Hy. unfold mbind, res_bind at 1. simpl. by rewrite IH.
Qed.

(** A reply that is a list of texts becomes the texts joined by line
    feeds, in order; and when the text of one item cannot be taken, the
    texts of all the items are dropped for the error message of the
    first such item. *)
Theorem list_reply_text :
  (forall l, ensure (VList (map VStr l)) = Text.join lf l)
  /\ (forall before x after e,
        Forall (fun y => exists t, item_text py_str json_dumps y = Ok t)
          before ->
        item_text py_str json_dumps x = Raise e ->
        ensure (VList (before ++ x :: after)) = conversion_error e).
Proof.
  split.
  - intros l. simpl. by rewrite res_map_texts.
  - intros before x after e Hb Hx. simpl.
    by rewrite (res_map_raises before x after e Hb Hx).
Qed.

End WithBuiltins.

Lemma braceless_text_is_classified_witness :
  has_char "{"%char Sample.story_reply = false
  /\ _parse_response scalar_str no_dumps Sample.limits
       (VStr Sample.story_reply)
     = Ok (envelope Sample.story_reply (classify Sample.story_reply)).
Proof.
  split; [reflexivity|].
  apply (braceless_text_is_classified scalar_str no_dumps Sample.limits
           Sample.story_reply).
  reflexivity.
Defined.

Lemma validate_idempotent_witness :
  exists env,
    _validate_and_normalize_json scalar_str no_dumps
      [("content", VStr "hi"); ("priority", VInt 1)] "whole reply"
    = Ok env
    /\ _validate_and_normalize_json scalar_str no_dumps env "another text"
       = Ok env.
Proof.
  eexists. split; [vm_compute; reflexivity|].
  apply (validate_idempotent scalar_str no_dumps
           [("content", VStr "hi"); ("priority", VInt 1)] "whole reply").
  vm_compute. reflexivity.
Defined.

End NormalizerLaws.

(** ** More properties of the session store *)

Module StorageLaws.
Import Chars Chat Storage StorageUtil.

#[local] Arguments String.eqb : simpl never.
#[local] Arguments Text.endswith : simpl never.
#[local] Arguments Text.replace : simpl never.

(** *** The order of the listing *)

Lemma not_older_le a b :
  not_older a b <-> String.le (info_modified b) (info_modified a).
Proof.
  unfold not_older, String.le, String.ltb, String.leb.
  rewrite (String.compare_antisym (info_modified a) (info_modified b)).
  destruct (String.compare (info_modified b) (info_modified a)); simpl;
    split; try done.
Qed.

Lemma not_older_trans a b c : not_older a b -> not_older b c -> not_older a c.
Proof.
  rewrite !not_older_le. intros Hab Hbc. by transitivity (info_modified b).
Qed.

Lemma not_older_total a b :
  not_older a b \/ String.ltb (info_modified a) (info_modified b) = true.
Proof. unfold not_older. destruct (String.ltb _ _); auto. Qed.

Lemma older_not_older a b :
  String.ltb (info_modified a) (info_modified b) = true -> not_older b a.
Proof.
  unfold not_older, String.ltb.
  rewrite (String.compare_antisym (info_modified a) (info_modified b)).
  by destruct (String.compare (info_modified b) (info_modified a)).
Qed.

Lemma in_insert_newest' x y l : In x (insert_newest y l) <-> x = y \/ In x l.
Proof.
  split; [apply AgentFacts.in_insert_newest|].
  induction l as [|z l IH]; simpl.
  - intros [->|[]]. by left.
  - destruct (String.ltb (info_modified y) (info_modified z)); simpl.
    + intros [->|[->|H]]; auto.
    + intros [->|[->|H]]; auto.
Qed.

Lemma in_sort_newest' x l : In x (sort_newest l) <-> In x l.
Proof.
  unfold sort_newest. induction l as [|y l IH]; simpl; [done|].
  rewrite in_insert_newest', IH. split; intros [H|H]; auto.
Qed.

Lemma insert_newest_sorted x l :
  StronglySorted not_older l -> StronglySorted not_older (insert_newest x l).
Proof.
  induction 1 as [|y l Hl IH Hy]; simpl.
  - repeat constructor.
  - destruct (String.ltb (info_modified x) (info_modified y)) eqn:E.
    + constructor; [done|].
      apply List.Forall_forall. intros z Hz.
      apply in_insert_newest' in Hz as [->|Hz].
      * by apply older_not_older.
      * by eapply List.Forall_forall in Hy.
    + constructor; [by constructor|].
      constructor; [done|].
      eapply Forall_impl; [exact Hy|]. intros z Hz. by eapply not_older_trans.
Qed.

Lemma sort_newest_sorted l : StronglySorted not_older (sort_newest l).
Proof.
  unfold sort_newest. induction l as [|x l IH]; simpl; [constructor|].
  by apply insert_newest_sorted.
Qed.

Lemma length_insert_newest x l : length (insert_newest x l) = S (length l).
Proof.
  induction l as [|y l IH]; simpl; [done|].
  destruct (String.ltb _ _); simpl; by rewrite ?IH.
Qed.

Lemma length_sort_newest l : length (sort_newest l) = length l.
Proof.
  unfold sort_newest. induction l as [|x l IH]; simpl; [done|].
  by rewrite length_insert_newest, IH.
Qed.

(** *** What the listing holds *)

Lemma in_collect_json limit blobs : forall acc s,
  In s (collect limit blobs acc) ->
  In s acc \/ exists x, In x blobs /\ is_json (fst x) = true /\ s = info_of x.
Proof.
  induction blobs as [|x blobs IH]; intros acc s; simpl; [auto|].
  destruct (limit <=? length acc)%nat; [auto|].
  destruct (Text.endswith (fst x) ".json") eqn:E.
  - intros H. destruct (IH _ _ H) as [Hacc|(y & Hy & Hj & ->)].
    + apply in_app_or in Hacc as [Hacc|[<-|[]]]; [auto|].
      right. exists x. auto.
    + right. exists y. auto.
  - intros H. destruct (IH _ _ H) as [Hacc|(y & Hy & Hj & ->)]; [auto|].
    right. exists y. auto.
Qed.

Lemma length_collect limit blobs : forall acc,
  (length acc <= limit)%nat -> (length (collect limit blobs acc) <= limit)%nat.
Proof.
  induction blobs as [|x blobs IH]; intros acc Hacc; simpl; [done|].
  destruct (limit <=? length acc)%nat eqn:E; [done|].
  apply Nat.leb_gt in E.
  destruct (Text.endswith (fst x) ".json"); [|by apply IH].
  apply IH. rewrite length_app. simpl. lia.
Qed.

Lemma collect_all limit blobs : forall acc,
  (length acc + length blobs <= limit)%nat ->
  collect limit blobs acc
  = (acc ++ map info_of (List.filter (fun x => is_json (fst x)) blobs))%list.
Proof.
  induction blobs as [|x blobs IH]; intros acc Hlen; simpl.
  - by rewrite app_nil_r.
  - simpl in Hlen.
    destruct (limit <=? length acc)%nat eqn:E; [apply Nat.leb_le in E; lia|].
    unfold is_json at 1.
    destruct (Text.endswith (fst x) ".json").
    + rewrite IH by (rewrite length_app; simpl; lia).
      simpl. by rewrite <- app_assoc.
    + apply IH. lia.
Qed.

Lemma in_insert_by_name' x y l :
  In x (insert_by_name y l) <-> x = y \/ In x l.
Proof.
  split; [apply AgentFacts.in_insert_by_name|].
  induction l as [|z l IH]; simpl.
  - intros [->|[]]. by left.
  - destruct (String.leb (fst y) (fst z)); simpl.
    + intros [->|[->|H]]; auto.
    + intros [->|[->|H]]; auto.
Qed.

Lemma length_insert_by_name x l : length (insert_by_name x l) = S (length l).
Proof.
  induction l as [|y l IH]; simpl; [done|].
  destruct (String.leb _ _); simpl; by rewrite ?IH.
Qed.

Lemma in_list_blobs' (c : gmap string Blob) name b :
  In (name, b) (list_blobs c) <-> c !! name = Some b.
Proof.
  split.
  - intros H. by apply AgentFacts.in_list_blobs in H.
  - intros H. apply elem_of_map_to_list, list_elem_of_In in H.
    unfold list_blobs.
    induction (map_to_list c) as [|y l IH]; simpl in *; [done|].
    apply in_insert_by_name'. destruct H as [->|H]; auto.
Qed.

Lemma length_list_blobs (c : gmap string Blob) : length (list_blobs c) = size c.
Proof.
  rewrite <- length_map_to_list. unfold list_blobs.
  induction (map_to_list c) as [|y l IH]; simpl; [done|].
  by rewrite length_insert_by_name, IH.
Qed.

(** The listing holds at most fifty entries; each is a blob of the
    container whose name ends in [.json], with the blob's date and with
    the name less its [.json] as session id. *)
Theorem listing_is_sound (c : gmap string Blob) :
  (length (list_chat_sessions c) <= 50)%nat
  /\ forall s,
       In s (list_chat_sessions c) ->
       is_json (blob_name s) = true
       /\ info_session_id s = Text.replace ".json" "" (blob_name s)
       /\ exists b,
            c !! blob_name s = Some b /\ info_modified s = last_modified b.
Proof.
  unfold list_chat_sessions. split.
  - rewrite length_sort_newest. apply length_collect. simpl. lia.
  - intros s Hs. apply AgentFacts.in_sort_newest in Hs.
    apply in_collect_json in Hs as [[]|([name b] & Hx & Hj & ->)].
    apply in_list_blobs' in Hx. simpl. eauto.
Qed.

(** The listing is in order, newest first; so the entry that
    [switch_session] takes, the first whose name contains the id, is as
    new as any listed entry whose name contains the id. *)
Theorem listing_is_newest_first (c : gmap string Blob) sid s :
  StronglySorted not_older (list_chat_sessions c)
  /\ (find (fun x => Text.contains sid (blob_name x)) (list_chat_sessions c)
      = Some s ->
      forall s',
        In s' (list_chat_sessions c) ->
        Text.contains sid (blob_name s') = true ->
        not_older s s').
Proof.
  assert (Hsorted : StronglySorted not_older (list_chat_sessions c))
    by apply sort_newest_sorted.
  split; [done|].
  induction Hsorted as [|x l Hl IH Hx]; simpl; [done|].
  destruct (Text.contains sid (blob_name x)) eqn:E.
  - intros [= <-] s' [<-|Hin] Hc.
    + by apply not_older_le.
    + by eapply List.Forall_forall in Hx.
  - intros Hf s' [<-|Hin] Hc; [congruence|]. by apply IH.
Qed.

(** *** Which blobs the listing takes *)

Lemma leb_trans a b c :
  String.leb a b = true -> String.leb b c = true -> String.leb a c = true.
Proof.
  intros H1 H2. apply Is_true_true. change (String.le a c).
  transitivity b; unfold String.le; by apply Is_true_true.
Qed.

Lemma insert_by_name_sorted x l :
  StronglySorted (fun a b => String.leb (fst a) (fst b) = true) l ->
  StronglySorted (fun a b => String.leb (fst a) (fst b) = true)
    (insert_by_name x l).
Proof.
  induction 1 as [|y l Hl IH Hy]; simpl.
  - repeat constructor.
  - destruct (String.leb (fst x) (fst y)) eqn:E.
    + constructor; [by constructor|].
      constructor; [done|].
      eapply Forall_impl; [exact Hy|]. intros z Hz. by eapply leb_trans.
    + constructor; [done|].
      apply List.Forall_forall. intros z Hz.
      apply in_insert_by_name' in Hz as [->|Hz].
      * destruct (String.leb_total (fst x) (fst y)); congruence.
      * by eapply List.Forall_forall in Hy.
Qed.

Lemma collect_first limit blobs : forall acc,
  (length acc <= limit)%nat ->
  collect limit blobs acc
  = (acc ++ map info_of
              (firstn (limit - length acc)
                 (List.filter (fun x => is_json (fst x)) blobs)))%list.
Proof.
  induction blobs as [|x blobs IH]; intros acc Hacc; simpl.
  - by rewrite firstn_nil, app_nil_r.
  - destruct (limit <=? length acc)%nat eqn:E.
    + apply Nat.leb_le in E.
      replace (limit - length acc) with 0 by lia.
      by rewrite app_nil_r.
    + apply Nat.leb_gt in E. unfold is_json at 1.
      destruct (Text.endswith (fst x) ".json").
      * rewrite IH by (rewrite length_app; simpl; lia).
        rewrite length_app. simpl.
        replace (limit - length acc) with (S (limit - (length acc + 1)))
          by lia.
        simpl. by rewrite <- app_assoc.
      * by apply IH.
Qed.

(** The blobs are read in the order of their names and the first fifty
    of them whose names end in [.json] make the listing, whatever their
    dates: a snapshot after the fiftieth in that order is not listed,
    however new it is. *)
Theorem listing_takes_first_fifty_names (c : gmap string Blob) :
  StronglySorted (fun a b => String.leb (fst a) (fst b) = true) (list_blobs c)
  /\ forall s,
       In s (list_chat_sessions c)
       <-> In s (map info_of
                   (firstn 50
                      (List.filter (fun x => is_json (fst x))
                         (list_blobs c)))).
Proof.
  split.
  - unfold list_blobs.
    induction (map_to_list c) as [|x l IH]; simpl; [constructor|].
    by apply insert_by_name_sorted.
  - intros s. unfold list_chat_sessions.
    by rewrite in_sort_newest', collect_first by (simpl; lia).
Qed.

Lemma length_append s t :
  String.length (s +:+ t) = (String.length s + String.length t)%nat.
Proof. induction s as [|x s IH]; simpl; [done|]. by rewrite IH. Qed.

Lemma drop_append s t : Text.drop (String.length s) (s +:+ t) = t.
Proof. induction s as [|x s IH]; simpl; [by destruct t|done]. Qed.

Lemma endswith_append s t : Text.endswith (s +:+ t) t = true.
Proof.
  unfold Text.endswith. rewrite length_append.
  replace (String.length s + String.length t - String.length t)%nat
    with (String.length s) by lia.
  rewrite drop_append, String.eqb_refl.
  apply andb_true_iff. split; [|done]. apply Nat.leb_le. lia.
Qed.

Lemma listed_when_small (c : gmap string Blob) name b :
  (size c <= 50)%nat ->
  c !! name = Some b -> is_json name = true ->
  In (info_of (name, b)) (list_chat_sessions c).
Proof.
  intros Hsize Hb Hj. unfold list_chat_sessions.
  apply in_sort_newest'.
  rewrite collect_all by (rewrite length_list_blobs; simpl; lia).
  simpl. apply in_map, List.filter_In. split; [by apply in_list_blobs'|done].
Qed.

(** When the container holds at most fifty blobs, every blob whose name
    ends in [.json] is listed; so is the snapshot of a save into a
    container of fewer than fifty blobs, under its key and with the date
    of the upload. *)
Theorem small_container_is_listed_whole (c : gmap string Blob) :
  ((size c <= 50)%nat ->
   forall name b,
     c !! name = Some b -> is_json name = true ->
     In (info_of (name, b)) (list_chat_sessions c))
  /\ ((size c < 50)%nat ->
      forall chat_data sid now,
        In {| blob_name := blob_key sid now;
              info_session_id := Text.replace ".json" "" (blob_key sid now);
              info_modified := server now |}
          (list_chat_sessions
             (snd (Storage.save_chat_history chat_data sid now c)))).
Proof.
  split; [intros Hsize name b; by apply listed_when_small|].
  intros Hsize chat_data sid now.
  unfold Storage.save_chat_history. simpl.
  apply (listed_when_small _ (blob_key sid now)
           {| body := Some (document chat_data sid now);
              last_modified := server now |}).
  - rewrite map_size_insert.
    destruct (c !! blob_key sid now); unfold id; lia.
  - apply lookup_insert_eq.
  - apply endswith_append.
Qed.

(** After [delete_chat_session] the blob of that name is gone: a load
    finds nothing and the listing has no entry of that name; the blobs of
    other names are as they were, and the result tells whether there was
    a blob to delete. *)
Theorem delete_removes_one_blob name (c : gmap string Blob) :
  fst (Storage.delete_chat_session name c)
  = match c !! name with Some _ => true | None => false end
  /\ Storage.load_chat_history name (snd (Storage.delete_chat_session name c))
     = Ok None
  /\ (forall other,
        other <> name ->
        snd (Storage.delete_chat_session name c) !! other = c !! other)
  /\ (forall s,
        In s (list_chat_sessions (snd (Storage.delete_chat_session name c))) ->
        blob_name s <> name).
Proof.
  unfold Storage.delete_chat_session, Storage.load_chat_history.
  destruct (c !! name) as [b|] eqn:E; simpl.
  - split; [done|]. split; [by rewrite lookup_delete_eq|].
    split; [intros other Hne; by rewrite lookup_delete_ne|].
    intros s Hs Heq.
    destruct (AgentFacts.listed_in_container _ _ Hs) as [b' Hb'].
    by rewrite Heq, lookup_delete_eq in Hb'.
  - split; [done|]. split; [by rewrite E|]. split; [done|].
    intros s Hs Heq.
    destruct (AgentFacts.listed_in_container _ _ Hs) as [b' Hb'].
    rewrite Heq in Hb'. congruence.
Qed.

Lemma small_container_is_listed_whole_witness :
  (size Sample.headless_store <= 50)%nat
  /\ In (info_of
           ("notes.json",
            {| body :=
                 Some {| session_id := "notes"; saved_at := iso Sample.ten;
                         message_count := 1;
                         chat_history :=
                           [ {| sm_role := "user"; sm_content := "hello";
                                sm_timestamp := None |} ] |};
               last_modified := server Sample.ten |}))
       (list_chat_sessions Sample.headless_store)
  /\ In {| blob_name := blob_key "b" Sample.five_past_ten;
           info_session_id :=
             Text.replace ".json" "" (blob_key "b" Sample.five_past_ten);
           info_modified := server Sample.five_past_ten |}
       (list_chat_sessions
          (snd (Storage.save_chat_history [] "b" Sample.five_past_ten
                  Sample.headless_store))).
Proof.
  assert (Hsize : (size Sample.headless_store = 1)%nat)
    by apply map_size_singleton.
  split; [lia|]. split.
  - apply (proj1 (small_container_is_listed_whole Sample.headless_store));
      [lia| |reflexivity].
    apply lookup_singleton_eq.
  - apply (proj2 (small_container_is_listed_whole Sample.headless_store)).
    lia.
Defined.

End StorageLaws.

(** ** More properties of the session manager *)

Module AgentLaws.
Import Chars Chat Storage StorageUtil Agent.

#[local] Arguments String.eqb : simpl never.
#[local] Arguments Ascii.eqb : simpl never.
#[local] Arguments replay : simpl never.

Lemma blob_key_eq sid now : sid <> "" -> blob_key sid now = sid +:+ ".json".
Proof. apply AgentFacts.blob_key_of_id. Qed.

Lemma newest_of_head s rest :
  Forall (not_older s) rest -> newest_of s rest = s.
Proof.
  induction 1 as [|x rest Hx _ IH]; simpl; [done|].
  unfold not_older in Hx. by rewrite Hx.
Qed.

Lemma newest_of_listing (c : gmap string Blob) s rest :
  list_chat_sessions c = s :: rest -> newest_of s rest = s.
Proof.
  intros Hl. apply newest_of_head.
  pose proof (StorageLaws.sort_newest_sorted (collect 50 (list_blobs c) []))
    as Hs.
  unfold list_chat_sessions in Hl. rewrite Hl in Hs.
  by apply StronglySorted_inv in Hs as [_ Hs].
Qed.

(** What [_load_most_recent_session] leaves, in all its cases. *)
Lemma restore_run w :
  _load_most_recent_session w
  = (Ok tt,
     if chat_storage w then
       match list_chat_sessions (container w) with
       | [] => w
       | s :: rest =>
           let name := blob_name (newest_of s rest) in
           match Storage.load_chat_history name (container w) with
           | Ok (Some doc) =>
               match replay (chat_history doc) [] with
               | [] => with_session_id (derived_session_id name) w
               | loaded =>
                   with_conversation (Some loaded)
                     (with_session_id (derived_session_id name) w)
               end
           | _ => with_session_id (derived_session_id name) w
           end
       end
     else w).
Proof.
  unfold _load_most_recent_session, try_catch, get_chat_sessions,
    load_chat_history, mbind, M_bind, get, lift, modify.
  simpl. destruct (chat_storage w) eqn:Hs; simpl; [|done].
  rewrite Hs. simpl.
  destruct (list_chat_sessions (container w)) as [|s rest]; simpl; [done|].
  rewrite Hs. simpl.
  destruct (Storage.load_chat_history _ (container w)) as [[doc|]|];
    simpl; try done.
  destruct (chat_history doc) as [|m ms] eqn:Hh; simpl; [done|].
  by destruct (replay (m :: ms) []).
Qed.

(** [_load_most_recent_session] never raises and changes neither the
    container, the clock nor the storage service; without a storage
    service or over an empty listing it changes nothing; otherwise it
    takes the first entry of the listing, sets the session id read off
    its name, and either keeps the transcript or replaces it by the
    replay of that entry's snapshot. *)
Theorem load_most_recent_takes_first_listed w :
  exists w',
    _load_most_recent_session w = (Ok tt, w')
    /\ container w' = container w /\ time w' = time w
    /\ chat_storage w' = chat_storage w /\ kernel w' = kernel w
    /\ (chat_storage w = false \/ list_chat_sessions (container w) = [] ->
        w' = w)
    /\ (chat_storage w = true ->
        forall s rest,
          list_chat_sessions (container w) = s :: rest ->
          current_session_id w' = derived_session_id (blob_name s)
          /\ (conversation w' = conversation w
              \/ exists doc,
                   Storage.load_chat_history (blob_name s) (container w)
                   = Ok (Some doc)
                   /\ conversation w' = Some (replay (chat_history doc) []))).
Proof.
  eexists. split; [apply restore_run|].
  destruct (chat_storage w) eqn:Hs.
  2:{ do 4 (split; [done|]). by split. }
  destruct (list_chat_sessions (container w)) as [|s rest] eqn:Hl.
  { do 4 (split; [done|]). by split. }
  rewrite (newest_of_listing _ _ _ Hl). cbv zeta.
  assert (Hkeep : forall P : Prop,
            (true = false \/ s :: rest = [] -> P)) by (by intros P [?|?]).
  destruct (Storage.load_chat_history (blob_name s) (container w))
    as [[doc|]|e] eqn:Hd.
  2,3: by (do 4 (split; [done|]); split; [apply Hkeep|];
           intros _ s' rest' [= <- <-]; split; [done|left]).
  destruct (replay (chat_history doc) []) as [|m ms] eqn:Hr.
  - do 4 (split; [done|]). split; [apply Hkeep|].
    intros _ s' rest' [= <- <-]. split; [done|by left].
  - do 4 (split; [done|]). split; [apply Hkeep|].
    intros _ s' rest' [= <- <-]. split; [done|].
    right. exists doc. by rewrite Hr.
Qed.

(** *** Session ids *)

Lemma replace_char a b s :
  Text.replace (String a "") (String b "") s
  = map_chars (fun x => if Ascii.eqb x a then b else x) s.
Proof.
  unfold Text.replace. induction s as [|x s IH]; [done|].
  cbn [Text.replace_go map_chars].
  change (String.prefix (String a "") (String x s))
    with (if ascii_dec a x then String.prefix "" s else false).
  destruct (ascii_dec a x) as [->|Hne].
  - rewrite Ascii.eqb_refl. simpl. rewrite IH. by destruct s.
  - apply not_eq_sym, Ascii.eqb_neq in Hne. rewrite Hne. by rewrite IH.
Qed.

Lemma map_chars_twice f g s :
  map_chars g (map_chars f s) = map_chars (fun x => g (f x)) s.
Proof. induction s as [|x s IH]; simpl; [done|]. by rewrite IH. Qed.

Lemma map_chars_ext f g s :
  (forall x, f x = g x) -> map_chars f s = map_chars g s.
Proof.
  intros H. induction s as [|x s IH]; simpl; [done|]. by rewrite H, IH.
Qed.

Lemma map_chars_append f s t :
  map_chars f (s +:+ t) = map_chars f s +:+ map_chars f t.
Proof. induction s as [|x s IH]; simpl; [done|]. by rewrite IH. Qed.

Lemma length_map_chars f s : String.length (map_chars f s) = String.length s.
Proof. induction s as [|x s IH]; simpl; [done|]. by rewrite IH. Qed.

Lemma has_char_map_chars c f s :
  (forall x, Ascii.eqb c (f x) = false) ->
  has_char c (map_chars f s) = false.
Proof.
  intros H. induction s as [|x s IH]; simpl; [done|]. by rewrite H, IH.
Qed.

Lemma session_id_by_character name :
  session_id_of_name name = map_chars underscored name.
Proof.
  unfold session_id_of_name. rewrite !replace_char, map_chars_twice.
  apply map_chars_ext. intros x. unfold underscored.
  destruct (Ascii.eqb x " ") eqn:E; [done|].
  by destruct (Ascii.eqb x "/").
Qed.

Lemma underscored_twice x : underscored (underscored x) = underscored x.
Proof. by destruct x as [[] [] [] [] [] [] [] []]. Qed.

Lemma underscored_no_blank x : Ascii.eqb " " (underscored x) = false.
Proof. by destruct x as [[] [] [] [] [] [] [] []]. Qed.

Lemma underscored_no_slash x : Ascii.eqb "/" (underscored x) = false.
Proof. by destruct x as [[] [] [] [] [] [] [] []]. Qed.

(** The session id of a name has the length of the name and neither a
    blank nor a slash in it, and it is its own session id; names that
    differ in a blank, a slash or an underscore at one place have the
    same session id, hence the same snapshot key. *)
Theorem session_id_of_name_is_underscored name :
  has_char " " (session_id_of_name name) = false
  /\ has_char "/" (session_id_of_name name) = false
  /\ String.length (session_id_of_name name) = String.length name
  /\ session_id_of_name (session_id_of_name name) = session_id_of_name name
  /\ (forall before after,
        session_id_of_name (before +:+ " " +:+ after)
        = session_id_of_name (before +:+ "_" +:+ after)
        /\ session_id_of_name (before +:+ "/" +:+ after)
           = session_id_of_name (before +:+ "_" +:+ after)).
Proof.
  rewrite !session_id_by_character. repeat split.
  - apply has_char_map_chars, underscored_no_blank.
  - apply has_char_map_chars, underscored_no_slash.
  - apply length_map_chars.
  - rewrite map_chars_twice. apply map_chars_ext, underscored_twice.
  - rewrite !session_id_by_character, !map_chars_append. reflexivity.
  - rewrite !session_id_by_character, !map_chars_append. reflexivity.
Qed.

Lemma replace_absent old new s :
  occurs old s = false -> Text.replace old new s = s.
Proof.
  unfold Text.replace. induction s as [|x s IH]; [done|].
  intros H. cbn [occurs] in H. apply orb_false_iff in H as [Hp Ho].
  cbn [Text.replace_go]. rewrite Hp. by rewrite IH.
Qed.

Lemma strip_json s :
  has_char "." s = false -> Text.replace ".json" "" (s +:+ ".json") = s.
Proof.
  unfold Text.replace. induction s as [|x s IH]; [done|].
  intros H. cbn [has_char] in H. apply orb_false_iff in H as [Hx Hs].
  change (String x s +:+ ".json") with (String x (s +:+ ".json")).
  cbn [Text.replace_go].
  change (String.prefix ".json" (String x (s +:+ ".json")))
    with (if ascii_dec "." x then String.prefix "json" (s +:+ ".json")
          else false).
  destruct (ascii_dec "." x) as [<-|Hne]; [by rewrite Ascii.eqb_refl in Hx|].
  by rewrite IH.
Qed.

Lemma has_char_append c s t :
  has_char c (s +:+ t) = has_char c s || has_char c t.
Proof.
  induction s as [|x s IH]; simpl; [done|]. by rewrite IH, orb_assoc.
Qed.

Lemma has_char_join c sep parts :
  has_char c sep = false ->
  Forall (fun p => has_char c p = false) parts ->
  has_char c (Text.join sep parts) = false.
Proof.
  intros Hsep. unfold Text.join.
  induction 1 as [|p parts Hp Hps IH]; [done|].
  destruct parts as [|q parts]; [done|].
  change (String.concat sep (p :: q :: parts))
    with (p +:+ sep +:+ String.concat sep (q :: parts)).
  by rewrite !has_char_append, Hp, Hsep, IH.
Qed.

Lemma split_plain s :
  has_char "_" s = false -> Text.split "_" s = [s].
Proof.
  induction s as [|x s IH]; [done|]. intros H.
  cbn [has_char] in H. apply orb_false_iff in H as [Hx Hs].
  cbn [Text.split]. rewrite Ascii.eqb_sym, Hx. by rewrite IH.
Qed.

Lemma split_part p rest :
  has_char "_" p = false ->
  Text.split "_" (p +:+ "_" +:+ rest) = p :: Text.split "_" rest.
Proof.
  induction p as [|x p IH]; [done|]. intros H.
  cbn [has_char] in H. apply orb_false_iff in H as [Hx Hs].
  change (String x p +:+ "_" +:+ rest) with (String x (p +:+ "_" +:+ rest)).
  cbn [Text.split]. rewrite Ascii.eqb_sym, Hx. by rewrite IH.
Qed.

Lemma split_join parts :
  parts <> [] ->
  Forall (fun p => has_char "_" p = false) parts ->
  Text.split "_" (Text.join "_" parts) = parts.
Proof.
  intros Hne H. unfold Text.join.
  induction H as [|p parts Hp Hps IH]; [done|].
  destruct parts as [|q parts]; [by apply split_plain|].
  change (String.concat "_" (p :: q :: parts))
    with (p +:+ "_" +:+ String.concat "_" (q :: parts)).
  rewrite split_part by done. by rewrite IH.
Qed.

Lemma plain_part_chars p :
  plain_part p = true -> has_char "_" p = false /\ has_char "." p = false.
Proof.
  unfold plain_part. intros H. apply andb_true_iff in H as [H1 H2].
  by apply negb_true_iff in H1, H2.
Qed.

(** The id [_load_most_recent_session] reads off the key a save has
    written for a session id that is not empty and is made of the parts
    [parts] joined by underscores, when no part holds an underscore or a
    dot and the key does not contain the text [chat_session_] (which
    [_load_most_recent_session] deletes first: the id [chat_session_1] is
    read back as [1], and a part with a dot is cut at [.json]): the first
    part when there are one or two parts, and the parts without the last
    two when there are more.  It is the saved id only for an id of a
    single part. *)
Theorem derived_id_of_saved_key parts now :
  parts <> [] ->
  Forall (fun p => plain_part p = true) parts ->
  Text.join "_" parts <> "" ->
  occurs "chat_session_" (Text.join "_" parts +:+ ".json") = false ->
  derived_session_id (blob_key (Text.join "_" parts) now)
  = Text.join "_" (firstn (Nat.max 1 (length parts - 2)) parts).
Proof.
  intros Hne Hparts Hid Hocc.
  rewrite blob_key_eq by done. unfold derived_session_id.
  rewrite (replace_absent _ _ _ Hocc).
  rewrite strip_json.
  2:{ apply has_char_join; [done|].
      eapply Forall_impl; [exact Hparts|].
      intros p Hp. by apply plain_part_chars in Hp as [_ ?]. }
  rewrite split_join; [|done|].
  2:{ eapply Forall_impl; [exact Hparts|].
      intros p Hp. by apply plain_part_chars in Hp as [? _]. }
  by destruct parts as [|p [|q [|r parts]]].
Qed.

(** *** A snapshot saved without a session id *)

Lemma prefix_cons a r x s :
  String.prefix (String a r) (String x s) = true ->
  a = x /\ String.prefix r s = true.
Proof. simpl. by destruct (ascii_dec a x). Qed.

Lemma prefix_append old rest : String.prefix old (old +:+ rest) = true.
Proof.
  induction old as [|a old IH]; simpl; [by destruct rest|].
  by destruct (ascii_dec a a).
Qed.

Lemma prefix_has_char c old s :
  String.prefix old s = true -> has_char c old = true ->
  has_char c s = true.
Proof.
  revert s. induction old as [|a old IH]; intros s Hp Hc; [done|].
  destruct s as [|x s]; [done|].
  apply prefix_cons in Hp as [<- Hp].
  cbn [has_char] in *. apply orb_true_iff in Hc as [Hc|Hc].
  - by rewrite Hc.
  - rewrite (IH s Hp Hc). apply orb_true_r.
Qed.

Lemma skip_over old new s rest :
  Text.replace_go old new (s +:+ rest) (String.length s)
  = Text.replace_go old new rest 0.
Proof. induction s as [|x s IH]; [done|]. simpl. apply IH. Qed.

Lemma replace_at_start a old new rest :
  Text.replace (String a old) new (String a old +:+ rest)
  = new +:+ Text.replace (String a old) new rest.
Proof.
  unfold Text.replace.
  change (String a old +:+ rest) with (String a (old +:+ rest)).
  cbn [Text.replace_go].
  change (String a (old +:+ rest)) with (String a old +:+ rest).
  rewrite prefix_append.
  replace (String.length (String a old) - 1) with (String.length old)
    by (simpl; lia).
  by rewrite skip_over.
Qed.

Lemma append_cons x s t : String x s +:+ t = String x (s +:+ t).
Proof. reflexivity. Qed.

Lemma append_empty t : "" +:+ t = t.
Proof. reflexivity. Qed.

Lemma append_associative s t u : (s +:+ t) +:+ u = s +:+ (t +:+ u).
Proof.
  induction s as [|x s IH]; [done|]. rewrite !append_cons. by f_equal.
Qed.

Lemma no_underscore_no_occurrence s :
  has_char "_" s = false -> occurs "chat_session_" s = false.
Proof.
  induction s as [|x s IH]; [done|]. intros H.
  cbn [occurs]. apply orb_false_iff. split.
  - destruct (String.prefix _ _) eqn:E; [|done].
    apply (prefix_has_char "_") in E; [congruence|done].
  - apply IH. cbn [has_char] in H. by apply orb_false_iff in H as [_ ?].
Qed.

Lemma stamp_has_no_prefix d t :
  has_char "_" d = false -> has_char "_" t = false ->
  String.prefix "chat_session_" (d +:+ "_" +:+ t) = false.
Proof.
  intros Hd Ht. destruct (String.prefix _ _) eqn:E; [exfalso|done].
  destruct d as [|x1 [|x2 [|x3 [|x4 [|x5 d]]]]];
    rewrite ?append_cons, ?append_empty in E;
    repeat (let Hx := fresh "Hx" in
            apply prefix_cons in E as [Hx E]; try discriminate Hx;
            try subst).
  - apply (prefix_has_char "_") in E; [congruence|done].
  - by vm_compute in Hd.
Qed.

Lemma stamp_no_occurrence d t :
  has_char "_" d = false -> has_char "_" t = false ->
  occurs "chat_session_" (d +:+ "_" +:+ t) = false.
Proof.
  intros Hd Ht. induction d as [|x d IH].
  - pose proof (stamp_has_no_prefix "" t eq_refl Ht) as Hp.
    rewrite ?append_cons, ?append_empty in *. cbn [occurs].
    by rewrite Hp, (no_underscore_no_occurrence t Ht).
  - pose proof (stamp_has_no_prefix (String x d) t Hd Ht) as Hp.
    rewrite (append_cons x d) in Hp |- *. cbn [occurs]. rewrite Hp.
    cbn [has_char] in Hd. apply orb_false_iff in Hd as [_ Hd].
    by rewrite IH.
Qed.

(** [save_chat_on_app_close] stores the chat under
    [chat_session_<stamp>.json]; when the stamp is a date and a time of
    day with an underscore between them, the session id that
    [_load_most_recent_session] reads off that key is the date alone. *)
Theorem app_close_snapshot_restores_as_date chat_data now
    (c : gmap string Blob) date time_of_day :
  plain_part date = true -> plain_part time_of_day = true ->
  compact now = date +:+ "_" +:+ time_of_day ->
  fst (save_chat_on_app_close chat_data now c)
  = "chat_session_" +:+ compact now +:+ ".json"
  /\ derived_session_id (fst (save_chat_on_app_close chat_data now c))
     = date.
Proof.
  intros Hd Ht Hc.
  apply plain_part_chars in Hd as [Hd Hd'], Ht as [Ht Ht'].
  assert (Hkey : fst (save_chat_on_app_close chat_data now c)
                 = "chat_session_" +:+ compact now +:+ ".json").
  { unfold save_chat_on_app_close, Storage.save_chat_history, blob_key,
      effective_id. simpl. by rewrite append_associative. }
  split; [done|]. rewrite Hkey, Hc. unfold derived_session_id.
  rewrite replace_at_start.
  change ("" +:+ ?x) with x.
  rewrite !append_associative.
  assert (Hjson : has_char "_" (time_of_day +:+ ".json") = false)
    by (by rewrite has_char_append, Ht).
  rewrite (replace_absent _ _ _
             (stamp_no_occurrence date (time_of_day +:+ ".json") Hd Hjson)).
  rewrite <- !append_associative. rewrite strip_json
    by (by rewrite !has_char_append, Hd', Ht').
  rewrite append_associative, split_part, split_plain by done.
  reflexivity.
Qed.

Section WithEnvironment.
Variable role_str : AuthorRole -> string.
Variable policy_initialize policy_create policy_switch : string.
Variable clock : nat -> Tick.
Variable py_str : Json.PyVal -> Res string.
Variable json_dumps : Json.PyVal -> Res string.
Variable limits : Json.Limits.

Abbreviation save := (save_chat_history role_str clock).
Abbreviation saved := (after_save role_str clock).
Abbreviation key_of := (checkpoint_key clock).
Abbreviation create := (create_new_session role_str policy_create clock).
Abbreviation init := (initialize policy_initialize).
Abbreviation query :=
  (process_query role_str policy_initialize clock py_str json_dumps limits).
Abbreviation ensure := (Normalizer._ensure_string_content py_str json_dumps).
Abbreviation parse :=
  (Normalizer._parse_response py_str json_dumps limits).
Abbreviation switch := (switch_session role_str policy_switch clock).
Abbreviation run :=
  (step role_str policy_initialize policy_create policy_switch clock py_str
     json_dumps limits).
Abbreviation run_all :=
  (steps role_str policy_initialize policy_create policy_switch clock py_str
     json_dumps limits).

(** The state [initialize] sets up before it turns to the storage. *)
Abbreviation prepared w :=
  (with_conversation (Some (fresh policy_initialize)) (with_kernel true w)).

Lemma initialize_run up w :
  init up w
  = (Ok tt,
     if kernel w then w
     else if chat_storage w then prepared w
     else if up then exec _load_most_recent_session
                       (with_chat_storage true (prepared w))
     else with_chat_storage false (prepared w)).
Proof.
  unfold initialize, try_catch, mbind, M_bind, get, modify, raise. simpl.
  destruct (kernel w); simpl; [done|].
  destruct (chat_storage w); simpl; [done|].
  destruct up; simpl; [|done].
  unfold exec. by rewrite restore_run.
Qed.

Lemma kernel_after_restore w :
  kernel (exec _load_most_recent_session w) = kernel w.
Proof.
  unfold exec. rewrite restore_run. simpl.
  destruct (chat_storage w); [|done].
  destruct (list_chat_sessions (container w)) as [|s rest]; [done|]. simpl.
  destruct (Storage.load_chat_history _ _) as [[doc|]|]; try done.
  by destruct (replay (chat_history doc) []).
Qed.

Lemma kernel_after_initialize up w : kernel (exec (init up) w) = true.
Proof.
  unfold exec. rewrite initialize_run. simpl.
  destruct (kernel w) eqn:E; [done|].
  destruct (chat_storage w); [done|].
  destruct up; [|done]. by rewrite kernel_after_restore.
Qed.

(** [initialize] sets the service up once: a second call, whatever the
    storage is then, returns at once and leaves every field, the
    transcript included, as the first call left it. *)
Theorem initialize_is_idempotent up again w :
  init again (exec (init up) w) = (Ok tt, exec (init up) w).
Proof.
  by rewrite (initialize_run again), kernel_after_initialize.
Qed.

(** Start-up without snapshots: over a container whose listing is empty,
    or when the storage cannot be set up, [initialize] on a new service
    leaves the transcript with the policy message alone, the session id
    [main_session], and the container and the clock untouched; the
    storage service is kept in the first case and dropped in the
    second. *)
Theorem initialize_without_snapshots (c : gmap string Blob) t up :
  (up = true -> list_chat_sessions c = []) ->
  init up (new_service c t)
  = (Ok tt,
     {| kernel := true;
        conversation := Some [ {| role := SYSTEM;
                                  content := policy_initialize;
                                  timestamp := None |} ];
        chat_storage := up;
        current_session_id := "main_session";
        container := c;
        time := t |}).
Proof.
  intros Hl. rewrite initialize_run. simpl.
  destruct up; [|done].
  unfold exec. rewrite restore_run. simpl. by rewrite Hl.
Qed.

(** *** A query *)

Lemma bind_ok {A B} (m : M A) (k : A -> M B) w a w' :
  m w = (Ok a, w') -> (x ← m; k x) w = k a w'.
Proof. intros H. unfold mbind, M_bind. by rewrite H. Qed.

Lemma bind_raise {A B} (m : M A) (k : A -> M B) w e w' :
  m w = (Raise e, w') -> (x ← m; k x) w = (Raise e, w').
Proof. intros H. unfold mbind, M_bind. by rewrite H. Qed.

Lemma append_run r text w h :
  conversation w = Some h ->
  append r text w
  = (Ok tt, with_conversation (Some (add_message r text h)) w).
Proof. intros H. unfold append, mbind, M_bind, get, modify. by rewrite H. Qed.

Lemma process_query_run q up reply w h :
  kernel w = true -> conversation w = Some h ->
  let asked := with_conversation (Some (add_user_message q h)) w in
  query q up reply w
  = match reply with
    | Ok v =>
        (parse (Json.VStr (ensure v)),
         exec save
           (with_conversation
              (Some (add_assistant_message (ensure v)
                       (add_user_message q h)))
              (exec save asked)))
    | Raise e => (Raise e, exec save asked)
    end.
Proof.
  intros Hk Hh asked.
  unfold process_query.
  rewrite (bind_ok _ _ w tt w) by (by rewrite initialize_run, Hk).
  rewrite (bind_ok _ _ w tt asked) by (by apply append_run).
  rewrite (bind_ok _ _ asked tt (exec save asked))
    by apply AgentFacts.save_quietly_eq.
  destruct (AgentFacts.exec_save_fields role_str clock asked)
    as (Hc & _).
  destruct reply as [v|e]; [|by apply bind_raise].
  rewrite (bind_ok _ _ (exec save asked) v (exec save asked)) by done.
  erewrite (bind_ok _ _ (exec save asked) tt)
    by (apply append_run; rewrite Hc; reflexivity).
  erewrite bind_ok by apply AgentFacts.save_quietly_eq.
  reflexivity.
Qed.

(** A query on an initialised service adds the user message and, when
    the pipeline returns, the assistant message with the reply as text
    (not the content of the envelope), with or without storage, and keeps
    the session id; it then hands what [_parse_response] makes of that
    text to its caller: the envelope, or the error of [json.loads] that
    [_try_parse_json] does not catch, and in both cases the two messages
    are in the transcript by then.  When the pipeline raises, the
    exception goes to the caller and the user message stays in the
    transcript. *)
Theorem process_query_extends_transcript q up w h :
  kernel w = true -> conversation w = Some h ->
  (forall v,
     exists w',
       query q up (Ok v) w = (parse (Json.VStr (ensure v)), w')
       /\ match Normalizer._try_parse_json limits (ensure v) with
          | Ok _ =>
              exists env,
                parse (Json.VStr (ensure v)) = Ok env
                /\ Normalizer.well_formed env
          | Raise e => parse (Json.VStr (ensure v)) = Raise e
          end
       /\ conversation w'
          = Some (h ++ [ {| role := USER; content := q; timestamp := None |};
                         {| role := ASSISTANT; content := ensure v;
                            timestamp := None |} ])%list
       /\ current_session_id w' = current_session_id w
       /\ chat_storage w' = chat_storage w)
  /\ (forall e,
        exists w',
          query q up (Raise e) w = (Raise e, w')
          /\ conversation w'
             = Some (h ++ [ {| role := USER; content := q;
                               timestamp := None |} ])%list
          /\ current_session_id w' = current_session_id w).
Proof.
  intros Hk Hh. split.
  - intros v.
    rewrite (process_query_run q up (Ok v) w h Hk Hh).
    eexists. split; [reflexivity|].
    split;
      [exact (NormalizerFacts.parse_outcome py_str json_dumps limits
                (Json.VStr (ensure v)))|].
    set (asked := with_conversation _ w).
    set (answered := with_conversation _ (exec save asked)).
    destruct (AgentFacts.exec_save_fields role_str clock asked)
      as (_ & Hi1 & Hs1 & _).
    destruct (AgentFacts.exec_save_fields role_str clock answered)
      as (Hc2 & Hi2 & Hs2 & _).
    rewrite Hc2, Hi2, Hs2. subst answered. simpl. rewrite Hi1, Hs1.
    split; [|done].
    unfold add_assistant_message, add_user_message, add_message.
    by rewrite <- app_assoc.
  - intros e. rewrite (process_query_run q up (Raise e) w h Hk Hh).
    eexists. split; [reflexivity|].
    set (asked := with_conversation _ w).
    destruct (AgentFacts.exec_save_fields role_str clock asked)
      as (Hc & Hi & _).
    by rewrite Hc, Hi.
Qed.

(** With the storage service set up and a session id that is not empty,
    the snapshot under [<session id>.json] after a query holds the whole
    transcript as it then is, user and assistant message included, and
    the query has read the clock twice. *)
Theorem process_query_checkpoints q up v w h :
  kernel w = true -> conversation w = Some h ->
  chat_storage w = true -> current_session_id w <> "" ->
  let final := (add_assistant_message (ensure v) (add_user_message q h)) in
  let w' := snd (query q up (Ok v) w) in
  container w' !! (current_session_id w +:+ ".json")
  = Some {| body :=
              Some {| session_id := current_session_id w;
                      saved_at := iso (clock (S (time w)));
                      message_count := length h + 2;
                      chat_history := serialise role_str final |};
            last_modified := server (clock (S (time w))) |}
  /\ time w' = S (S (time w)).
Proof.
  intros Hk Hh Hs Hid final w'. subst w'.
  rewrite (process_query_run q up (Ok v) w h Hk Hh). simpl.
  unfold exec. rewrite !AgentFacts.save_chat_history_eq. simpl.
  rewrite Hs. simpl. rewrite Hs. simpl.
  unfold after_save, checkpoint_key, snapshot_of, document. simpl.
  rewrite !blob_key_eq by done.
  rewrite lookup_insert_eq. split; [|done].
  unfold effective_id. apply String.eqb_neq in Hid. rewrite Hid.
  replace (length (serialise role_str
             (add_assistant_message (ensure v) (add_user_message q h))))
    with (length h + 2); [done|].
  unfold serialise, add_assistant_message, add_user_message, add_message.
  rewrite length_map, !length_app. simpl. lia.
Qed.

(** *** A new session *)

Lemma start_session_run name w :
  start_session role_str policy_create clock name w
  = (Ok (session_id_of_name name),
     exec save
       (with_conversation (Some (fresh policy_create))
          (with_session_id (session_id_of_name name) w))).
Proof.
  unfold start_session.
  erewrite bind_ok by reflexivity.
  erewrite bind_ok by reflexivity.
  erewrite bind_ok by apply AgentFacts.save_quietly_eq.
  erewrite bind_ok by reflexivity.
  set (x := with_conversation _ _).
  destruct (AgentFacts.exec_save_fields role_str clock x) as (_ & Hi & _).
  unfold mret, M_ret. by rewrite Hi.
Qed.

Lemma save_if_used_with_storage w :
  chat_storage w = true ->
  save_if_used role_str clock w
  = (Ok tt, if has_user_messages w then exec save w else w).
Proof.
  intros Hs. rewrite AgentFacts.save_if_used_eq.
  destruct (has_user_messages w) eqn:Hu; [|done].
  destruct (AgentFacts.has_user_messages_conversation w Hu) as [h Hh].
  unfold exec. by rewrite AgentFacts.save_chat_history_eq, Hs, Hh.
Qed.

Lemma session_id_not_empty c0 name :
  session_id_of_name (String c0 name) <> "".
Proof. by rewrite session_id_by_character. Qed.

Lemma stored_at_start name w :
  chat_storage w = true -> session_id_of_name name <> "" ->
  exists w' stamp,
    (_ ← save_if_used role_str clock;
     start_session role_str policy_create clock name) w
    = (Ok (session_id_of_name name), w')
    /\ container w' !! (session_id_of_name name +:+ ".json")
       = Some {| body :=
                   Some {| session_id := session_id_of_name name;
                           saved_at := iso stamp;
                           message_count := 1;
                           chat_history :=
                             serialise role_str (fresh policy_create) |};
                 last_modified := server stamp |}.
Proof.
  intros Hs Hid.
  erewrite bind_ok by (by apply save_if_used_with_storage).
  rewrite start_session_run.
  set (w1 := if has_user_messages w then exec save w else w).
  assert (Hs1 : chat_storage w1 = true).
  { subst w1. destruct (has_user_messages w); [|done].
    destruct (AgentFacts.exec_save_fields role_str clock w) as (_ & _ & H & _).
    by rewrite H. }
  exists (exec save
            (with_conversation (Some (fresh policy_create))
               (with_session_id (session_id_of_name name) w1))),
    (clock (time w1)).
  split; [done|].
  unfold exec. rewrite AgentFacts.save_chat_history_eq. simpl.
  rewrite Hs1. simpl.
  unfold checkpoint_key. simpl. rewrite blob_key_eq by done.
  rewrite lookup_insert_eq. unfold snapshot_of, document, effective_id. simpl.
  apply String.eqb_neq in Hid. by rewrite Hid.
Qed.

(** With the storage service set up, [create_new_session] returns the
    session id of the name — of [Chat <month/day hour:minute>] when no
    name or an empty name is given — and has by then written the
    snapshot [<session id>.json] of the new session: one message, the
    policy message, in place of whatever that key held. *)
Theorem create_stores_new_session session_name w :
  chat_storage w = true ->
  let name :=
    match session_name with
    | Some (String c s) => String c s
    | _ => "Chat " +:+ short (clock (time w))
    end in
  exists w' stamp,
    create session_name w = (Ok (session_id_of_name name), w')
    /\ container w' !! (session_id_of_name name +:+ ".json")
       = Some {| body :=
                   Some {| session_id := session_id_of_name name;
                           saved_at := iso stamp;
                           message_count := 1;
                           chat_history :=
                             serialise role_str (fresh policy_create) |};
                 last_modified := server stamp |}.
Proof.
  intros Hs name.
  assert (Hdefault :
    exists w0, chat_storage w0 = true
      /\ create session_name w
         = (_ ← save_if_used role_str clock;
            start_session role_str policy_create clock name) w0).
  { destruct session_name as [[|c s]|].
    - exists (with_time (S (time w)) w). by split.
    - exists w. by split.
    - exists (with_time (S (time w)) w). by split. }
  destruct Hdefault as (w0 & Hs0 & ->).
  apply stored_at_start; [done|].
  subst name. destruct session_name as [[|c s]|];
    apply session_id_not_empty.
Qed.

(** *** Back to a stored session *)




(** *** The policy message at the head of the transcript *)

Lemma transcript_ok_dec w : {transcript_ok w} + {~ transcript_ok w}.
Proof.
  unfold transcript_ok. destruct (conversation w) as [h|].
  - destruct (begins_with_one_system h) eqn:E.
    + left. by exists h.
    + right. intros (h' & [= <-] & H). congruence.
  - right. by intros (h' & ? & _).
Qed.

Lemma transcript_ok_same w w' :
  conversation w' = conversation w -> transcript_ok w -> transcript_ok w'.
Proof. intros Hc (h & Hh & Hb). exists h. by rewrite Hc. Qed.

Lemma transcript_ok_fresh policy w :
  conversation w = Some (fresh policy) -> transcript_ok w.
Proof. intros H. by exists (fresh policy). Qed.

Lemma loaded_from_container name (c : gmap string Blob) doc :
  Storage.load_chat_history name c = Ok (Some doc) ->
  exists b, c !! name = Some b /\ body b = Some doc.
Proof.
  unfold Storage.load_chat_history.
  destruct (c !! name) as [b|]; [|done].
  destruct (body b) as [d|] eqn:E; [|done].
  intros [= <-]. by exists b.
Qed.

Lemma initialize_outcome (c : gmap string Blob) t up :
  conversation (exec (init up) (new_service c t))
  = Some (fresh policy_initialize)
  \/ replayed (exec (init up) (new_service c t)).
Proof.
  unfold exec. rewrite initialize_run. simpl.
  destruct up; [|by left].
  unfold exec. rewrite restore_run. simpl.
  destruct (list_chat_sessions c) as [|s rest]; [by left|].
  destruct (Storage.load_chat_history _ c) as [[doc|]|e] eqn:Hl;
    [|by left|by left].
  destruct (replay (chat_history doc) []) as [|m ms] eqn:Hr; [by left|].
  right. destruct (loaded_from_container _ _ _ Hl) as (b & Hb & Hd).
  exists (blob_name (newest_of s rest)), b, doc.
  split; [done|]. split; [done|]. simpl. by rewrite Hr.
Qed.

Lemma query_outcome q up reply w :
  kernel w = true -> transcript_ok w ->
  kernel (exec (query q up reply) w) = true
  /\ transcript_ok (exec (query q up reply) w).
Proof.
  intros Hk (h & Hh & Hb). unfold exec.
  rewrite (process_query_run q up reply w h Hk Hh).
  set (asked := with_conversation _ w).
  destruct (AgentFacts.exec_save_fields role_str clock asked)
    as (Hc1 & _ & _ & Hk1).
  assert (Hasked : begins_with_one_system (add_user_message q h) = true)
    by (by apply AgentFacts.begins_add_message).
  destruct reply as [v|e]; cbn [snd].
  - set (answered := with_conversation _ (exec save asked)).
    destruct (AgentFacts.exec_save_fields role_str clock answered)
      as (Hc2 & _ & _ & Hk2).
    split.
    { rewrite Hk2. change (kernel answered) with (kernel (exec save asked)).
      rewrite Hk1. exact Hk. }
    apply (transcript_ok_same answered); [done|].
    eexists. split; [reflexivity|].
    by apply AgentFacts.begins_add_message.
  - split; [rewrite Hk1; exact Hk|].
    apply (transcript_ok_same asked); [done|]. by eexists.
Qed.

Lemma create_outcome session_name w :
  kernel (exec (create session_name) w) = kernel w
  /\ (conversation (exec (create session_name) w) = conversation w
      \/ conversation (exec (create session_name) w)
         = Some (fresh policy_create)).
Proof.
  assert (Hname :
    exists name w0,
      kernel w0 = kernel w /\ conversation w0 = conversation w
      /\ create session_name w
         = (_ ← save_if_used role_str clock;
            start_session role_str policy_create clock name) w0).
  { destruct session_name as [[|c s]|].
    - by exists ("Chat " +:+ short (clock (time w))),
        (with_time (S (time w)) w).
    - by exists (String c s), w.
    - by exists ("Chat " +:+ short (clock (time w))),
        (with_time (S (time w)) w). }
  destruct Hname as (name & w0 & Hk & Hc & Hrun).
  unfold exec. rewrite Hrun, <- Hk, <- Hc. clear Hrun Hk Hc.
  unfold mbind, M_bind. rewrite AgentFacts.save_if_used_eq.
  assert (Hstart : forall w1,
            kernel w1 = kernel w0 ->
            kernel (snd (start_session role_str policy_create clock name w1))
            = kernel w0
            /\ conversation
                 (snd (start_session role_str policy_create clock name w1))
               = Some (fresh policy_create)).
  { intros w1 Hk1. rewrite start_session_run. simpl.
    set (x := with_conversation _ _).
    destruct (AgentFacts.exec_save_fields role_str clock x)
      as (Hc & _ & _ & Hk).
    by rewrite Hc, Hk. }
  destruct (has_user_messages w0).
  - rewrite AgentFacts.save_chat_history_eq.
    destruct (chat_storage w0); [|by split; [|left]].
    destruct (conversation w0) as [h|] eqn:Hh; [|by split; [|left]].
    destruct (Hstart (saved w0 h) eq_refl) as [Hk Hc].
    split; [done|by right].
  - destruct (Hstart w0 eq_refl) as [Hk Hc]. split; [done|by right].
Qed.

Lemma find_and_load_run sid w :
  chat_storage w = true ->
  find_and_load policy_switch sid w
  = match find (fun s => Text.contains sid (blob_name s))
            (list_chat_sessions (container w)) with
    | None =>
        (Ok true,
         with_conversation (Some (fresh policy_switch))
           (with_session_id sid w))
    | Some session =>
        match Storage.load_chat_history (blob_name session) (container w) with
        | Ok (Some doc) =>
            (Ok true,
             with_session_id sid
               (with_conversation (Some (replay (chat_history doc) [])) w))
        | Ok None => (Ok false, w)
        | Raise e => (Raise e, w)
        end
    end.
Proof.
  intros Hs.
  destruct (find _ _) as [session|] eqn:Hfind.
  - by apply AgentFacts.find_and_load_found.
  - unfold find_and_load, get_chat_sessions, mbind, M_bind, get. simpl.
    rewrite Hs. simpl. by rewrite Hfind.
Qed.

Lemma switch_outcome sid w :
  kernel (exec (switch sid) w) = kernel w
  /\ (conversation (exec (switch sid) w) = conversation w
      \/ conversation (exec (switch sid) w) = Some (fresh policy_switch)
      \/ replayed (exec (switch sid) w)).
Proof.
  destruct (chat_storage w) eqn:Hs.
  2:{ unfold exec. rewrite AgentFacts.switch_without_storage by done.
      split; [done|by left]. }
  unfold exec, switch_session, try_catch.
  erewrite bind_ok by (by apply save_if_used_with_storage).
  set (w1 := if has_user_messages w then exec save w else w).
  assert (Hw1 : kernel w1 = kernel w /\ conversation w1 = conversation w
                /\ chat_storage w1 = true).
  { subst w1. destruct (has_user_messages w); [|done].
    destruct (AgentFacts.exec_save_fields role_str clock w)
      as (Hc & _ & Hst & Hk).
    by rewrite Hc, Hst, Hk. }
  destruct Hw1 as (Hk1 & Hc1 & Hs1).
  rewrite (find_and_load_run sid w1 Hs1).
  destruct (find _ _) as [session|]; [|split; [done|by right; left]].
  destruct (Storage.load_chat_history _ _) as [[doc|]|e] eqn:Hl;
    [|split; [done|by left]|split; [done|by left]].
  split; [done|]. right. right.
  destruct (loaded_from_container _ _ _ Hl) as (b & Hb & Hd).
  by exists (blob_name session), b, doc.
Qed.

Lemma delete_outcome name w :
  kernel (exec (delete_chat_session name) w) = kernel w
  /\ conversation (exec (delete_chat_session name) w) = conversation w.
Proof.
  unfold exec, delete_chat_session, mbind, M_bind, get, modify, raise.
  simpl. destruct (chat_storage w); simpl; [|done].
  by destruct (Storage.delete_chat_session name (container w)).
Qed.

Lemma step_outcome c w :
  kernel w = true -> transcript_ok w ->
  kernel (run c w) = true
  /\ (transcript_ok (run c w)
      \/ (exists sid, c = SwitchSession sid) /\ replayed (run c w)).
Proof.
  intros Hk Hok. destruct c as [up|q up reply|n|sid| |name]; simpl.
  - unfold exec. rewrite initialize_run, Hk. simpl. split; [done|by left].
  - destruct (query_outcome q up reply w Hk Hok) as [Hk' Hok'].
    split; [done|by left].
  - destruct (create_outcome n w) as [Hk' [Hc|Hc]];
      (split; [by rewrite Hk'|left]).
    + by apply (transcript_ok_same w).
    + by apply (transcript_ok_fresh policy_create).
  - destruct (switch_outcome sid w) as [Hk' [Hc|[Hc|Hc]]];
      (split; [by rewrite Hk'|]).
    + left. by apply (transcript_ok_same w).
    + left. by apply (transcript_ok_fresh policy_switch).
    + right. split; [by exists sid|done].
  - destruct (AgentFacts.exec_save_fields role_str clock w)
      as (Hc & _ & _ & Hk').
    split; [by rewrite Hk'|left]. by apply (transcript_ok_same w).
  - destruct (delete_outcome name w) as [Hk' Hc].
    split; [by rewrite Hk'|left]. by apply (transcript_ok_same w).
Qed.

Lemma first_replay cs : forall w,
  kernel w = true -> transcript_ok w ->
  transcript_ok (run_all cs w)
  \/ exists before sid after,
       cs = (before ++ SwitchSession sid :: after)%list
       /\ transcript_ok (run_all before w)
       /\ replayed (run (SwitchSession sid) (run_all before w))
       /\ ~ transcript_ok (run (SwitchSession sid) (run_all before w)).
Proof.
  induction cs as [|c cs IH]; intros w Hk Hok; [by left|].
  destruct (step_outcome c w Hk Hok) as [Hk' Hstep].
  destruct (transcript_ok_dec (run c w)) as [Hok'|Hbad].
  - destruct (IH (run c w) Hk' Hok')
      as [Hend|(before & sid & after & -> & Hb & Hr & Hn)]; [by left|].
    right. by exists (c :: before), sid, after.
  - destruct Hstep as [Hok'|[[sid ->] Hr]]; [done|].
    right. by exists [], sid, cs.
Qed.

Lemma create_leaves_fresh name w r w' :
  create name w = (Ok r, w') -> conversation w' = Some (fresh policy_create).
Proof.
  unfold create_new_session, mbind at 1, M_bind at 1.
  destruct (_ w) as [[n|e] w1]; [|done].
  unfold mbind, M_bind. rewrite AgentFacts.save_if_used_eq.
  assert (Hstart : forall w2,
            start_session role_str policy_create clock n w2 = (Ok r, w') ->
            conversation w' = Some (fresh policy_create)).
  { intros w2 H. rewrite start_session_run in H. injection H as _ <-.
    set (x := with_conversation _ _).
    by destruct (AgentFacts.exec_save_fields role_str clock x) as (-> & _). }
  destruct (has_user_messages w1); [|apply Hstart].
  destruct (save w1) as [[a|e] w2]; [apply Hstart|done].
Qed.

(** C4, as the code has it: [initialize] on a new service leaves the
    policy message alone in the transcript, or the replay of a snapshot
    of the container; from a state whose transcript begins with one
    system message and holds no other, every call leaves such a
    transcript, but a [switch_session] that loads a snapshot, which
    leaves the replay of that snapshot; so in a run of calls the
    transcript begins with exactly one system message at the end, or it
    did up to a [switch_session] that left a replay that does not.  A
    session that [create_new_session] starts, or [switch_session] when it
    finds no snapshot, has the policy message as its only message, while
    a session that is loaded is the replay of its snapshot, with no
    policy message put in. *)
Theorem transcript_begins_with_one_system_until_replay :
  (forall (c : gmap string Blob) t up,
     kernel (exec (init up) (new_service c t)) = true
     /\ (conversation (exec (init up) (new_service c t))
         = Some [ {| role := SYSTEM; content := policy_initialize;
                     timestamp := None |} ]
         \/ replayed (exec (init up) (new_service c t))))
  /\ (forall c w,
        kernel w = true -> transcript_ok w ->
        kernel (run c w) = true
        /\ (transcript_ok (run c w)
            \/ (exists sid, c = SwitchSession sid) /\ replayed (run c w)))
  /\ (forall cs w,
        kernel w = true -> transcript_ok w ->
        transcript_ok (run_all cs w)
        \/ exists before sid after,
             cs = (before ++ SwitchSession sid :: after)%list
             /\ transcript_ok (run_all before w)
             /\ replayed (run (SwitchSession sid) (run_all before w))
             /\ ~ transcript_ok (run (SwitchSession sid) (run_all before w)))
  /\ (forall name w r w',
        create name w = (Ok r, w') ->
        conversation w' = Some [ {| role := SYSTEM; content := policy_create;
                                    timestamp := None |} ])
  /\ (forall sid w,
        chat_storage w = true ->
        (forall name b,
           container w !! name = Some b -> Text.contains sid name = false) ->
        conversation (exec (find_and_load policy_switch sid) w)
        = Some [ {| role := SYSTEM; content := policy_switch;
                    timestamp := None |} ])
  /\ (forall sid w session doc,
        chat_storage w = true ->
        find (fun s => Text.contains sid (blob_name s))
          (list_chat_sessions (container w)) = Some session ->
        Storage.load_chat_history (blob_name session) (container w)
        = Ok (Some doc) ->
        conversation (exec (find_and_load policy_switch sid) w)
        = Some (replay (chat_history doc) [])).
Proof.
  split; [|split; [|split; [|split; [|split]]]].
  - intros c t up. split; [apply kernel_after_initialize|].
    apply initialize_outcome.
  - apply step_outcome.
  - apply first_replay.
  - apply create_leaves_fresh.
  - intros sid w Hs Hnone. unfold exec.
    by rewrite AgentFacts.find_and_load_not_found.
  - intros sid w session doc Hs Hfind Hload. unfold exec.
    by rewrite (AgentFacts.find_and_load_found policy_switch sid w session
                  Hs Hfind), Hload.
Qed.

End WithEnvironment.

Lemma derived_id_of_saved_key_witness :
  Forall (fun p => plain_part p = true) ["Chat"; "01"; "01"; "10:00"]
  /\ derived_session_id (blob_key "Chat_01_01_10:00" Sample.ten) = "Chat_01".
Proof.
  assert (H : Forall (fun p => plain_part p = true)
                ["Chat"; "01"; "01"; "10:00"])
    by (repeat constructor).
  split; [exact H|].
  refine (derived_id_of_saved_key ["Chat"; "01"; "01"; "10:00"] Sample.ten
            _ H _ eq_refl); discriminate.
Defined.

(** Outside those conditions the id is not the first part: the text
    [chat_session_] is deleted from the key before it is split. *)
Lemma derived_id_without_prefix :
  derived_session_id (blob_key "chat_session_1" Sample.ten) = "1".
Proof. vm_compute. reflexivity. Qed.

Lemma app_close_snapshot_restores_as_date_witness :
  plain_part "20250101" = true /\ plain_part "100000" = true
  /\ compact Sample.ten = "20250101_100000"
  /\ derived_session_id
       (fst (save_chat_on_app_close [] Sample.ten Sample.headless_store))
     = "20250101".
Proof.
  do 3 (split; [reflexivity|]).
  exact (proj2 (app_close_snapshot_restores_as_date [] Sample.ten
                  Sample.headless_store "20250101" "100000"
                  eq_refl eq_refl eq_refl)).
Defined.

Lemma initialize_without_snapshots_witness :
  list_chat_sessions ∅ = []
  /\ initialize "policy at start" true (new_service ∅ 0)
     = (Ok tt,
        {| kernel := true;
           conversation := Some [Sample.system_says "policy at start"];
           chat_storage := true;
           current_session_id := "main_session";
           container := ∅;
           time := 0 |}).
Proof.
  split; [reflexivity|].
  apply (initialize_without_snapshots "policy at start" ∅ 0 true).
  intros _. reflexivity.
Defined.

Lemma process_query_extends_transcript_witness :
  kernel Sample.started = true
  /\ conversation Sample.started
     = Some [Sample.system_says "policy at start"]
  /\ exists w',
       process_query str_of_role "policy at start" Sample.sample_clock
         Normalizer.scalar_str Normalizer.no_dumps Sample.limits "hello" true
         (Ok (Json.VStr "hi")) Sample.started
       = (Normalizer._parse_response Normalizer.scalar_str
            Normalizer.no_dumps Sample.limits (Json.VStr "hi"),
          w')
       /\ conversation w'
          = Some [ Sample.system_says "policy at start";
                   Sample.user_says "hello"; Sample.assistant_says "hi" ].
Proof.
  split; [reflexivity|]. split; [reflexivity|].
  destruct (proj1 (process_query_extends_transcript str_of_role
                     "policy at start" Sample.sample_clock
                     Normalizer.scalar_str Normalizer.no_dumps Sample.limits
                     "hello" true Sample.started
                     [Sample.system_says "policy at start"]
                     eq_refl eq_refl) (Json.VStr "hi"))
    as (w' & Hrun & _ & Hconv & _).
  exists w'. split; [exact Hrun|exact Hconv].
Defined.

Lemma process_query_checkpoints_witness :
  chat_storage Sample.started = true
  /\ current_session_id Sample.started <> ""
  /\ container
       (snd (process_query str_of_role "policy at start"
               Sample.sample_clock Normalizer.scalar_str Normalizer.no_dumps
               Sample.limits "hello" true (Ok (Json.VStr "hi"))
               Sample.started))
     !! "main_session.json"
     = Some {| body :=
                 Some {| session_id := "main_session";
                         saved_at := iso Sample.five_past_ten;
                         message_count := 3;
                         chat_history :=
                           serialise str_of_role
                             [ Sample.system_says "policy at start";
                               Sample.user_says "hello";
                               Sample.assistant_says "hi" ] |};
               last_modified := server Sample.five_past_ten |}.
Proof.
  split; [reflexivity|]. split; [discriminate|].
  refine (proj1 (process_query_checkpoints str_of_role
                   "policy at start" Sample.sample_clock
                   Normalizer.scalar_str Normalizer.no_dumps Sample.limits
                   "hello" true
                   (Json.VStr "hi") Sample.started
                   [Sample.system_says "policy at start"]
                   eq_refl eq_refl eq_refl _)).
  discriminate.
Defined.

Lemma create_stores_new_session_witness :
  chat_storage Sample.with_storage = true
  /\ exists w' stamp,
       create_new_session str_of_role "policy of a new session"
         Sample.sample_clock (Some "My Chat") Sample.with_storage
       = (Ok "My_Chat", w')
       /\ container w' !! "My_Chat.json"
          = Some {| body :=
                      Some {| session_id := "My_Chat";
                              saved_at := iso stamp;
                              message_count := 1;
                              chat_history :=
                                serialise str_of_role
                                  (fresh "policy of a new session") |};
                    last_modified := server stamp |}.
Proof.
  split; [reflexivity|].
  exact (create_stores_new_session str_of_role
           "policy of a new session" Sample.sample_clock (Some "My Chat")
           Sample.with_storage eq_refl).
Defined.


Lemma transcript_begins_with_one_system_until_replay_witness :
  kernel Sample.started = true
  /\ transcript_ok Sample.started
  /\ (transcript_ok
        (steps str_of_role "policy at start" "policy of a new session"
           "policy of a switched session" Sample.sample_clock
           Normalizer.scalar_str Normalizer.no_dumps Sample.limits
           Sample.some_calls Sample.started)
      \/ exists before sid after,
           Sample.some_calls = (before ++ SwitchSession sid :: after)%list
           /\ transcript_ok
                (steps str_of_role "policy at start"
                   "policy of a new session" "policy of a switched session"
                   Sample.sample_clock Normalizer.scalar_str
                   Normalizer.no_dumps Sample.limits before Sample.started)
           /\ replayed
                (step str_of_role "policy at start"
                   "policy of a new session" "policy of a switched session"
                   Sample.sample_clock Normalizer.scalar_str
                   Normalizer.no_dumps Sample.limits (SwitchSession sid)
                   (steps str_of_role "policy at start"
                      "policy of a new session"
                      "policy of a switched session" Sample.sample_clock
                      Normalizer.scalar_str Normalizer.no_dumps Sample.limits
                      before Sample.started))
           /\ ~ transcript_ok
                  (step str_of_role "policy at start"
                     "policy of a new session" "policy of a switched session"
                     Sample.sample_clock Normalizer.scalar_str
                     Normalizer.no_dumps Sample.limits (SwitchSession sid)
                     (steps str_of_role "policy at start"
                        "policy of a new session"
                        "policy of a switched session" Sample.sample_clock
                        Normalizer.scalar_str Normalizer.no_dumps
                        Sample.limits before Sample.started))).
Proof.
  assert (Hok : transcript_ok Sample.started)
    by (eexists; split; reflexivity).
  split; [reflexivity|]. split; [exact Hok|].
  exact (proj1 (proj2 (proj2
           (transcript_begins_with_one_system_until_replay str_of_role
              "policy at start" "policy of a new session"
              "policy of a switched session" Sample.sample_clock
              Normalizer.scalar_str Normalizer.no_dumps Sample.limits)))
           Sample.some_calls Sample.started eq_refl Hok).
Defined.

End AgentLaws.

(** ** Properties of the plugins *)

Module PluginLaws.
Import Plugins.

(** The agent plugins answer with the last text of the first message of
    the thread that has text and an assistant role in any case of
    letters, whatever comes after it; with the fixed notice when no
    message of the thread is one; and with the error as text when a
    client call raises. *)
Theorem first_answer_is_first_assistant_text :
  (forall before m after,
     Forall (fun x => answers x = false) before ->
     answers m = true ->
     run_ai_foundry_agent (Ok (before ++ m :: after)%list)
     = List.last (text_messages m) "")
  /\ (forall message_list,
        Forall (fun x => answers x = false) message_list ->
        run_ai_foundry_agent (Ok message_list) = no_response)
  /\ (forall e, run_ai_foundry_agent (Raise e) = "Error: " +:+ e).
Proof.
  split; [|split; [|done]].
  - intros before m after Hb Hm. simpl.
    induction Hb as [|x before Hx _ IH]; simpl; [by rewrite Hm|].
    by rewrite Hx.
  - intros l H. simpl.
    induction H as [|x l Hx _ IH]; simpl; [done|]. by rewrite Hx.
Qed.

Lemma first_answer_is_first_assistant_text_witness :
  run_ai_foundry_agent (Ok Cases.thread) = "final".
Proof.
  refine (proj1 first_answer_is_first_assistant_text
            [ {| msg_role := "user"; text_messages := ["story?"] |};
              {| msg_role := "assistant"; text_messages := [] |} ]
            {| msg_role := "ASSISTANT";
               text_messages := ["draft"; "final"] |}
            [ {| msg_role := "assistant"; text_messages := ["older"] |} ]
            _ eq_refl).
  repeat constructor.
Defined.

End PluginLaws.

(** ** Properties of the endpoints *)

Module AppLaws.
Import Json Chat Storage Agent.

#[local] Arguments String.eqb : simpl never.
#[local] Arguments Ascii.eqb : simpl never.
#[local] Arguments replay : simpl never.

Section WithEndpoints.
Variable role_str : AuthorRole -> string.
Variable policy_initialize policy_create policy_switch : string.
Variable clock : nat -> Tick.
Variable py_str : PyVal -> Res string.
Variable json_dumps : PyVal -> Res string.
Variable limits : Limits.
Variable http_str : nat -> string -> string.
Variable validation_error : string.

Abbreviation save := (Agent.save_chat_history role_str clock).
Abbreviation saved := (after_save role_str clock).
Abbreviation key_of := (checkpoint_key clock).
Abbreviation switch := (Agent.switch_session role_str policy_switch clock).
Abbreviation create := (Agent.create_new_session role_str policy_create clock).
Abbreviation query :=
  (process_query role_str policy_initialize clock py_str json_dumps limits).
Abbreviation ensure := (Normalizer._ensure_string_content py_str json_dumps).
Abbreviation parse :=
  (Normalizer._parse_response py_str json_dumps limits).

Abbreviation chat_endpoint :=
  (App.chat role_str policy_initialize clock py_str json_dumps limits
     http_str validation_error).
Abbreviation switch_endpoint :=
  (App.switch_session role_str policy_switch clock).
Abbreviation create_endpoint :=
  (App.create_new_session role_str policy_create clock http_str).
Abbreviation save_endpoint := (App.save_chat_endpoint role_str clock http_str).
Abbreviation current_endpoint := (App.get_current_session http_str).
Abbreviation sessions_endpoint := (App.get_chat_sessions http_str).

(** The state a chat request leaves when the pipeline has answered. *)
Abbreviation answered q v h w :=
  (exec save
     (with_conversation
        (Some (add_assistant_message (ensure v) (add_user_message q h)))
        (exec save (with_conversation (Some (add_user_message q h)) w)))).

(** What the endpoint makes of the result of [_parse_response]. *)
Lemma chat_run q up v w h :
  kernel w = true -> conversation w = Some h ->
  snd (chat_endpoint q up (Ok v) (Some w)) = Some (answered q v h w)
  /\ match parse (VStr (ensure v)) with
     | Ok env =>
         forall text flags,
           dict_get "content" env = Some (VStr text) ->
           dict_get "metadata" env = Some (VDict flags) ->
           fst (chat_endpoint q up (Ok v) (Some w))
           = App.Respond (App.ChatResponse text flags)
     | Raise e =>
         fst (chat_endpoint q up (Ok v) (Some w)) = App.HTTPException 500 e
     end.
Proof.
  intros Hk Hh. unfold App.chat.
  rewrite (AgentLaws.process_query_run role_str policy_initialize clock
             py_str json_dumps limits q up (Ok v) w h Hk Hh).
  destruct (parse (VStr (ensure v))) as [env|e]; [|done].
  split.
  - destruct (dict_get "content" env) as [c|]; [|done].
    destruct (dict_get "metadata" env) as [m|]; [|done].
    by destruct c, m.
  - intros text flags Hc Hm. by rewrite Hc, Hm.
Qed.

(** [POST /api/chat] on an initialised service: when the pipeline
    returns, the user message and the reply are in the transcript, and
    the answer is a [ChatResponse] with the text and the flags of the
    envelope when [_parse_response] returns one, and status 500 with the
    text of the error when [_parse_response] raises (an error of
    [json.loads] that [_try_parse_json] does not catch); when the
    pipeline raises, the answer is status 500 with the text of the
    exception, and the user message stays in the transcript; and with no
    agent the status is 500, not 503. *)
Theorem chat_endpoint_outcomes q up w h :
  kernel w = true -> conversation w = Some h ->
  (forall v,
     exists w',
       snd (chat_endpoint q up (Ok v) (Some w)) = Some w'
       /\ conversation w'
          = Some (add_assistant_message (ensure v) (add_user_message q h))
       /\ match Normalizer._try_parse_json limits (ensure v) with
          | Ok _ =>
              exists env text flags,
                parse (VStr (ensure v)) = Ok env
                /\ dict_get "content" env = Some (VStr text)
                /\ dict_get "metadata" env = Some (VDict flags)
                /\ fst (chat_endpoint q up (Ok v) (Some w))
                   = App.Respond (App.ChatResponse text flags)
          | Raise e =>
              parse (VStr (ensure v)) = Raise e
              /\ fst (chat_endpoint q up (Ok v) (Some w))
                 = App.HTTPException 500 e
          end)
  /\ (forall e,
        exists w',
          chat_endpoint q up (Raise e) (Some w)
          = (App.HTTPException 500 e, Some w')
          /\ conversation w' = Some (add_user_message q h))
  /\ (forall reply,
        chat_endpoint q up reply None
        = (App.HTTPException 500
             (http_str 503 "Agent service not initialized"), None)).
Proof.
  intros Hk Hh. split; [|split; [|done]].
  - intros v. destruct (chat_run q up v w h Hk Hh) as [Hstate Hanswer].
    exists (answered q v h w). split; [done|]. split.
    { set (x := with_conversation _ (exec save _)).
      by destruct (AgentFacts.exec_save_fields role_str clock x) as (-> & _). }
    pose proof (NormalizerFacts.parse_outcome py_str json_dumps limits
                  (VStr (ensure v))) as Hp.
    change (Normalizer._ensure_string_content py_str json_dumps
              (VStr (ensure v))) with (ensure v) in Hp.
    destruct (Normalizer._try_parse_json limits (ensure v)) as [found|e].
    + destruct Hp as (env & Hp & [text Hc] & flags & Hm & _).
      rewrite Hp in Hanswer. exists env, text, flags.
      do 3 (split; [done|]). by apply Hanswer.
    + rewrite Hp in Hanswer. by split.
  - intros e. eexists. unfold App.chat.
    rewrite (AgentLaws.process_query_run role_str policy_initialize clock
               py_str json_dumps limits q up (Raise e) w h Hk Hh).
    split; [reflexivity|].
    destruct (AgentFacts.exec_save_fields role_str clock
                (with_conversation (Some (add_user_message q h)) w))
      as (Hc & _).
    by rewrite Hc.
Qed.

Lemma has_user_after_query q a (h : ChatHistory) w :
  conversation w
  = Some (add_assistant_message a (add_user_message q h)) ->
  has_user_messages w = true.
Proof.
  intros H. unfold has_user_messages. rewrite H.
  unfold add_assistant_message, add_user_message, add_message.
  rewrite !existsb_app. simpl. by rewrite orb_true_r.
Qed.

(** After a chat request that the pipeline has answered,
    [GET /api/sessions/current] reports the same session id, two
    messages more than before, and that the transcript is in use. *)
Theorem current_session_after_chat q up v w h :
  kernel w = true -> conversation w = Some h ->
  let after_chat :=
    snd (App.chat role_str policy_initialize clock py_str json_dumps limits
           http_str validation_error q up (Ok v) (Some w)) in
  App.get_current_session http_str after_chat
  = (App.Respond
       (App.CurrentSession (current_session_id w) (length h + 2) true),
     after_chat).
Proof.
  intros Hk Hh after_chat. subst after_chat.
  rewrite (proj1 (chat_run q up v w h Hk Hh)).
  set (asked := with_conversation _ w).
  set (answered := with_conversation _ (exec save asked)).
  destruct (AgentFacts.exec_save_fields role_str clock asked)
    as (_ & Hi1 & _).
  destruct (AgentFacts.exec_save_fields role_str clock answered)
    as (Hc2 & Hi2 & _).
  unfold App.get_current_session.
  rewrite (has_user_after_query q (ensure v) h) by (by rewrite Hc2).
  rewrite Hc2, Hi2. subst answered. simpl. rewrite Hi1. simpl.
  unfold add_assistant_message, add_user_message, add_message.
  rewrite !length_app. simpl.
  by replace (length h + 1 + 1) with (length h + 2) by lia.
Qed.

Lemma switch_returns sid w : exists b w', switch sid w = (Ok b, w').
Proof.
  unfold Agent.switch_session, try_catch.
  destruct ((_ ← save_if_used role_str clock;
             find_and_load policy_switch sid) w) as [[b|e] w'];
    by do 2 eexists.
Qed.

(** [POST /api/sessions/switch] answers with the success body when
    [switch_session] returns true and with status 404 when it returns
    false, and with nothing else; without a storage service it answers
    404 and changes nothing. *)
Theorem switch_endpoint_outcomes sid w :
  (exists b w',
     Agent.switch_session role_str policy_switch clock sid w = (Ok b, w')
     /\ App.switch_session role_str policy_switch clock sid (Some w)
        = (if b
           then App.Respond
                  (App.SessionResponse true (Some sid)
                     "Session switched successfully")
           else App.HTTPException 404 "Session not found",
           Some w'))
  /\ (chat_storage w = false ->
      App.switch_session role_str policy_switch clock sid (Some w)
      = (App.HTTPException 404 "Session not found", Some w)).
Proof.
  split.
  - destruct (switch_returns sid w) as (b & w' & H).
    exists b, w'. split; [done|].
    unfold App.switch_session. rewrite H. by destruct b.
  - intros Hs. unfold App.switch_session.
    by rewrite (AgentFacts.switch_without_storage _ _ _ sid w Hs).
Qed.

(** [POST /api/save-chat]: a transcript of system messages only is not
    stored and the answer says there is nothing to save; a transcript in
    use is stored under the key of the session id and the answer names
    the blob; without a storage service the answer is the failure body,
    with status 200, and nothing changes. *)
Theorem save_endpoint_outcomes w :
  (has_user_messages w = false ->
   save_endpoint (Some w)
   = (App.Respond
        (App.SaveChatResponse true None
           "No chat history to save (empty conversation)"), Some w))
  /\ (has_user_messages w = true -> chat_storage w = true ->
      exists h,
        conversation w = Some h
        /\ save_endpoint (Some w)
           = (App.Respond
                (App.SaveChatResponse true (Some (key_of w))
                   ("Session '" +:+ current_session_id w
                      +:+ "' saved successfully")),
              Some (saved w h)))
  /\ (has_user_messages w = true -> chat_storage w = false ->
      save_endpoint (Some w)
      = (App.Respond
           (App.SaveChatResponse false None
              "Failed to save chat: Chat storage not initialized"),
         Some w)).
Proof.
  unfold App.save_chat_endpoint. split; [|split].
  - by intros ->.
  - intros Hu Hs. rewrite Hu. simpl.
    destruct (AgentFacts.has_user_messages_conversation w Hu) as [h Hh].
    exists h. split; [done|].
    by rewrite AgentFacts.save_chat_history_eq, Hs, Hh.
  - intros Hu Hs. rewrite Hu. simpl.
    by rewrite AgentFacts.save_chat_history_eq, Hs.
Qed.

(** Across the endpoints: the blob that [POST /api/save-chat] names can
    be fetched, and holds the transcript as it was saved; deleting it
    succeeds once, after which both a fetch and a second delete answer
    404. *)
Theorem saved_chat_is_fetched_and_deleted w :
  has_user_messages w = true -> chat_storage w = true ->
  exists h name message a doc a',
    conversation w = Some h
    /\ save_endpoint (Some w)
       = (App.Respond (App.SaveChatResponse true (Some name) message), a)
    /\ App.get_chat_session name a = (App.Respond (App.ChatDocumentBody doc), a)
    /\ chat_history doc = serialise role_str h
    /\ message_count doc = length h
    /\ App.delete_chat_session name a = (App.Respond App.Deleted, a')
    /\ fst (App.get_chat_session name a')
       = App.HTTPException 404 "Chat session not found"
    /\ fst (App.delete_chat_session name a')
       = App.HTTPException 404 "Chat session not found".
Proof.
  intros Hu Hs.
  destruct (AgentFacts.has_user_messages_conversation w Hu) as [h Hh].
  exists h, (key_of w). do 2 eexists.
  exists (document (serialise role_str h) (current_session_id w)
            (clock (time w))).
  eexists.
  split; [done|].
  split.
  { unfold App.save_chat_endpoint. rewrite Hu. simpl.
    rewrite AgentFacts.save_chat_history_eq, Hs, Hh. reflexivity. }
  unfold App.get_chat_session, App.delete_chat_session,
    Agent.load_chat_history, Agent.delete_chat_session, mbind, M_bind, get,
    lift, modify, Storage.load_chat_history, Storage.delete_chat_session.
  simpl. rewrite Hs. simpl.
  rewrite lookup_insert_eq. simpl.
  split; [done|]. split; [done|].
  split; [unfold serialise; by rewrite length_map|].
  split; [reflexivity|].
  simpl. rewrite Hs. simpl. by rewrite lookup_delete_eq.
Qed.

(** Without a storage service the three endpoints over the stored
    sessions answer with status 500 and the text of the service's error,
    and change nothing; creating a session from a transcript in use
    answers with the failure body and changes nothing. *)
Theorem endpoints_without_storage w name session_name :
  chat_storage w = false ->
  sessions_endpoint (Some w)
  = (App.HTTPException 500 "Chat storage not initialized", Some w)
  /\ App.get_chat_session name (Some w)
     = (App.HTTPException 500 "Chat storage not initialized", Some w)
  /\ App.delete_chat_session name (Some w)
     = (App.HTTPException 500 "Chat storage not initialized", Some w)
  /\ (has_user_messages w = true ->
      exists w',
        create_endpoint session_name (Some w)
        = (App.Respond
             (App.SessionResponse false None
                "Failed to create session: Chat storage not initialized"),
           Some w')
        /\ conversation w' = conversation w
        /\ current_session_id w' = current_session_id w
        /\ container w' = container w).
Proof.
  intros Hs.
  unfold App.get_chat_sessions, App.get_chat_session,
    App.delete_chat_session, Agent.get_chat_sessions,
    Agent.load_chat_history, Agent.delete_chat_session, mbind, M_bind, get.
  simpl. rewrite Hs. simpl.
  do 3 (split; [done|]).
  intros Hu.
  assert (Hfail : forall chosen w0,
            has_user_messages w0 = true -> chat_storage w0 = false ->
            (_ ← save_if_used role_str clock;
             start_session role_str policy_create clock chosen) w0
            = (Raise not_initialized, w0)).
  { intros chosen w0 Hu0 Hs0. apply AgentLaws.bind_raise.
    by rewrite AgentFacts.save_if_used_eq, Hu0,
      AgentFacts.save_chat_history_eq, Hs0. }
  unfold App.create_new_session.
  destruct session_name as [[|c s]|].
  - exists (with_time (S (time w)) w).
    change (create (Some "") w)
      with ((_ ← save_if_used role_str clock;
             start_session role_str policy_create clock
               ("Chat " +:+ short (clock (time w))))
              (with_time (S (time w)) w)).
    by rewrite Hfail.
  - exists w.
    change (create (Some (String c s)) w)
      with ((_ ← save_if_used role_str clock;
             start_session role_str policy_create clock (String c s)) w).
    by rewrite Hfail.
  - exists (with_time (S (time w)) w).
    change (create None w)
      with ((_ ← save_if_used role_str clock;
             start_session role_str policy_create clock
               ("Chat " +:+ short (clock (time w))))
              (with_time (S (time w)) w)).
    by rewrite Hfail.
Qed.

End WithEndpoints.

Lemma chat_endpoint_outcomes_witness :
  kernel Sample.started = true
  /\ conversation Sample.started = Some [Sample.system_says "policy at start"]
  /\ App.chat str_of_role "policy at start" Sample.sample_clock
       Normalizer.scalar_str Normalizer.no_dumps Sample.limits
       Cases.plain_str "validation error" "hello" true (Raise "timeout")
       (Some Sample.started)
     = (App.HTTPException 500 "timeout",
        Some (with_time 1
                (with_container
                   {[ "main_session.json" :=
                        {| body :=
                             Some {| session_id := "main_session";
                                     saved_at := iso Sample.ten;
                                     message_count := 2;
                                     chat_history :=
                                       serialise str_of_role
                                         [ Sample.system_says
                                             "policy at start";
                                           Sample.user_says "hello" ] |};
                           last_modified := server Sample.ten |} ]}
                   (with_conversation
                      (Some [ Sample.system_says "policy at start";
                              Sample.user_says "hello" ])
                      Sample.started)))).
Proof.
  split; [reflexivity|]. split; [reflexivity|].
  destruct (proj1 (proj2 (chat_endpoint_outcomes str_of_role
                            "policy at start" Sample.sample_clock
                            Normalizer.scalar_str Normalizer.no_dumps
                            Sample.limits Cases.plain_str "validation error"
                            "hello" true Sample.started
                            [Sample.system_says "policy at start"]
                            eq_refl eq_refl)) "timeout")
    as (w' & Hrun & _).
  rewrite Hrun. f_equal. injection Hrun as <-. vm_compute. reflexivity.
Defined.

Lemma current_session_after_chat_witness :
  conversation Sample.started = Some [Sample.system_says "policy at start"]
  /\ fst (App.get_current_session Cases.plain_str
            (snd (App.chat str_of_role "policy at start"
                    Sample.sample_clock Normalizer.scalar_str
                    Normalizer.no_dumps Sample.limits Cases.plain_str
                    "validation error" "hello" true (Ok (VStr "hi"))
                    (Some Sample.started))))
     = App.Respond (App.CurrentSession "main_session" 3 true).
Proof.
  split; [reflexivity|].
  rewrite (current_session_after_chat str_of_role "policy at start"
             Sample.sample_clock Normalizer.scalar_str Normalizer.no_dumps
             Sample.limits Cases.plain_str "validation error" "hello" true
             (VStr "hi")
             Sample.started [Sample.system_says "policy at start"]
             eq_refl eq_refl).
  reflexivity.
Defined.

Lemma switch_endpoint_outcomes_witness :
  chat_storage Sample.without_storage = false
  /\ App.switch_session str_of_role "policy of a switched session"
       Sample.sample_clock "main_session" (Some Sample.without_storage)
     = (App.HTTPException 404 "Session not found",
        Some Sample.without_storage).
Proof.
  split; [reflexivity|].
  exact (proj2 (switch_endpoint_outcomes str_of_role
                  "policy of a switched session" Sample.sample_clock
                  "main_session" Sample.without_storage) eq_refl).
Defined.

Lemma save_endpoint_outcomes_witness :
  has_user_messages Sample.started = false
  /\ App.save_chat_endpoint str_of_role Sample.sample_clock
       Cases.plain_str (Some Sample.started)
     = (App.Respond
          (App.SaveChatResponse true None
             "No chat history to save (empty conversation)"),
        Some Sample.started).
Proof.
  split; [reflexivity|].
  exact (proj1 (save_endpoint_outcomes str_of_role Sample.sample_clock
                  Cases.plain_str Sample.started) eq_refl).
Defined.

Lemma saved_chat_is_fetched_and_deleted_witness :
  has_user_messages Sample.with_storage = true
  /\ chat_storage Sample.with_storage = true
  /\ exists name message a doc,
       App.save_chat_endpoint str_of_role Sample.sample_clock
         Cases.plain_str (Some Sample.with_storage)
       = (App.Respond (App.SaveChatResponse true (Some name) message), a)
       /\ App.get_chat_session name a
          = (App.Respond (App.ChatDocumentBody doc), a)
       /\ message_count doc = 3.
Proof.
  split; [reflexivity|]. split; [reflexivity|].
  destruct (saved_chat_is_fetched_and_deleted str_of_role
              Sample.sample_clock Cases.plain_str Sample.with_storage
              eq_refl eq_refl)
    as (h & name & message & a & doc & a' & Hh & Hsave & Hget & _ & Hcount
        & _).
  exists name, message, a, doc. split; [exact Hsave|]. split; [exact Hget|].
  rewrite Hcount.
  assert (Some h = Some [ Sample.system_says "policy at start";
                          Sample.user_says "hello";
                          Sample.assistant_says "hi" ]) as [= ->]
    by (rewrite <- Hh; reflexivity).
  reflexivity.
Defined.

Lemma endpoints_without_storage_witness :
  chat_storage Sample.without_storage = false
  /\ App.get_chat_sessions Cases.plain_str (Some Sample.without_storage)
     = (App.HTTPException 500 "Chat storage not initialized",
        Some Sample.without_storage).
Proof.
  split; [reflexivity|].
  exact (proj1 (endpoints_without_storage str_of_role
                  "policy of a new session" Sample.sample_clock
                  Cases.plain_str Sample.without_storage "main_session.json"
                  None eq_refl)).
Defined.

End AppLaws.
